(** * xgboost_ray: a shallow embedding of [xgboost_ray/main.py]

    The development follows the source file top to bottom: the Python
    helpers the code relies on ([str], [format], [os.path.join]), the
    checkpoint file naming, the actor ([RayXGBoostActor]) with its shard
    cache and its training call under a [RabitContext], the coordinator
    ([_train]) and the public retry loop ([train]).

    Integers are [Z] (Python [int]), strings are [string], dictionaries are
    [gmap]s, and every effect the code has on the outside (durable storage,
    the collaborators it calls) is threaded explicitly through a [World]. *)

From Stdlib Require Import ZArith String Ascii Decimal DecimalString DecimalN List Lia.
From stdpp Require Import gmap strings list fin_maps.

Open Scope Z_scope.

(** ** Python strings and integers *)

Module Py.

(** Decimal digits of a natural number, as [str] prints them. *)
Definition digits (n : N) : string :=
  NilEmpty.string_of_uint (N.to_uint n).

(** [str(z)] for an [int]. *)
Definition str_int (z : Z) : string :=
  if z <? 0 then "-" +:+ digits (Z.abs_N z) else digits (Z.abs_N z).

Fixpoint zeros (k : nat) : string :=
  match k with
  | O => ""
  | S k => String "0" (zeros k)
  end.

(** [format(z, "0{w}d")]: sign-aware zero padding to a minimum width; the
    sign counts towards the width and longer numbers are not cut. *)
Definition format_0d (w : nat) (z : Z) : string :=
  let d := digits (Z.abs_N z) in
  if z <? 0
  then "-" +:+ zeros (w - 1 - String.length d) +:+ d
  else zeros (w - String.length d) +:+ d.

(** [s.startswith(p)]. *)
Definition startswith (s p : string) : bool := String.prefix p s.

Fixpoint endswith_char (s : string) (c : ascii) : bool :=
  match s with
  | "" => false
  | String a "" => if decide (a = c) then true else false
  | String _ s' => endswith_char s' c
  end.

(** [posixpath.join(a, b)] for two components. *)
Definition path_join (a b : string) : string :=
  if startswith b "/" then b
  else if decide (a = "") then a +:+ b
  else if endswith_char a "/" then a +:+ b
  else a +:+ "/" +:+ b.

(** Truth value of an optional string: [None] and [""] are falsy. *)
Definition truthy (s : option string) : bool :=
  match s with
  | None | Some "" => false
  | Some _ => true
  end.

(** [range(n)]. *)
Definition range (n : Z) : list Z := Z.of_nat <$> seq 0 (Z.to_nat n).

(** Reading a formatted integer back; used to show that formatting loses
    nothing. *)
Definition digits_value (s : string) : option N :=
  N.of_uint <$> NilEmpty.uint_of_string s.

Definition parse_int (s : string) : option Z :=
  match digits_value s with
  | Some n => Some (Z.of_N n)
  | None =>
      match s with
      | String "-" s' => (λ n, - Z.of_N n) <$> digits_value s'
      | _ => None
      end
  end.

(** [needle in hay] for strings. *)
Fixpoint contains (hay needle : string) : bool :=
  String.prefix needle hay ||
  match hay with
  | "" => false
  | String _ hay' => contains hay' needle
  end.

End Py.

(** ** Checkpoint file naming (main.py, lines 66-69) *)

Definition _checkpoint_file (path : string) (prefix : option string) (rank : Z)
  : option string :=
  match prefix with
  | Some p =>
      if Py.truthy prefix
      then Some (Py.path_join path (p +:+ "_" +:+ Py.format_0d 5 rank +:+ ".xgb"))
      else None
  | None => None
  end.

(** What the specification writes for the path when a prefix is configured. *)
Definition spec_checkpoint_name (dir pre : string) (rank : Z) : string :=
  dir +:+ "/" +:+ pre +:+ "_" +:+ Py.format_0d 5 rank +:+ ".xgb".

(** ** Exceptions, data and the outside world *)

(** The exception classes the code raises or meets. *)
Inductive exn : Type :=
| RayActorError
| RuntimeError (msg : string)
| TypeError (msg : string)
| AttributeError (msg : string)
| ZeroDivisionError
| IndexError
| ImportError (msg : string)
| XGBoostError (msg : string)
| OtherError (name msg : string).

(** How a call running inside an actor process can go wrong: it raises, or
    the process dies under it (no Python code of the call runs after that). *)
Inductive fault : Type :=
| Raised (e : exn)
| ProcessDied.

Inductive res (E A : Type) : Type :=
| Ok (a : A)
| Err (e : E).
Arguments Ok {E A} a.
Arguments Err {E A} e.

(** Modelled from the spec: [xgboost_ray.matrix.RayDMatrix] is imported by
    [main.py] but is not among the sources.  The spec describes it as an
    identity-bearing reference to a logical dataset that exposes
    [loadShard(rank, totalWorkers) -> (features, labels)]; a handle is
    modelled by its identity, and its [load_data] is a collaborator of the
    actor process (see [Collaborators]). *)
Definition RayDMatrix : Type := nat.

(** [xgb.DMatrix(x, label=y)]. *)
Record DMatrix : Type := { dm_data : list (list Z); dm_label : list Z }.

(** An opaque model blob and the evaluation metrics of a run. *)
Definition Booster : Type := Z.
Definition EvalsResult : Type := gmap string (list Z).

(** Training hooks.  A caller-supplied hook is opaque and is taken to leave
    the world alone; the hook of [_save_checkpoint_callback] is the closure
    over the two things it reads from [self]. *)
Inductive callback : Type :=
| UserCallback (name : string)
| SaveCheckpointCallback (checkpoint_frequency : Z) (checkpoint_file : option string).

(** Python values found in [params] and [kwargs]. *)
Inductive value : Type :=
| VNone
| VInt (z : Z)
| VStr (s : string)
| VCallbacks (cbs : list callback)
| VOpaque (repr : string).

Inductive Event : Type :=
| EvRayInit
| EvLog (level msg : string)
| EvSpawn (rank num_actors num_gpus : Z)
| EvShardLoad (data : RayDMatrix) (rank num_actors : Z)
| EvTracker (num_workers : Z)
| EvRabitInit (args : list string)
| EvXgbTrain (xgb_model : option value)
| EvRabitFinalize
| EvSave (file : string)
| EvRemove (file : string).

(** Durable storage (path to saved model), whether the Ray runtime is up,
    and the calls made to the outside so far. *)
Record World : Type := {
  files : gmap string Booster;
  ray_initialized : bool;
  trace : list Event
}.

(** ** A state and error monad for Python code *)

Definition M (E A : Type) : Type := World → res E A * World.

Global Instance M_ret E : MRet (M E) := λ A a w, (Ok a, w).

Global Instance M_bind E : MBind (M E) := λ A B f m w,
  match m w with
  | (Ok a, w') => f a w'
  | (Err e, w') => (Err e, w')
  end.

Definition raise {E A} (e : E) : M E A := λ w, (Err e, w).

(** Python code running in an actor process. *)
Definition py {A} (m : M exn A) : M fault A := λ w,
  match m w with
  | (Ok a, w') => (Ok a, w')
  | (Err e, w') => (Err (Raised e), w')
  end.

Definition emit {E} (ev : Event) : M E unit := λ w,
  (Ok tt, {| files := files w; ray_initialized := ray_initialized w;
             trace := trace w ++ [ev] |}).

(** [for x in l: f(x)], collecting the results. *)
Fixpoint forM {E A B} (f : A → M E B) (l : list A) : M E (list B) :=
  match l with
  | [] => mret []
  | x :: l => y ← f x; ys ← forM f l; mret (y :: ys)
  end.

(** ** The file system calls *)

(** [os.path.exists(f)]; a [None] argument is a [TypeError]. *)
Definition os_path_exists (f : option string) : M exn bool := λ w,
  match f with
  | None =>
      (Err (TypeError "stat: path should be string, bytes, os.PathLike or integer, not NoneType"), w)
  | Some f => (Ok (bool_decide (is_Some (files w !! f))), w)
  end.

(** [os.remove(f)]. *)
Definition os_remove (f : option string) : M exn unit := λ w,
  match f with
  | None =>
      (Err (TypeError "remove: path should be string, bytes or os.PathLike, not NoneType"), w)
  | Some f =>
      match files w !! f with
      | None => (Err (OtherError "FileNotFoundError" f), w)
      | Some _ =>
          (Ok tt, {| files := delete f (files w);
                     ray_initialized := ray_initialized w;
                     trace := trace w ++ [EvRemove f] |})
      end
  end.

(** [model.save_model(f)]. *)
Definition save_model (model : Booster) (f : option string) : M exn unit := λ w,
  match f with
  | None => (Err (TypeError "fname must be a string"), w)
  | Some f =>
      (Ok tt, {| files := <[f := model]> (files w);
                 ray_initialized := ray_initialized w;
                 trace := trace w ++ [EvSave f] |})
  end.

(** ** The training engine and the other collaborators of an actor *)

(** What a hook is called with: [env.iteration] and [env.model]. *)
Record CallbackEnv : Type := { iteration : Z; model : Booster }.

(** The closure [callback] of [_save_checkpoint_callback] (main.py, lines
    97-99): [%] by zero raises, otherwise Python's [%] is [Z.modulo]. *)
Definition save_checkpoint_closure
    (checkpoint_frequency : Z) (checkpoint_file : option string)
    (env : CallbackEnv) : M exn unit :=
  if decide (checkpoint_frequency = 0) then raise ZeroDivisionError
  else if decide (iteration env `mod` checkpoint_frequency = 0)
       then save_model (model env) checkpoint_file
       else mret tt.

Definition call_callback (cb : callback) (env : CallbackEnv) : M exn unit :=
  match cb with
  | UserCallback _ => mret tt
  | SaveCheckpointCallback frequency file => save_checkpoint_closure frequency file env
  end.

(** How [xgb.train] ends in one actor. *)
Inductive EngineEnding : Type :=
| Finishes (evals_result : EvalsResult)
| Fails (e : exn)
| ProcessDies.

(** One run of the external engine: the boosting rounds it gets through, the
    model after each round, and how it ends. *)
Record EngineRun : Type := {
  rounds : nat;
  model_at : nat → Booster;
  ending : EngineEnding
}.

(** Rounds [i, i+1, ..., i+n-1]: after each round the engine calls the hooks
    in order; an error in a hook ends the run. *)
Fixpoint boost (run : EngineRun) (callbacks : list callback) (i n : nat) : M exn unit :=
  match n with
  | O => mret tt
  | S n =>
      forM (λ cb, call_callback cb
                    {| iteration := Z.of_nat i; model := model_at run i |})
           callbacks;;
      boost run callbacks (S i) n
  end.

(** [xgb.train(..., **kwargs)] as the actor sees it. *)
Definition xgb_train (run : EngineRun) (kwargs : gmap string value)
  : M fault (Booster * EvalsResult) :=
  callbacks ← match kwargs !! "callbacks" with
              | Some (VCallbacks cbs) => mret cbs
              | _ => mret []
              end;
  emit (EvXgbTrain (kwargs !! "xgb_model"));;
  py (boost run callbacks 0 (rounds run));;
  match ending run with
  | Finishes evals_result => mret (model_at run (rounds run), evals_result)
  | Fails e => raise (Raised e)
  | ProcessDies => raise ProcessDied
  end.

(** Everything one actor process meets outside this file: the dataset
    handles' [load_data(rank, num_actors)], [xgb.rabit.init] and the engine. *)
Record Collaborators : Type := {
  load_shard : RayDMatrix → Z → Z → res fault (list (list Z) * list Z);
  rabit_join : res fault unit;
  engine : EngineRun
}.

(** [ray.get(data.load_data(rank, num_actors))] inside the actor. *)
Definition ray_get_load_data (c : Collaborators) (data : RayDMatrix) (rank num_actors : Z)
  : M fault (list (list Z) * list Z) :=
  emit (EvShardLoad data rank num_actors);;
  match load_shard c data rank num_actors with
  | Ok xy => mret xy
  | Err f => raise f
  end.

Definition rabit_init (c : Collaborators) (args : list string) : M fault unit :=
  emit (EvRabitInit args);;
  match rabit_join c with
  | Ok _ => mret tt
  | Err f => raise f
  end.

Definition rabit_finalize : M fault unit := emit EvRabitFinalize.

(** ** RabitContext (main.py, lines 52-63) *)

Module RabitContext.

Record t : Type := { args : list string }.

Definition __init__ (actor_id : string) (args : list string) : t :=
  {| args := args ++ ["DMLC_TASK_ID=[xgboost.ray]:" +:+ actor_id] |}.

Definition __enter__ (c : Collaborators) (self : t) : M fault unit :=
  rabit_init c (args self).

Definition __exit__ (self : t) : M fault unit := rabit_finalize.

End RabitContext.

(** [with ctx: body].  [__exit__] runs when the body returns and when it
    raises (it returns [None], so the error goes on); it does not run when
    [__enter__] fails or when the process dies in the body. *)
Definition with_RabitContext {A} (c : Collaborators) (ctx : RabitContext.t)
    (body : M fault A) : M fault A := λ w,
  match RabitContext.__enter__ c ctx w with
  | (Err f, w1) => (Err f, w1)
  | (Ok _, w1) =>
      match body w1 with
      | (Err ProcessDied, w2) => (Err ProcessDied, w2)
      | (r, w2) =>
          match RabitContext.__exit__ ctx w2 with
          | (Ok _, w3) => (r, w3)
          | (Err f, w3) => (Err f, w3)
          end
      end
  end.

(** ** RayXGBoostActor (main.py, lines 72-148) *)

Module RayXGBoostActor.

(** The fields set by [__init__], and [object_id] for [id(self)].  The
    field [_evals] is never read or written again and is left out. *)
Record t : Type := {
  object_id : Z;
  rank : Z;
  num_actors : Z;
  checkpoint_prefix : option string;
  checkpoint_path : string;
  checkpoint_frequency : Z;
  _data : gmap RayDMatrix DMatrix
}.

Definition __init__ (object_id rank num_actors : Z)
    (checkpoint_prefix : option string) (checkpoint_path : string)
    (checkpoint_frequency : Z) : t :=
  {| object_id := object_id; rank := rank; num_actors := num_actors;
     checkpoint_prefix := checkpoint_prefix;
     checkpoint_path := checkpoint_path;
     checkpoint_frequency := checkpoint_frequency;
     _data := ∅ |}.

Definition checkpoint_file (self : t) : option string :=
  _checkpoint_file (checkpoint_path self) (checkpoint_prefix self) (rank self).

Definition _save_checkpoint_callback (self : t) : callback :=
  SaveCheckpointCallback (checkpoint_frequency self) (checkpoint_file self).

Definition set_data (self : t) (data : RayDMatrix) (matrix : DMatrix) : t :=
  {| object_id := object_id self; rank := rank self; num_actors := num_actors self;
     checkpoint_prefix := checkpoint_prefix self;
     checkpoint_path := checkpoint_path self;
     checkpoint_frequency := checkpoint_frequency self;
     _data := <[data := matrix]> (_data self) |}.

(** main.py, lines 102-105. *)
Definition load_data (c : Collaborators) (self : t) (data : RayDMatrix) : M fault t :=
  '(x, y) ← ray_get_load_data c data (rank self) (num_actors self);
  let matrix := {| dm_data := x; dm_label := y |} in
  mret (set_data self data matrix).

(** [if data not in self._data: self.load_data(data)] followed by
    [self._data[data]] (main.py, lines 116-118 and 122-124). *)
Definition load_if_missing (c : Collaborators) (self : t) (data : RayDMatrix)
  : M fault (t * DMatrix) :=
  match _data self !! data with
  | Some matrix => mret (self, matrix)
  | None =>
      self ← load_data c self data;
      match _data self !! data with
      | Some matrix => mret (self, matrix)
      | None => raise (Raised (OtherError "KeyError" ""))
      end
  end.

(** The loop over [evals] (main.py, lines 120-124). *)
Fixpoint load_evals (c : Collaborators) (self : t) (evals : list (RayDMatrix * string))
  : M fault (t * list (DMatrix * string)) :=
  match evals with
  | [] => mret (self, [])
  | (deval, name) :: evals =>
      '(self, matrix) ← load_if_missing c self deval;
      '(self, local_evals) ← load_evals c self evals;
      mret (self, (matrix, name) :: local_evals)
  end.

(** main.py, lines 107-148.  Returns the actor as the call leaves it and
    the dictionary [{"bst": ..., "evals_result": ...}] as a pair. *)
Definition train (c : Collaborators) (self : t) (rabit_args : list string)
    (params : gmap string value) (dtrain : RayDMatrix)
    (evals : list (RayDMatrix * string)) (args : list value)
    (kwargs : gmap string value) : M fault (t * (Booster * EvalsResult)) :=
  let local_params := params in
  '(self, local_dtrain) ← load_if_missing c self dtrain;
  '(self, local_evals) ← load_evals c self evals;
  found ← py (os_path_exists (checkpoint_file self));
  kwargs ← (if found : bool
            then match checkpoint_file self with
                 | Some f => mret (<["xgb_model" := VStr f]> kwargs)
                 | None => mret kwargs
                 end
            else mret kwargs);
  callbacks ← match kwargs !! "callbacks" with
              | Some (VCallbacks cbs) => mret cbs
              | Some _ => raise (Raised (AttributeError "object has no attribute 'append'"))
              | None => mret []
              end;
  let callbacks := callbacks ++ [_save_checkpoint_callback self] in
  let kwargs := <["callbacks" := VCallbacks callbacks]> kwargs in
  with_RabitContext c (RabitContext.__init__ (Py.str_int (object_id self)) rabit_args)
    ('(bst, evals_result) ← xgb_train (engine c) kwargs;
     mret (self, (bst, evals_result))).

End RayXGBoostActor.

(** ** The cluster the coordinator runs on *)

(** What the coordinator meets outside this file, by attempt (the value of
    [tries] when [_train] is called) and by rank. *)
Record Cluster : Type := {
  RAY_INSTALLED : bool;
  ray_init : res exn unit;
  get_node_ip_address : string;
  tracker_port : Z → Z;
  time_time : string;
  actor_object_id : Z → Z → Z;
  process : Z → Z → Collaborators
}.

(** A handle on a remote actor: the state of the actor while its process
    lives, [None] after it died. *)
Definition ActorHandle : Type := option RayXGBoostActor.t.

(** What a remote call left behind: its result, its error, or nothing
    because the process is gone. *)
Definition ObjectRef (A : Type) : Type := res fault A.

(** [actor.method.remote(...)]: the call runs in the actor's process.  After
    a call that raised, the handle keeps the state from before the call:
    [load_data] changes the state with its last statement only, and no call
    follows a [train] on the same actor. *)
Definition remote {A} (call : RayXGBoostActor.t → M fault (RayXGBoostActor.t * A))
    (actor : ActorHandle) : M exn (ActorHandle * ObjectRef A) := λ w,
  match actor with
  | None => (Ok (None, Err ProcessDied), w)
  | Some self =>
      match call self w with
      | (Ok (self', a), w') => (Ok (Some self', Ok a), w')
      | (Err (Raised e), w') => (Ok (Some self, Err (Raised e)), w')
      | (Err ProcessDied, w') => (Ok (None, Err ProcessDied), w')
      end
  end.

(** [ray.get(ref)]: an error of the call is raised again at the caller (Ray
    raises it as an instance of the original class); a dead actor is a
    [RayActorError]. *)
Definition ray_get1 {A} (ref : ObjectRef A) : M exn A :=
  match ref with
  | Ok a => mret a
  | Err (Raised e) => raise e
  | Err ProcessDied => raise RayActorError
  end.

(** [ray.get(refs)] for a list. *)
Definition ray_get {A} (refs : list (ObjectRef A)) : M exn (list A) :=
  forM ray_get1 refs.

(** ** The coordinator (main.py, lines 25-49 and 151-244) *)

Definition _assert_ray_support (cl : Cluster) : M exn unit :=
  if RAY_INSTALLED cl then mret tt
  else raise (ImportError
    "Ray needs to be installed in order to use this module. Try: `pip install ray`").

(** [if not ray.is_initialized(): ray.init()]. *)
Definition ray_init_if_needed (cl : Cluster) : M exn unit := λ w,
  if ray_initialized w then (Ok tt, w)
  else match ray_init cl with
       | Ok _ => (Ok tt, {| files := files w; ray_initialized := true;
                            trace := trace w ++ [EvRayInit] |})
       | Err e => (Err e, w)
       end.

(** ['%s=%s' % item]. *)
Definition str_value (v : value) : string :=
  match v with
  | VNone => "None"
  | VInt z => Py.str_int z
  | VStr s => s
  | VCallbacks _ => "[...]"
  | VOpaque repr => repr
  end.

Definition format_item (item : string * value) : string :=
  item.1 +:+ "=" +:+ str_value item.2.

Definition _start_rabit_tracker (cl : Cluster) (attempt : Z) (num_workers : Z)
  : M exn (list (string * value)) :=
  let host := get_node_ip_address cl in
  emit (EvTracker num_workers);;
  mret [("DMLC_NUM_WORKER", VInt num_workers);
        ("DMLC_TRACKER_URI", VStr host);
        ("DMLC_TRACKER_PORT", VInt (tracker_port cl attempt))].

Definition _create_actor (cl : Cluster) (attempt : Z) (rank num_actors num_gpus_per_worker : Z)
    (checkpoint_prefix : option string) (checkpoint_path : string)
    (checkpoint_frequency : Z) : M exn ActorHandle :=
  emit (EvSpawn rank num_actors num_gpus_per_worker);;
  mret (Some (RayXGBoostActor.__init__ (actor_object_id cl attempt rank)
                rank num_actors checkpoint_prefix checkpoint_path checkpoint_frequency)).

(** The collaborators of the process behind a handle. *)
Definition process_of (cl : Cluster) (attempt : Z) (self : RayXGBoostActor.t)
  : Collaborators :=
  process cl attempt (RayXGBoostActor.rank self).

Definition load_data_remote (cl : Cluster) (attempt : Z) (data : RayDMatrix)
    (actor : ActorHandle) : M exn (ActorHandle * ObjectRef unit) :=
  remote (λ self,
            self ← RayXGBoostActor.load_data (process_of cl attempt self) self data;
            mret (self, tt))
         actor.

(** main.py, lines 166-170. *)
Fixpoint _trigger_data_load_evals (cl : Cluster) (attempt : Z) (actor : ActorHandle)
    (evals : list (RayDMatrix * string)) : M exn (ActorHandle * list (ObjectRef unit)) :=
  match evals with
  | [] => mret (actor, [])
  | (deval, name) :: evals =>
      '(actor, ref) ← load_data_remote cl attempt deval actor;
      '(actor, refs) ← _trigger_data_load_evals cl attempt actor evals;
      mret (actor, ref :: refs)
  end.

Definition _trigger_data_load (cl : Cluster) (attempt : Z) (actor : ActorHandle)
    (dtrain : RayDMatrix) (evals : list (RayDMatrix * string))
  : M exn (ActorHandle * list (ObjectRef unit)) :=
  '(actor, ref) ← load_data_remote cl attempt dtrain actor;
  '(actor, refs) ← _trigger_data_load_evals cl attempt actor evals;
  mret (actor, ref :: refs).

(** The body of the loop of [_cleanup] (main.py, lines 178-181). *)
Definition cleanup_rank (checkpoint_prefix : option string) (checkpoint_path : string)
    (i : Z) : M exn unit :=
  let checkpoint_file := _checkpoint_file checkpoint_path checkpoint_prefix i in
  found ← os_path_exists checkpoint_file;
  if found : bool then os_remove checkpoint_file else mret tt.

(** main.py, lines 173-181. *)
Definition _cleanup (checkpoint_prefix : option string) (checkpoint_path : string)
    (num_actors : Z) : M exn unit :=
  forM (cleanup_rank checkpoint_prefix checkpoint_path) (Py.range num_actors);;
  mret tt.

(** The default of [gpus_per_worker] (main.py, lines 200-203).  A
    [tree_method] that is not a string has no [startswith]. *)
Definition resolve_gpus_per_worker (params : gmap string value) (gpus_per_worker : Z)
  : M exn Z :=
  if decide (gpus_per_worker = -1) then
    match params !! "tree_method" with
    | Some (VStr tree_method) =>
        if Py.startswith tree_method "gpu" then mret 1 else mret 0
    | Some _ => raise (AttributeError "object has no attribute 'startswith'")
    | None => mret 0
    end
  else mret gpus_per_worker.

(** The loop that fills [wait_load] (main.py, lines 215-217). *)
Fixpoint load_all (cl : Cluster) (attempt : Z) (actors : list ActorHandle)
    (dtrain : RayDMatrix) (evals : list (RayDMatrix * string))
  : M exn (list ActorHandle * list (ObjectRef unit)) :=
  match actors with
  | [] => mret ([], [])
  | actor :: actors =>
      '(actor, refs) ← _trigger_data_load cl attempt actor dtrain evals;
      '(actors, wait_load) ← load_all cl attempt actors dtrain evals;
      mret (actor :: actors, refs ++ wait_load)
  end.

Definition train_remote (cl : Cluster) (attempt : Z) (rabit_args : list string)
    (params : gmap string value) (dtrain : RayDMatrix)
    (evals : list (RayDMatrix * string)) (args : list value)
    (kwargs : gmap string value) (actor : ActorHandle)
  : M exn (ActorHandle * ObjectRef (Booster * EvalsResult)) :=
  remote (λ self,
            RayXGBoostActor.train (process_of cl attempt self) self rabit_args
              params dtrain evals args kwargs)
         actor.

(** main.py, lines 195-239: the part of [_train] that creates the actors,
    has them load and train, and fetches the first result.  [attempt] only
    selects what the cluster does. *)
Definition _train_result (cl : Cluster) (attempt : Z)
    (params : gmap string value) (dtrain : RayDMatrix) (args : list value)
    (evals : list (RayDMatrix * string)) (num_actors gpus_per_worker : Z)
    (checkpoint_prefix : option string) (checkpoint_path : string)
    (checkpoint_frequency : Z) (kwargs : gmap string value)
  : M exn (Booster * EvalsResult) :=
  _assert_ray_support cl;;
  ray_init_if_needed cl;;
  gpus_per_worker ← resolve_gpus_per_worker params gpus_per_worker;
  actors ← forM (λ i, _create_actor cl attempt i num_actors gpus_per_worker
                        checkpoint_prefix checkpoint_path checkpoint_frequency)
                (Py.range num_actors);
  emit (EvLog "info" ("[RayXGBoost] Created "
                      +:+ Py.str_int (Z.of_nat (length actors))
                      +:+ " remote actors."));;
  '(actors, wait_load) ← load_all cl attempt actors dtrain evals;
  ray_get wait_load;;
  emit (EvLog "info" "[RayXGBoost] Starting XGBoost training.");;
  env ← _start_rabit_tracker cl attempt num_actors;
  let rabit_args := format_item <$> env in
  started ← forM (train_remote cl attempt rabit_args params dtrain evals args kwargs)
                 actors;
  let fut := snd <$> started in
  ray_get fut;;
  match fut !! 0%nat with
  | Some ref => ray_get1 ref
  | None => raise IndexError
  end.

(** main.py, lines 184-244. *)
Definition _train (cl : Cluster) (attempt : Z)
    (params : gmap string value) (dtrain : RayDMatrix) (args : list value)
    (evals : list (RayDMatrix * string)) (num_actors gpus_per_worker : Z)
    (checkpoint_prefix : option string) (checkpoint_path : string)
    (checkpoint_frequency : Z) (kwargs : gmap string value)
  : M exn (Booster * EvalsResult) :=
  res ← _train_result cl attempt params dtrain args evals num_actors
          gpus_per_worker checkpoint_prefix checkpoint_path checkpoint_frequency
          kwargs;
  let '(bst, evals_result) := res in
  (if Py.truthy checkpoint_prefix
   then _cleanup checkpoint_prefix checkpoint_path num_actors
   else mret tt);;
  mret (bst, evals_result).

(** ** The public entry point (main.py, lines 247-315) *)

(** [max_actor_restarts] after line 276: an [int], or [float("inf")]. *)
Inductive Restarts : Type :=
| Finite (n : Z)
| Infinite.

Definition le_restarts (tries : Z) (max_actor_restarts : Restarts) : bool :=
  match max_actor_restarts with
  | Finite n => bool_decide (tries ≤ n)
  | Infinite => true
  end.

(** The message of lines 306-313 with the two arguments of [format]. *)
Definition exhaustion_message (arg0 arg1 : value) : string :=
  "A Ray actor died during training and the maximum number of retries is exhausted. Checkpoints have been stored at `"
  +:+ str_value arg0 +:+ "` with prefix `" +:+ str_value arg1
  +:+ "` - you can pass these parameters as `checkpoint_path` and `checkpoint_prefix` to the `train()` function to try to continue the training.".

(** The call of lines 288-299: the three checkpoint keywords are written
    out and [**kwargs] is passed as well, so a key of [kwargs] with one of
    their names is a [TypeError] at the call (the message names the first of
    them in the order below; CPython names the first in [kwargs]). *)
Definition call__train (cl : Cluster) (tries : Z)
    (params : gmap string value) (dtrain : RayDMatrix) (args : list value)
    (evals : list (RayDMatrix * string)) (num_actors gpus_per_worker : Z)
    (checkpoint_prefix checkpoint_path checkpoint_frequency : value)
    (kwargs : gmap string value) : M exn (Booster * EvalsResult) :=
  match filter (λ k, is_Some (kwargs !! k))
               ["checkpoint_prefix"; "checkpoint_path"; "checkpoint_frequency"] with
  | k :: _ =>
      raise (TypeError ("_train() got multiple values for keyword argument '" +:+ k +:+ "'"))
  | [] =>
      match checkpoint_prefix, checkpoint_path, checkpoint_frequency with
      | VStr prefix, VStr path, VInt frequency =>
          _train cl tries params dtrain args evals num_actors gpus_per_worker
                 (Some prefix) path frequency kwargs
      | VNone, VStr path, VInt frequency =>
          _train cl tries params dtrain args evals num_actors gpus_per_worker
                 None path frequency kwargs
      | _, _, _ => raise (TypeError "checkpoint keyword of an unexpected type")
      end
  end.

(** The [while] loop of lines 286-314; [None] when [fuel] iterations were
    not enough to leave it. *)
Fixpoint train_loop (fuel : nat) (cl : Cluster)
    (params : gmap string value) (dtrain : RayDMatrix) (args : list value)
    (evals : list (RayDMatrix * string)) (num_actors gpus_per_worker : Z)
    (max_actor_restarts : Restarts)
    (checkpoint_prefix checkpoint_path checkpoint_frequency : value)
    (kwargs : gmap string value) (tries : Z) (w : World)
  : option (res exn (option Booster * EvalsResult) * World) :=
  match fuel with
  | O => None
  | S fuel =>
      if le_restarts tries max_actor_restarts then
        match call__train cl tries params dtrain args evals num_actors
                gpus_per_worker checkpoint_prefix checkpoint_path
                checkpoint_frequency kwargs w with
        | (Ok (bst, evals_result), w') => Some (Ok (Some bst, evals_result), w')
        | (Err RayActorError, w') =>
            if le_restarts (tries + 1) max_actor_restarts then
              let w'' := (emit (E := exn) (EvLog "warning"
                "A Ray actor died during training. Trying to restart and continue training from last checkpoint.") w').2 in
              train_loop fuel cl params dtrain args evals num_actors
                gpus_per_worker max_actor_restarts checkpoint_prefix
                checkpoint_path checkpoint_frequency kwargs (tries + 1) w''
            else
              Some (Err (RuntimeError
                           (exhaustion_message checkpoint_path checkpoint_frequency)), w')
        | (Err e, w') => Some (Err e, w')
        end
      else Some (Ok (None, ∅), w)
  end.

Definition train (fuel : nat) (cl : Cluster)
    (params : gmap string value) (dtrain : RayDMatrix) (args : list value)
    (evals : list (RayDMatrix * string)) (num_actors gpus_per_worker : Z)
    (max_actor_restarts : Z) (kwargs : gmap string value) (w : World)
  : option (res exn (option Booster * EvalsResult) * World) :=
  let max_actor_restarts :=
    if bool_decide (0 ≤ max_actor_restarts) then Finite max_actor_restarts else Infinite in
  match _assert_ray_support cl w with
  | (Err e, w') => Some (Err e, w')
  | (Ok _, w') =>
      let checkpoint_prefix :=
        default (VStr (".xgb_ray_" +:+ time_time cl)) (kwargs !! "checkpoint_prefix") in
      let checkpoint_path := default (VStr "/tmp") (kwargs !! "checkpoint_path") in
      let checkpoint_frequency := default (VInt 5) (kwargs !! "checkpoint_frequency") in
      train_loop fuel cl params dtrain args evals num_actors gpus_per_worker
        max_actor_restarts checkpoint_prefix checkpoint_path checkpoint_frequency
        kwargs 0 w'
  end.

(** ** Vocabulary of the properties *)

(** Every run of [m] relates the world before to the world after. *)
Definition respects {E A} (R : relation World) (m : M E A) : Prop :=
  ∀ w, R w (m w).2.

(** No file is lost and the trace grows by events that satisfy [P]. *)
Definition steps (P : Event → Prop) : relation World := λ w w',
  (∀ f, is_Some (files w !! f) → is_Some (files w' !! f)) ∧
  ∃ evs, trace w' = trace w ++ evs ∧ Forall P evs.

Definition is_spawn (ev : Event) : bool :=
  match ev with EvSpawn _ _ _ => true | _ => false end.

Definition is_shard_load (data : RayDMatrix) (ev : Event) : bool :=
  match ev with EvShardLoad d _ _ => bool_decide (d = data) | _ => false end.

Definition is_any_shard_load (ev : Event) : bool :=
  match ev with EvShardLoad _ _ _ => true | _ => false end.

Definition is_save (ev : Event) : bool :=
  match ev with EvSave _ => true | _ => false end.

Definition is_remove (ev : Event) : bool :=
  match ev with EvRemove _ => true | _ => false end.

(** The events an actor process can add to the trace. *)
Definition is_actor_event (ev : Event) : bool :=
  match ev with
  | EvShardLoad _ _ _ | EvRabitInit _ | EvXgbTrain _ | EvRabitFinalize | EvSave _ => true
  | _ => false
  end.

Definition count_events (p : Event → bool) (tr : list Event) : nat :=
  length (List.filter p tr).

(** Worker-spawn events so far. *)
Definition spawns (w : World) : nat := count_events is_spawn (trace w).

(** Calls of the handle's [load_data] so far. *)
Definition shard_loads (data : RayDMatrix) (w : World) : nat :=
  count_events (is_shard_load data) (trace w).

(** The task identifier an actor joins the rendezvous with. *)
Definition task_id (self : RayXGBoostActor.t) : string :=
  "DMLC_TASK_ID=[xgboost.ray]:" +:+ Py.str_int (RayXGBoostActor.object_id self).

(** An event that is neither a spawn nor a removal of a file. *)
Definition is_quiet (ev : Event) : Prop :=
  is_spawn ev = false ∧ is_remove ev = false.

(** No file is lost, nothing is removed, and at most [k] workers are
    spawned. *)
Definition spawned_at_most (k : nat) : relation World := λ w w',
  steps (λ ev, is_remove ev = false) w w' ∧ (spawns w' ≤ spawns w + k)%nat.

(** The last of the iterations [0, ..., n - 1] at which a hook of period
    [frequency] saves. *)
Definition last_checkpoint (frequency : Z) (n : nat) : nat :=
  Z.to_nat (frequency * ((Z.of_nat n - 1) `div` frequency)).

(** What a run of the engine hands back when no hook fails. *)
Definition engine_outcome (run : EngineRun) : res fault (Booster * EvalsResult) :=
  match ending run with
  | Finishes evals_result => Ok (model_at run (rounds run), evals_result)
  | Fails e => Err (Raised e)
  | ProcessDies => Err ProcessDied
  end.

(** The fields [__init__] sets stay as they are; only the cache changes. *)
Local Abbreviation same_actor self self' :=
  (RayXGBoostActor.object_id self' = RayXGBoostActor.object_id self ∧
   RayXGBoostActor.rank self' = RayXGBoostActor.rank self ∧
   RayXGBoostActor.num_actors self' = RayXGBoostActor.num_actors self ∧
   RayXGBoostActor.checkpoint_prefix self' = RayXGBoostActor.checkpoint_prefix self ∧
   RayXGBoostActor.checkpoint_path self' = RayXGBoostActor.checkpoint_path self ∧
   RayXGBoostActor.checkpoint_frequency self' = RayXGBoostActor.checkpoint_frequency self).

(** A remote call that returned. *)
Local Abbreviation ok_ref ref := (∃ u, ref = Ok u).

(** Only files that satisfy [S] are created, changed or removed. *)
Definition only_files (S : string → Prop) : relation World := λ w w',
  ∀ g, ¬ S g → files w' !! g = files w !! g.

(** A [ray.init()] that succeeded. *)
Definition is_ray_init (ev : Event) : bool :=
  match ev with EvRayInit => true | _ => false end.

(** The runtime is never shut down; it is initialized once if it was not up
    and is up afterwards, and never if it was up. *)
Definition init_once : relation World := λ w w',
  ∃ evs, trace w' = trace w ++ evs ∧
    if ray_initialized w
    then ray_initialized w' = true ∧ count_events is_ray_init evs = 0%nat
    else count_events is_ray_init evs = (if ray_initialized w' then 1 else 0)%nat.

(** The events of the setup of an attempt: bringing up the runtime, logging,
    creating workers and loading shards. *)
Definition is_setup (ev : Event) : bool :=
  match ev with
  | EvRayInit | EvLog _ _ | EvSpawn _ _ _ | EvShardLoad _ _ _ => true
  | _ => false
  end.

(** ** A small cluster to run the code on *)

Definition empty_world : World :=
  {| files := ∅; ray_initialized := false; trace := [] |}.

(** A process whose loads succeed, which joins the rendezvous, and whose
    engine gets through seven rounds before it ends as told. *)
Definition demo_process (ending : EngineEnding) : Collaborators :=
  {| load_shard := λ data rank num_actors, Ok ([[Z.of_nat data; rank]], [num_actors]);
     rabit_join := Ok tt;
     engine := {| rounds := 7; model_at := λ i, Z.of_nat i; ending := ending |} |}.

(** A cluster where the actor of rank [1] dies in the engine during the
    attempts before [first_good] and every other run finishes. *)
Definition demo_cluster (first_good : Z) : Cluster :=
  {| RAY_INSTALLED := true;
     ray_init := Ok tt;
     get_node_ip_address := "10.0.0.1";
     tracker_port := λ _, 9091;
     time_time := "1600000000.5";
     actor_object_id := λ attempt rank, 140000 + 1000 * attempt + rank;
     process := λ attempt rank,
       demo_process (if bool_decide (attempt < first_good ∧ rank = 1)
                     then ProcessDies else Finishes ∅) |}.

(** A cluster where the engine of every actor rejects the parameters. *)
Definition rejecting_cluster : Cluster :=
  {| RAY_INSTALLED := true;
     ray_init := Ok tt;
     get_node_ip_address := "10.0.0.1";
     tracker_port := λ _, 9091;
     time_time := "1600000000.5";
     actor_object_id := λ attempt rank, 140000 + 1000 * attempt + rank;
     process := λ attempt rank,
       {| load_shard := λ data rank num_actors, Ok ([[Z.of_nat data; rank]], [num_actors]);
          rabit_join := Ok tt;
          engine := {| rounds := 0; model_at := λ i, 0;
                       ending := Fails (XGBoostError "Invalid Parameter") |} |} |}.

(** A cluster where every actor dies while it loads its shard. *)
Definition doomed_cluster : Cluster :=
  {| RAY_INSTALLED := true;
     ray_init := Ok tt;
     get_node_ip_address := "10.0.0.1";
     tracker_port := λ _, 9091;
     time_time := "1600000000.5";
     actor_object_id := λ attempt rank, 140000 + 1000 * attempt + rank;
     process := λ attempt rank,
       {| load_shard := λ data rank num_actors, Err ProcessDied;
          rabit_join := Ok tt;
          engine := {| rounds := 0; model_at := λ i, 0; ending := ProcessDies |} |} |}.

(** A world in which rank [0] already has a checkpoint under ["ckpt"]. *)
Definition checkpointed_world : World :=
  {| files := {["/tmp/ckpt_00000.xgb" := 3]}; ray_initialized := false; trace := [] |}.

Definition demo_actor : RayXGBoostActor.t :=
  RayXGBoostActor.__init__ 140001 1 4 (Some "ckpt") "/tmp" 5.

(** * Properties *)

(** ** Strings and formatted integers *)

Section strings.

Lemma app_cons (a : ascii) (s t : string) : String a s +:+ t = String a (s +:+ t).
Proof. reflexivity. Qed.

Lemma app_nil_l (t : string) : "" +:+ t = t.
Proof. reflexivity. Qed.

Lemma app_length (s t : string) :
  String.length (s +:+ t) = (String.length s + String.length t)%nat.
Proof. induction s as [|a s IH]; [done|]. rewrite app_cons. simpl. by rewrite IH. Qed.

(** Two strings with a common ending are equal when the rest is. *)
Lemma app_inv_tail (t s1 s2 : string) : s1 +:+ t = s2 +:+ t → s1 = s2.
Proof.
  revert s2. induction s1 as [|a s1 IH]; intros [|b s2] H.
  - done.
  - apply (f_equal String.length) in H.
    rewrite app_cons, app_nil_l in H. simpl in H. rewrite app_length in H. lia.
  - apply (f_equal String.length) in H.
    rewrite app_cons, app_nil_l in H. simpl in H. rewrite app_length in H. lia.
  - rewrite !app_cons in H. injection H as -> H. f_equal. by apply IH.
Qed.

Lemma digits_value_digits (n : N) : Py.digits_value (Py.digits n) = Some n.
Proof.
  unfold Py.digits_value, Py.digits. rewrite NilEmpty.usu. simpl.
  by rewrite Unsigned.of_to.
Qed.

Lemma digits_value_zero (s : string) :
  Py.digits_value (String "0" s) = Py.digits_value s.
Proof.
  unfold Py.digits_value. simpl.
  by destruct (NilEmpty.uint_of_string s).
Qed.

Lemma digits_value_zeros (k : nat) (s : string) :
  Py.digits_value (Py.zeros k +:+ s) = Py.digits_value s.
Proof.
  induction k as [|k IH]; [done|].
  simpl. by rewrite app_cons, digits_value_zero.
Qed.

Lemma digits_value_dash (s : string) : Py.digits_value (String "-" s) = None.
Proof.
  unfold Py.digits_value. simpl.
  by destruct (NilEmpty.uint_of_string s).
Qed.

(** A formatted integer reads back as the integer, whatever the width. *)
Lemma parse_int_format_0d (w : nat) (z : Z) : Py.parse_int (Py.format_0d w z) = Some z.
Proof.
  unfold Py.format_0d, Py.parse_int.
  destruct (Z.ltb_spec z 0) as [Hneg|Hpos].
  - rewrite app_cons, digits_value_dash.
    rewrite app_nil_l, digits_value_zeros, digits_value_digits. simpl.
    f_equal. rewrite N2Z.inj_abs_N. lia.
  - rewrite digits_value_zeros, digits_value_digits.
    f_equal. rewrite N2Z.inj_abs_N. lia.
Qed.

Lemma format_0d_inj (w : nat) (z1 z2 : Z) :
  Py.format_0d w z1 = Py.format_0d w z2 → z1 = z2.
Proof.
  intros H. apply (f_equal Py.parse_int) in H.
  rewrite !parse_int_format_0d in H. congruence.
Qed.

Lemma startswith_slash (c : ascii) (s : string) :
  Py.startswith (String c s) "/" = bool_decide (c = "/"%char).
Proof.
  unfold Py.startswith.
  change (String.prefix "/" (String c s))
    with (if ascii_dec "/" c then String.prefix "" s else false).
  destruct (ascii_dec "/" c) as [<-|Hc].
  - by destruct s.
  - rewrite bool_decide_eq_false_2; congruence.
Qed.

(** For a fixed directory, [os.path.join] keeps apart names that start alike. *)
Lemma path_join_inj (a p t1 t2 : string) :
  p ≠ "" → Py.path_join a (p +:+ t1) = Py.path_join a (p +:+ t2) → t1 = t2.
Proof.
  intros Hp. destruct p as [|c p]; [done|].
  unfold Py.path_join. rewrite !app_cons, !startswith_slash.
  repeat case_match; rewrite <- ?app_cons; intros Hjoin;
    repeat (apply (inj (String.app _)) in Hjoin); done.
Qed.

(** When the directory is not empty and has no trailing separator and the
    name is relative, [os.path.join] puts one separator between them. *)
Lemma path_join_plain (a b : string) :
  a ≠ "" → Py.endswith_char a "/" = false → Py.startswith b "/" = false →
  Py.path_join a b = a +:+ "/" +:+ b.
Proof.
  intros Ha Hend Hb. unfold Py.path_join. rewrite Hb, Hend.
  by rewrite decide_False.
Qed.

End strings.

(** ** Checkpoint file naming *)

Example checkpoint_file_rank7 :
  _checkpoint_file "/tmp" (Some "ckpt") 7 = Some "/tmp/ckpt_00007.xgb".
Proof. reflexivity. Qed.

Example checkpoint_file_no_prefix :
  _checkpoint_file "/tmp" None 7 = None ∧ _checkpoint_file "/tmp" (Some "") 7 = None.
Proof. split; reflexivity. Qed.

Example format_0d_examples :
  Py.format_0d 5 (-1) = "-0001" ∧ Py.format_0d 5 123456 = "123456" ∧
  Py.format_0d 5 0 = "00000" ∧ Py.format_0d 5 (-12345) = "-12345".
Proof. repeat split. Qed.

Lemma checkpoint_file_Some (path p : string) (rank : Z) :
  p ≠ "" →
  _checkpoint_file path (Some p) rank
  = Some (Py.path_join path (p +:+ "_" +:+ Py.format_0d 5 rank +:+ ".xgb")).
Proof. intros Hp. unfold _checkpoint_file. by destruct p. Qed.

Lemma checkpoint_file_truthy (path : string) (prefix : option string) (rank : Z) :
  Py.truthy prefix = true → is_Some (_checkpoint_file path prefix rank).
Proof.
  destruct prefix as [[|c p]|]; [done| |done]. intros _.
  rewrite checkpoint_file_Some by done. by eexists.
Qed.

Lemma checkpoint_file_inj (path : string) (prefix : option string) (rank rank' : Z) :
  Py.truthy prefix = true →
  _checkpoint_file path prefix rank = _checkpoint_file path prefix rank' →
  rank = rank'.
Proof.
  destruct prefix as [[|c p]|]; [done| |done]. intros _.
  rewrite !checkpoint_file_Some by done. intros [= H].
  apply path_join_inj in H; [|done].
  apply (inj (String.app _)) in H. apply app_inv_tail in H.
  by apply format_0d_inj in H.
Qed.

(** C6, counterexample: with the directory ["/tmp/"] the code returns
    ["/tmp/ckpt_00000.xgb"], which is not the string
    [{checkpointDir}/{checkpointPrefix}_{rank:05d}.xgb] of the claim
    (["/tmp//ckpt_00000.xgb"]): [os.path.join] adds no separator after a
    directory that ends in one. *)
Lemma checkpoint_file_trailing_separator :
  _checkpoint_file "/tmp/" (Some "ckpt") 0 = Some "/tmp/ckpt_00000.xgb" ∧
  spec_checkpoint_name "/tmp/" "ckpt" 0 = "/tmp//ckpt_00000.xgb" ∧
  _checkpoint_file "/tmp/" (Some "ckpt") 0 ≠ Some (spec_checkpoint_name "/tmp/" "ckpt" 0).
Proof. repeat split. intros [=]. Qed.

(** C6, amended: [_checkpoint_file] is a function of (directory, prefix,
    rank) that returns [None] exactly when the prefix is [None] or empty;
    otherwise it returns [os.path.join] of the directory and
    [{prefix}_{rank:05d}.xgb], which is the string
    [{directory}/{prefix}_{rank:05d}.xgb] whenever the directory is not
    empty and does not end in a separator and the prefix does not start with
    one; and for a fixed directory and configured prefix two ranks with the
    same path are the same rank. *)
Theorem checkpoint_file_naming (path : string) (prefix : option string) (rank : Z) :
  (_checkpoint_file path prefix rank = None ↔ Py.truthy prefix = false) ∧
  (∀ p, prefix = Some p → p ≠ "" →
     _checkpoint_file path prefix rank
     = Some (Py.path_join path (p +:+ "_" +:+ Py.format_0d 5 rank +:+ ".xgb")) ∧
     (path ≠ "" → Py.endswith_char path "/" = false → Py.startswith p "/" = false →
      _checkpoint_file path prefix rank = Some (spec_checkpoint_name path p rank))) ∧
  (∀ rank', Py.truthy prefix = true →
     _checkpoint_file path prefix rank = _checkpoint_file path prefix rank' →
     rank = rank').
Proof.
  split; [|split].
  - destruct prefix as [[|c p]|]; [done| |done].
    rewrite checkpoint_file_Some by done. split; discriminate.
  - intros p -> Hp. split; [by apply checkpoint_file_Some|].
    intros Hpath Hend Hstart. rewrite checkpoint_file_Some by done.
    unfold spec_checkpoint_name. f_equal. apply path_join_plain; try done.
    destruct p as [|c p]; [done|].
    rewrite app_cons, startswith_slash. by rewrite startswith_slash in Hstart.
  - intros rank'. apply checkpoint_file_inj.
Qed.

Lemma checkpoint_file_naming_witness :
  _checkpoint_file "/tmp" (Some "ckpt") 7 = Some (spec_checkpoint_name "/tmp" "ckpt" 7) ∧
  (_checkpoint_file "/tmp" (Some "ckpt") 7 = _checkpoint_file "/tmp" (Some "ckpt") 7 → 7 = 7).
Proof.
  destruct (checkpoint_file_naming "/tmp" (Some "ckpt") 7) as (_ & Hname & Hinj).
  split.
  - destruct (Hname "ckpt") as [_ Hspec]; [reflexivity|discriminate|].
    apply Hspec; [discriminate|reflexivity|reflexivity].
  - apply Hinj. reflexivity.
Defined.

(** ** The default number of GPUs per worker *)

Example gpus_default_gpu_hist :
  resolve_gpus_per_worker {["tree_method" := VStr "gpu_hist"]} (-1) empty_world
  = (Ok 1, empty_world).
Proof. reflexivity. Qed.

Example gpus_default_hist :
  resolve_gpus_per_worker {["tree_method" := VStr "hist"]} (-1) empty_world
  = (Ok 0, empty_world).
Proof. reflexivity. Qed.

(** C7: an explicit count is used as it is; the sentinel [-1] resolves to
    [1] when [params] has a [tree_method] that starts with ["gpu"], and to
    [0] when it has one that does not or has none. *)
Theorem gpus_per_worker_resolution
    (params : gmap string value) (gpus_per_worker : Z) (w : World) :
  (gpus_per_worker ≠ -1 →
   resolve_gpus_per_worker params gpus_per_worker w = (Ok gpus_per_worker, w)) ∧
  (gpus_per_worker = -1 →
   (∀ tree_method, params !! "tree_method" = Some (VStr tree_method) →
      Py.startswith tree_method "gpu" = true →
      resolve_gpus_per_worker params gpus_per_worker w = (Ok 1, w)) ∧
   (∀ tree_method, params !! "tree_method" = Some (VStr tree_method) →
      Py.startswith tree_method "gpu" = false →
      resolve_gpus_per_worker params gpus_per_worker w = (Ok 0, w)) ∧
   (params !! "tree_method" = None →
      resolve_gpus_per_worker params gpus_per_worker w = (Ok 0, w))).
Proof.
  unfold resolve_gpus_per_worker. split.
  - intros Hne. by rewrite decide_False.
  - intros ->. rewrite decide_True by done.
    repeat split; [intros tm -> ->|intros tm -> ->|intros ->]; done.
Qed.

Lemma gpus_per_worker_resolution_witness :
  resolve_gpus_per_worker {["tree_method" := VStr "gpu_hist"]} 2 empty_world
    = (Ok 2, empty_world) ∧
  resolve_gpus_per_worker {["tree_method" := VStr "gpu_hist"]} (-1) empty_world
    = (Ok 1, empty_world) ∧
  resolve_gpus_per_worker {["tree_method" := VStr "hist"]} (-1) empty_world
    = (Ok 0, empty_world) ∧
  resolve_gpus_per_worker ∅ (-1) empty_world = (Ok 0, empty_world).
Proof.
  split; [|split; [|split]].
  - apply (gpus_per_worker_resolution {["tree_method" := VStr "gpu_hist"]} 2). lia.
  - destruct (gpus_per_worker_resolution
                {["tree_method" := VStr "gpu_hist"]} (-1) empty_world) as [_ H].
    destruct (H eq_refl) as (Hgpu & _ & _).
    apply (Hgpu "gpu_hist"); reflexivity.
  - destruct (gpus_per_worker_resolution
                {["tree_method" := VStr "hist"]} (-1) empty_world) as [_ H].
    destruct (H eq_refl) as (_ & Hcpu & _).
    apply (Hcpu "hist"); reflexivity.
  - destruct (gpus_per_worker_resolution ∅ (-1) empty_world) as [_ H].
    destruct (H eq_refl) as (_ & _ & Hnone).
    apply Hnone. reflexivity.
Defined.

(** ** The periodic save hook *)

Example save_hook_iteration_10 :
  (call_callback (RayXGBoostActor._save_checkpoint_callback demo_actor)
     {| iteration := 10; model := 42 |} empty_world).2
  = {| files := {["/tmp/ckpt_00001.xgb" := 42]}; ray_initialized := false;
       trace := [EvSave "/tmp/ckpt_00001.xgb"] |}.
Proof. reflexivity. Qed.

Example save_hook_iteration_11 :
  call_callback (RayXGBoostActor._save_checkpoint_callback demo_actor)
    {| iteration := 11; model := 42 |} empty_world
  = (Ok tt, empty_world).
Proof. reflexivity. Qed.

(** C8: for an actor with a checkpoint file and a non-zero checkpoint
    frequency, the hook called at iteration [i] returns normally; it saves
    the model of that iteration to the checkpoint file of the rank when [i]
    is a multiple of the frequency and leaves the world as it is otherwise,
    so it writes exactly at the multiples. *)
Theorem save_hook_period
    (self : RayXGBoostActor.t) (f : string) (env : CallbackEnv) (w : World) :
  RayXGBoostActor.checkpoint_file self = Some f →
  RayXGBoostActor.checkpoint_frequency self ≠ 0 →
  let r := call_callback (RayXGBoostActor._save_checkpoint_callback self) env w in
  let divides := (RayXGBoostActor.checkpoint_frequency self | iteration env) in
  (divides → r = save_model (model env) (Some f) w) ∧
  (¬ divides → r = (Ok tt, w)) ∧
  (divides ↔
   r.1 = Ok tt ∧ files r.2 !! f = Some (model env) ∧ trace r.2 = trace w ++ [EvSave f]).
Proof.
  intros Hfile Hfreq. simpl.
  unfold RayXGBoostActor._save_checkpoint_callback, save_checkpoint_closure.
  rewrite Hfile, decide_False by done.
  pose proof (Z.mod_divide (iteration env) _ Hfreq) as Hdiv.
  destruct (decide (iteration env `mod` RayXGBoostActor.checkpoint_frequency self = 0))
    as [Hmod|Hmod].
  - apply Hdiv in Hmod. repeat split; try done.
    simpl. apply lookup_insert_eq.
  - assert (¬ (RayXGBoostActor.checkpoint_frequency self | iteration env)) as Hn
      by (by rewrite <- Hdiv).
    repeat split; try done.
    intros (_ & _ & Htrace). simpl in Htrace.
    apply (f_equal length) in Htrace. rewrite length_app in Htrace. simpl in Htrace. lia.
Qed.

Lemma save_hook_period_witness :
  (call_callback (RayXGBoostActor._save_checkpoint_callback demo_actor)
     {| iteration := 10; model := 42 |} empty_world).1 = Ok tt ∧
  files (call_callback (RayXGBoostActor._save_checkpoint_callback demo_actor)
           {| iteration := 10; model := 42 |} empty_world).2
    !! "/tmp/ckpt_00001.xgb" = Some 42 ∧
  trace (call_callback (RayXGBoostActor._save_checkpoint_callback demo_actor)
           {| iteration := 10; model := 42 |} empty_world).2
    = trace empty_world ++ [EvSave "/tmp/ckpt_00001.xgb"].
Proof.
  destruct (save_hook_period demo_actor "/tmp/ckpt_00001.xgb"
              {| iteration := 10; model := 42 |} empty_world) as (_ & _ & Hiff).
  - reflexivity.
  - discriminate.
  - apply Hiff. exists 2. reflexivity.
Defined.

(** ** The shard cache of an actor *)

Lemma count_events_app (p : Event → bool) (l1 l2 : list Event) :
  count_events p (l1 ++ l2) = (count_events p l1 + count_events p l2)%nat.
Proof. unfold count_events. by rewrite List.filter_app, length_app. Qed.

Lemma count_events_load (data : RayDMatrix) (rank num_actors : Z) :
  count_events (is_shard_load data) [EvShardLoad data rank num_actors] = 1%nat.
Proof. unfold count_events. simpl. by rewrite bool_decide_eq_true_2. Qed.

Lemma load_data_ok (c : Collaborators) (self : RayXGBoostActor.t)
    (data : RayDMatrix) (w : World) (x : list (list Z)) (y : list Z) :
  load_shard c data (RayXGBoostActor.rank self) (RayXGBoostActor.num_actors self)
    = Ok (x, y) →
  RayXGBoostActor.load_data c self data w
  = (Ok (RayXGBoostActor.set_data self data {| dm_data := x; dm_label := y |}),
     {| files := files w; ray_initialized := ray_initialized w;
        trace := trace w ++ [EvShardLoad data (RayXGBoostActor.rank self)
                                         (RayXGBoostActor.num_actors self)] |}).
Proof.
  intros Hload.
  unfold RayXGBoostActor.load_data, ray_get_load_data, mbind, M_bind, emit.
  by rewrite Hload.
Qed.

Lemma load_if_missing_cached (c : Collaborators) (self : RayXGBoostActor.t)
    (data : RayDMatrix) (matrix : DMatrix) (w : World) :
  RayXGBoostActor._data self !! data = Some matrix →
  RayXGBoostActor.load_if_missing c self data w = (Ok (self, matrix), w).
Proof. intros Hin. unfold RayXGBoostActor.load_if_missing. by rewrite Hin. Qed.

(** C1, counterexample: the first [load_data] caches the handle, and the
    second one calls the handle's [load_data] again: two calls, two loads. *)
Lemma load_data_twice_loads_twice :
  let c := demo_process (Finishes ∅) in
  let r1 := RayXGBoostActor.load_data c demo_actor 0%nat empty_world in
  ∃ self1, r1.1 = Ok self1 ∧
    is_Some (RayXGBoostActor._data self1 !! 0%nat) ∧
    shard_loads 0%nat r1.2 = 1%nat ∧
    shard_loads 0%nat (RayXGBoostActor.load_data c self1 0%nat r1.2).2 = 2%nat.
Proof.
  eexists. split; [reflexivity|]. split; [by eexists|]. split; reflexivity.
Qed.

(** C1, amended: [load_data] has no cache check.  Every call whose load
    succeeds calls the handle's [load_data(rank, num_actors)] once more and
    stores the shard under the handle, so two calls perform two loads and
    leave the cache as one call does; the check is made by the
    load-on-demand of [train], which performs no load for a cached handle. *)
Theorem load_data_always_loads
    (c : Collaborators) (self : RayXGBoostActor.t) (data : RayDMatrix)
    (w : World) (x : list (list Z)) (y : list Z) :
  load_shard c data (RayXGBoostActor.rank self) (RayXGBoostActor.num_actors self)
    = Ok (x, y) →
  let matrix := {| dm_data := x; dm_label := y |} in
  let self1 := RayXGBoostActor.set_data self data matrix in
  let r1 := RayXGBoostActor.load_data c self data w in
  let r2 := RayXGBoostActor.load_data c self1 data r1.2 in
  r1.1 = Ok self1 ∧ shard_loads data r1.2 = S (shard_loads data w) ∧
  r2.1 = Ok self1 ∧ shard_loads data r2.2 = S (S (shard_loads data w)) ∧
  RayXGBoostActor._data self1 !! data = Some matrix ∧
  (∀ w', RayXGBoostActor.load_if_missing c self1 data w' = (Ok (self1, matrix), w')).
Proof.
  intros Hload matrix self1 r1 r2.
  assert (RayXGBoostActor._data self1 !! data = Some matrix) as Hcached
    by apply lookup_insert_eq.
  assert (RayXGBoostActor.set_data self1 data matrix = self1) as Hsame.
  { unfold self1, RayXGBoostActor.set_data. simpl. by rewrite insert_insert_eq. }
  subst r1 r2. rewrite (load_data_ok _ _ _ _ _ _ Hload). simpl.
  rewrite (load_data_ok c self1 data _ x y) by done. simpl.
  unfold shard_loads. simpl. rewrite !count_events_app, !count_events_load.
  fold matrix. rewrite Hsame.
  repeat split; try done; try lia.
  intros w'. by apply load_if_missing_cached.
Qed.

Lemma load_data_always_loads_witness :
  shard_loads 0%nat
    (RayXGBoostActor.load_data (demo_process (Finishes ∅))
       (RayXGBoostActor.set_data demo_actor 0%nat
          {| dm_data := [[0; 1]]; dm_label := [4] |}) 0%nat
       (RayXGBoostActor.load_data (demo_process (Finishes ∅)) demo_actor 0%nat
          empty_world).2).2
  = S (S (shard_loads 0%nat empty_world)).
Proof.
  destruct (load_data_always_loads (demo_process (Finishes ∅)) demo_actor 0%nat
              empty_world [[0; 1]] [4]) as (_ & _ & _ & H & _).
  - reflexivity.
  - exact H.
Defined.

(** ** Frame reasoning: what a computation may do to the world *)

Section frame.

Context (R : relation World) `{!PreOrder R}.

Lemma respects_ret {E A} (a : A) : respects R (mret a : M E A).
Proof. intros w. reflexivity. Qed.

Lemma respects_raise {E A} (e : E) : respects R (raise e : M E A).
Proof. intros w. reflexivity. Qed.

Lemma respects_bind {E A B} (m : M E A) (f : A → M E B) :
  respects R m → (∀ a, respects R (f a)) → respects R (m ≫= f).
Proof.
  intros Hm Hf w. unfold mbind, M_bind.
  specialize (Hm w). destruct (m w) as [[a|e] w1]; simpl in *; [|done].
  etrans; [done|]. apply Hf.
Qed.

Lemma respects_py {A} (m : M exn A) : respects R m → respects R (py m).
Proof.
  intros Hm w. unfold py. specialize (Hm w).
  by destruct (m w) as [[a|e] w1].
Qed.

Lemma respects_forM {E A B} (f : A → M E B) (l : list A) :
  (∀ x, respects R (f x)) → respects R (forM f l).
Proof.
  intros Hf. induction l as [|x l IH]; simpl.
  - apply respects_ret.
  - apply respects_bind; [done|]. intros y.
    apply respects_bind; [done|]. intros ys. apply respects_ret.
Qed.

Lemma respects_os_path_exists (f : option string) : respects R (os_path_exists f).
Proof. intros w. unfold os_path_exists. destruct f; reflexivity. Qed.

Lemma respects_ray_get1 {A} (ref : ObjectRef A) : respects R (ray_get1 ref).
Proof.
  destruct ref as [a|[e|]]; simpl;
    [apply respects_ret|apply respects_raise|apply respects_raise].
Qed.

Lemma respects_ray_get {A} (refs : list (ObjectRef A)) : respects R (ray_get refs).
Proof. apply respects_forM. intros ref. apply respects_ray_get1. Qed.

Lemma respects_assert_ray_support (cl : Cluster) : respects R (_assert_ray_support cl).
Proof.
  unfold _assert_ray_support.
  destruct (RAY_INSTALLED cl); [apply respects_ret|apply respects_raise].
Qed.

Lemma respects_resolve_gpus (params : gmap string value) (gpus_per_worker : Z) :
  respects R (resolve_gpus_per_worker params gpus_per_worker).
Proof.
  unfold resolve_gpus_per_worker.
  repeat case_match; (apply respects_ret || apply respects_raise).
Qed.

Lemma respects_remote {A}
    (call : RayXGBoostActor.t → M fault (RayXGBoostActor.t * A)) (actor : ActorHandle) :
  (∀ self, respects R (call self)) → respects R (remote call actor).
Proof.
  intros Hcall w. unfold remote. destruct actor as [self|]; [|reflexivity].
  specialize (Hcall self w).
  by destruct (call self w) as [[[self' a]|[e|]] w1].
Qed.

End frame.

Global Instance steps_preorder (P : Event → Prop) : PreOrder (steps P).
Proof.
  split.
  - intros w. split; [done|]. exists []. by rewrite app_nil_r.
  - intros w1 w2 w3 [Hf12 (ev12 & Ht12 & HP12)] [Hf23 (ev23 & Ht23 & HP23)].
    split; [by auto|]. exists (ev12 ++ ev23).
    rewrite Ht23, Ht12, app_assoc. split; [done|]. by apply Forall_app.
Qed.

Lemma steps_mono (P Q : Event → Prop) (w w' : World) :
  (∀ ev, P ev → Q ev) → steps P w w' → steps Q w w'.
Proof.
  intros HPQ [Hf (evs & Ht & HP)]. split; [done|].
  exists evs. split; [done|]. by eapply Forall_impl.
Qed.

Lemma respects_steps_mono {E A} (P Q : Event → Prop) (m : M E A) :
  (∀ ev, P ev → Q ev) → respects (steps P) m → respects (steps Q) m.
Proof. intros HPQ Hm w. by eapply steps_mono. Qed.

Lemma steps_emit {E} (P : Event → Prop) (ev : Event) :
  P ev → respects (steps P) (emit (E := E) ev).
Proof.
  intros Hev w. split; [done|]. exists [ev]. split; [done|]. by apply Forall_singleton.
Qed.

Lemma steps_save_model (P : Event → Prop) (model : Booster) (f : option string) :
  (∀ ev, is_save ev = true → P ev) → respects (steps P) (save_model model f).
Proof.
  intros HP w. unfold save_model. destruct f as [f|]; [|reflexivity]. split; simpl.
  - intros g Hg. destruct (decide (f = g)) as [->|Hne].
    + rewrite lookup_insert_eq. by eexists.
    + by rewrite lookup_insert_ne.
  - exists [EvSave f]. split; [done|]. apply Forall_singleton. by apply HP.
Qed.

Ltac frame_step :=
  lazymatch goal with
  | |- PreOrder _ => apply _
  | |- respects _ (mret _) => apply respects_ret
  | |- respects _ (raise _) => apply respects_raise
  | |- respects _ (_ ≫= _) => apply respects_bind; [apply _| |intros ?]
  | |- respects _ (py _) => apply respects_py
  | |- respects _ (forM _ _) => apply respects_forM; [apply _|intros ?]
  | |- respects _ (emit _) => apply steps_emit
  | |- respects _ (os_path_exists _) => apply respects_os_path_exists
  | |- respects _ (ray_get1 _) => apply respects_ray_get1
  | |- respects _ (ray_get _) => apply respects_ray_get
  | |- respects _ (match ?x with _ => _ end) => destruct x
  end.

Ltac frame := repeat frame_step; eauto.

(** *** What the code of an actor does to the world *)

Section actor_frame.

Context (P : Event → Prop).

Lemma steps_call_callback (cb : callback) (env : CallbackEnv) :
  (∀ ev, is_save ev = true → P ev) → respects (steps P) (call_callback cb env).
Proof.
  intros HP. destruct cb as [name|frequency file]; simpl; [frame|].
  unfold save_checkpoint_closure. frame. by apply steps_save_model.
Qed.

Lemma steps_boost (run : EngineRun) (callbacks : list callback) (i n : nat) :
  (∀ ev, is_save ev = true → P ev) → respects (steps P) (boost run callbacks i n).
Proof.
  intros HP. revert i. induction n as [|n IH]; intros i; simpl; frame.
  by apply steps_call_callback.
Qed.

Lemma steps_load_data (c : Collaborators) (self : RayXGBoostActor.t) (data : RayDMatrix) :
  (∀ ev, is_any_shard_load ev = true → P ev) →
  respects (steps P) (RayXGBoostActor.load_data c self data).
Proof.
  intros HP. unfold RayXGBoostActor.load_data, ray_get_load_data. frame.
Qed.

Lemma steps_load_if_missing (c : Collaborators) (self : RayXGBoostActor.t)
    (data : RayDMatrix) :
  (∀ ev, is_any_shard_load ev = true → P ev) →
  respects (steps P) (RayXGBoostActor.load_if_missing c self data).
Proof.
  intros HP. unfold RayXGBoostActor.load_if_missing. frame.
  by apply steps_load_data.
Qed.

Lemma steps_load_evals (c : Collaborators) (self : RayXGBoostActor.t)
    (evals : list (RayDMatrix * string)) :
  (∀ ev, is_any_shard_load ev = true → P ev) →
  respects (steps P) (RayXGBoostActor.load_evals c self evals).
Proof.
  intros HP. revert self. induction evals as [|[deval name] evals IH]; intros self; simpl.
  - frame.
  - apply respects_bind; [apply _|by apply steps_load_if_missing|].
    intros [self1 matrix].
    apply respects_bind; [apply _|apply IH|]. intros [self2 local_evals]. frame.
Qed.

End actor_frame.

(** ** The rendezvous around the engine *)

Lemma bind_unfold {E A B} (m : M E A) (f : A → M E B) (w : World) :
  (m ≫= f) w = match m w with
               | (Ok a, w') => f a w'
               | (Err e, w') => (Err e, w')
               end.
Proof. reflexivity. Qed.

(** The engine call: one [EvXgbTrain], then only saves; the process is lost
    only when the run says so. *)
Lemma xgb_train_trace (run : EngineRun) (kwargs : gmap string value) (w : World) :
  ∃ saves, Forall (λ ev, is_save ev = true) saves ∧
    trace (xgb_train run kwargs w).2
    = trace w ++ EvXgbTrain (kwargs !! "xgb_model") :: saves ∧
    ((xgb_train run kwargs w).1 = Err ProcessDied → ending run = ProcessDies).
Proof.
  unfold xgb_train. rewrite bind_unfold.
  set (callbacks := match kwargs !! "callbacks" with
                    | Some (VCallbacks cbs) => cbs | _ => [] end).
  assert ((match kwargs !! "callbacks" with
           | Some (VCallbacks cbs) => mret cbs
           | _ => mret []
           end : M fault (list callback)) w = (Ok callbacks, w)) as ->.
  { unfold callbacks. by repeat case_match. }
  rewrite bind_unfold. simpl.
  set (w1 := {| files := files w; ray_initialized := ray_initialized w;
                trace := trace w ++ [EvXgbTrain (kwargs !! "xgb_model")] |}).
  rewrite bind_unfold.
  destruct (steps_boost (λ ev, is_save ev = true) run callbacks 0 (rounds run)
              ltac:(done) w1) as [_ (saves & Htrace & Hsaves)].
  unfold py.
  destruct (boost run callbacks 0 (rounds run) w1) as [[[]|e] w2]; simpl in *.
  - exists saves. split; [done|].
    destruct (ending run) as [evals_result|e|]; simpl;
      rewrite Htrace, <- app_assoc; done.
  - exists saves. split; [done|]. rewrite Htrace, <- app_assoc. done.
Qed.

(** The [with] statement around a body that calls the engine. *)
Lemma with_RabitContext_trace {A} (c : Collaborators) (ctx : RabitContext.t)
    (kwargs : gmap string value) (k : Booster * EvalsResult → M fault A) (w : World) :
  (∀ res w', ∃ a, k res w' = (Ok a, w')) →
  let r := with_RabitContext c ctx (xgb_train (engine c) kwargs ≫= k) w in
  (∃ f, rabit_join c = Err f ∧ r.1 = Err f ∧
        trace r.2 = trace w ++ [EvRabitInit (RabitContext.args ctx)]) ∨
  (∃ saves, rabit_join c = Ok tt ∧ Forall (λ ev, is_save ev = true) saves ∧
     ((r.1 ≠ Err ProcessDied ∧
       trace r.2 = trace w ++ EvRabitInit (RabitContext.args ctx)
                     :: EvXgbTrain (kwargs !! "xgb_model") :: saves ++ [EvRabitFinalize]) ∨
      (r.1 = Err ProcessDied ∧ ending (engine c) = ProcessDies ∧
       trace r.2 = trace w ++ EvRabitInit (RabitContext.args ctx)
                     :: EvXgbTrain (kwargs !! "xgb_model") :: saves))).
Proof.
  intros Hk. simpl. unfold with_RabitContext, RabitContext.__enter__, rabit_init.
  rewrite bind_unfold. simpl.
  set (w1 := {| files := files w; ray_initialized := ray_initialized w;
                trace := trace w ++ [EvRabitInit (RabitContext.args ctx)] |}).
  destruct (rabit_join c) as [[]|f] eqn:Hjoin; simpl.
  2:{ left. by exists f. }
  right.
  destruct (xgb_train_trace (engine c) kwargs w1) as (saves & Hsaves & Htrace & Hdied).
  exists saves. split; [done|]. split; [done|].
  rewrite bind_unfold.
  destruct (xgb_train (engine c) kwargs w1) as [[res|[e|]] w2]; simpl in *.
  - destruct (Hk res w2) as [a ->]. simpl.
    left. split; [done|]. rewrite Htrace, <- !app_assoc. done.
  - left. split; [done|]. rewrite Htrace, <- !app_assoc. done.
  - right. split; [done|]. split; [by apply Hdied|].
    rewrite Htrace, <- !app_assoc. done.
Qed.

Lemma load_data_object_id (c : Collaborators) (self self' : RayXGBoostActor.t)
    (data : RayDMatrix) (w w' : World) :
  RayXGBoostActor.load_data c self data w = (Ok self', w') →
  RayXGBoostActor.object_id self' = RayXGBoostActor.object_id self.
Proof.
  unfold RayXGBoostActor.load_data, ray_get_load_data. rewrite !bind_unfold. simpl.
  destruct (load_shard c data _ _) as [[x y]|f]; simpl; [|done].
  by intros [= <- _].
Qed.

Lemma load_if_missing_object_id (c : Collaborators) (self self' : RayXGBoostActor.t)
    (data : RayDMatrix) (matrix : DMatrix) (w w' : World) :
  RayXGBoostActor.load_if_missing c self data w = (Ok (self', matrix), w') →
  RayXGBoostActor.object_id self' = RayXGBoostActor.object_id self.
Proof.
  unfold RayXGBoostActor.load_if_missing.
  destruct (RayXGBoostActor._data self !! data); [by intros [= <- _ _]|].
  rewrite bind_unfold.
  destruct (RayXGBoostActor.load_data c self data w) as [[self1|f] w1] eqn:Hload; [|done].
  apply load_data_object_id in Hload.
  destruct (RayXGBoostActor._data self1 !! data); [|done].
  by intros [= <- _ _].
Qed.

Lemma load_evals_object_id (c : Collaborators) (self self' : RayXGBoostActor.t)
    (evals : list (RayDMatrix * string)) (local_evals : list (DMatrix * string))
    (w w' : World) :
  RayXGBoostActor.load_evals c self evals w = (Ok (self', local_evals), w') →
  RayXGBoostActor.object_id self' = RayXGBoostActor.object_id self.
Proof.
  revert self self' local_evals w w'.
  induction evals as [|[deval name] evals IH]; intros self self' local_evals w w'; simpl.
  - by intros [= <- _ _].
  - rewrite bind_unfold.
    destruct (RayXGBoostActor.load_if_missing c self deval w)
      as [[[self1 matrix]|f] w1] eqn:H1; [|done].
    apply load_if_missing_object_id in H1.
    rewrite bind_unfold.
    destruct (RayXGBoostActor.load_evals c self1 evals w1)
      as [[[self2 evs]|f] w2] eqn:H2; [|done].
    apply IH in H2. intros [= <- _ _]. congruence.
Qed.

Lemma bind_ret_l {E A B} (a : A) (f : A → M E B) (w : World) :
  (mret a ≫= f) w = f a w.
Proof. reflexivity. Qed.

(** From the lookup of the hooks to the end of [train]. *)
Lemma train_rendezvous (c : Collaborators) (self : RayXGBoostActor.t)
    (rabit_args : list string) (kwargs : gmap string value) (w : World) :
  let r :=
    (callbacks ← match kwargs !! "callbacks" with
                 | Some (VCallbacks cbs) => mret cbs
                 | Some _ => raise (Raised (AttributeError "object has no attribute 'append'"))
                 | None => mret []
                 end;
     with_RabitContext c
       (RabitContext.__init__ (Py.str_int (RayXGBoostActor.object_id self)) rabit_args)
       (xgb_train (engine c)
          (<["callbacks" := VCallbacks
               (callbacks ++ [RayXGBoostActor._save_checkpoint_callback self])]> kwargs)
        ≫= λ '(bst, evals_result), mret (self, (bst, evals_result)))) w in
  let join := EvRabitInit (rabit_args ++ [task_id self]) in
  ∃ tail,
    trace r.2 = trace w ++ tail ∧
    ((tail = [] ∧ ∃ f, r.1 = Err f) ∨
     (tail = [join] ∧ ∃ f, rabit_join c = Err f ∧ r.1 = Err f) ∨
     (∃ xgb_model saves,
        rabit_join c = Ok tt ∧ Forall (λ ev, is_save ev = true) saves ∧
        ((r.1 ≠ Err ProcessDied ∧
          tail = join :: EvXgbTrain xgb_model :: saves ++ [EvRabitFinalize]) ∨
         (r.1 = Err ProcessDied ∧ ending (engine c) = ProcessDies ∧
          tail = join :: EvXgbTrain xgb_model :: saves)))).
Proof.
  intros r join.
  assert (∀ callbacks,
    let r := with_RabitContext c
       (RabitContext.__init__ (Py.str_int (RayXGBoostActor.object_id self)) rabit_args)
       (xgb_train (engine c)
          (<["callbacks" := VCallbacks
               (callbacks ++ [RayXGBoostActor._save_checkpoint_callback self])]> kwargs)
        ≫= λ '(bst, evals_result), mret (self, (bst, evals_result))) w in
    ∃ tail, trace r.2 = trace w ++ tail ∧
     ((tail = [join] ∧ ∃ f, rabit_join c = Err f ∧ r.1 = Err f) ∨
     (∃ xgb_model saves,
        rabit_join c = Ok tt ∧ Forall (λ ev, is_save ev = true) saves ∧
        ((r.1 ≠ Err ProcessDied ∧
          tail = join :: EvXgbTrain xgb_model :: saves ++ [EvRabitFinalize]) ∨
         (r.1 = Err ProcessDied ∧ ending (engine c) = ProcessDies ∧
          tail = join :: EvXgbTrain xgb_model :: saves))))) as Hwith.
  { intros callbacks r'.
    destruct (with_RabitContext_trace c
                (RabitContext.__init__ (Py.str_int (RayXGBoostActor.object_id self)) rabit_args)
                (<["callbacks" := VCallbacks
                     (callbacks ++ [RayXGBoostActor._save_checkpoint_callback self])]> kwargs)
                (λ '(bst, evals_result), mret (self, (bst, evals_result))) w)
      as [(f & Hjoin & Hr & Ht)|(saves & Hjoin & Hsaves & Hcases)].
    - intros [bst ev] w'. by eexists.
    - exists [join]. split; [done|]. left. split; [done|]. by exists f.
    - destruct Hcases as [[Hr Ht]|(Hr & Hend & Ht)].
      + eexists. split; [exact Ht|]. right. do 2 eexists.
        split; [done|]. split; [done|]. left. done.
      + eexists. split; [exact Ht|]. right. do 2 eexists.
        split; [done|]. split; [done|]. right. done. }
  subst r. rewrite bind_unfold.
  destruct (kwargs !! "callbacks") as [[| | |cbs|]|]; simpl;
    try (exists []; rewrite app_nil_r; split; [done|]; left; split; [done|];
         by eexists).
  - destruct (Hwith cbs) as (tail & Ht & Hcases). exists tail. auto.
  - destruct (Hwith []) as (tail & Ht & Hcases). exists tail. auto.
Qed.

(** C9: the events a run of the actor's [train] adds to the trace are
    shard loads followed by nothing (the call raised before the [with]
    statement), or by the join alone (the join itself failed, the engine was
    not invoked), or by the join, the engine call, the saves of the hook
    and, whenever the engine returned or raised, the finalize as the last
    event; only when the process died in the engine is there no finalize.
    So a call that returns has joined, then invoked the engine, then
    finalized.
    The join carries the task identifier ["DMLC_TASK_ID=[xgboost.ray]:"]
    followed by [str(id(self))] as the last argument. *)
Theorem rabit_context_brackets_engine
    (c : Collaborators) (self : RayXGBoostActor.t) (rabit_args : list string)
    (params : gmap string value) (dtrain : RayDMatrix)
    (evals : list (RayDMatrix * string)) (args : list value)
    (kwargs : gmap string value) (w : World) :
  let r := RayXGBoostActor.train c self rabit_args params dtrain evals args kwargs w in
  let join := EvRabitInit (rabit_args ++ [task_id self]) in
  ∃ loads tail,
    trace r.2 = trace w ++ loads ++ tail ∧
    Forall (λ ev, is_any_shard_load ev = true) loads ∧
    ((tail = [] ∧ ∃ f, r.1 = Err f) ∨
     (tail = [join] ∧ ∃ f, rabit_join c = Err f ∧ r.1 = Err f) ∨
     (∃ xgb_model saves,
        rabit_join c = Ok tt ∧ Forall (λ ev, is_save ev = true) saves ∧
        ((r.1 ≠ Err ProcessDied ∧
          tail = join :: EvXgbTrain xgb_model :: saves ++ [EvRabitFinalize]) ∨
         (r.1 = Err ProcessDied ∧ ending (engine c) = ProcessDies ∧
          tail = join :: EvXgbTrain xgb_model :: saves)))).
Proof.
  simpl. unfold RayXGBoostActor.train.
  rewrite bind_unfold.
  destruct (steps_load_if_missing (λ ev, is_any_shard_load ev = true) c self dtrain
              ltac:(done) w) as [_ (l1 & Ht1 & Hl1)].
  destruct (RayXGBoostActor.load_if_missing c self dtrain w)
    as [[[self1 local_dtrain]|f] w1] eqn:H1; simpl in *.
  2:{ exists l1, []. rewrite app_nil_r. split; [done|]. split; [done|].
      left. split; [done|]. by eexists. }
  apply load_if_missing_object_id in H1.
  rewrite bind_unfold.
  destruct (steps_load_evals (λ ev, is_any_shard_load ev = true) c self1 evals
              ltac:(done) w1) as [_ (l2 & Ht2 & Hl2)].
  destruct (RayXGBoostActor.load_evals c self1 evals w1)
    as [[[self2 local_evals]|f] w2] eqn:H2; simpl in *.
  2:{ exists (l1 ++ l2), []. rewrite app_nil_r, Ht2, Ht1, app_assoc.
      split; [done|]. split; [by apply Forall_app|].
      left. split; [done|]. by eexists. }
  apply load_evals_object_id in H2.
  assert (Forall (λ ev, is_any_shard_load ev = true) (l1 ++ l2)) as Hloads
    by (by apply Forall_app).
  assert (trace w2 = trace w ++ (l1 ++ l2)) as Ht by (by rewrite Ht2, Ht1, app_assoc).
  clear Ht1 Ht2 Hl1 Hl2.
  rewrite bind_unfold. unfold py, os_path_exists.
  destruct (RayXGBoostActor.checkpoint_file self2) as [file|]; simpl.
  2:{ exists (l1 ++ l2), []. rewrite app_nil_r. split; [done|]. split; [done|].
      left. split; [done|]. by eexists. }
  rewrite bind_unfold.
  set (kwargs1 := if bool_decide (is_Some (files w2 !! file))
                  then <["xgb_model" := VStr file]> kwargs else kwargs).
  assert ((if bool_decide (is_Some (files w2 !! file))
           then mret (<["xgb_model" := VStr file]> kwargs)
           else mret kwargs : M fault (gmap string value)) w2 = (Ok kwargs1, w2)) as ->.
  { unfold kwargs1. by destruct (bool_decide _). }
  destruct (train_rendezvous c self2 rabit_args kwargs1 w2) as (tail & Htail & Hcases).
  assert (task_id self2 = task_id self) as Hid by (unfold task_id; congruence).
  rewrite Hid in Hcases.
  exists (l1 ++ l2), tail. rewrite Htail, Ht, <- app_assoc. auto.
Qed.

Example rabit_context_demo_trace :
  trace (RayXGBoostActor.train (demo_process (Fails (XGBoostError "bad parameter")))
           demo_actor ["DMLC_NUM_WORKER=4"] ∅ 0%nat [] [] ∅ empty_world).2
  = [EvShardLoad 0%nat 1 4;
     EvRabitInit ["DMLC_NUM_WORKER=4"; "DMLC_TASK_ID=[xgboost.ray]:140001"];
     EvXgbTrain None;
     EvSave "/tmp/ckpt_00001.xgb"; EvSave "/tmp/ckpt_00001.xgb";
     EvRabitFinalize].
Proof. reflexivity. Qed.

(** ** What an attempt does to the world *)

Section attempt_frame.

Context (P : Event → Prop).

Lemma steps_xgb_train (run : EngineRun) (kwargs : gmap string value) :
  (∀ ev, is_actor_event ev = true → P ev) → respects (steps P) (xgb_train run kwargs).
Proof.
  intros HP. unfold xgb_train. frame.
  apply steps_boost. intros ev Hev. apply HP. by destruct ev.
Qed.

Lemma steps_with_RabitContext {A} (c : Collaborators) (ctx : RabitContext.t)
    (body : M fault A) :
  (∀ ev, is_actor_event ev = true → P ev) →
  respects (steps P) body → respects (steps P) (with_RabitContext c ctx body).
Proof.
  intros HP Hbody w. unfold with_RabitContext.
  assert (respects (steps P) (RabitContext.__enter__ c ctx)) as Henter.
  { unfold RabitContext.__enter__, rabit_init. frame. }
  assert (respects (steps P) (RabitContext.__exit__ ctx)) as Hexit.
  { unfold RabitContext.__exit__, rabit_finalize. frame. }
  specialize (Henter w).
  destruct (RabitContext.__enter__ c ctx w) as [[[]|f] w1]; [|done].
  specialize (Hbody w1).
  destruct (body w1) as [[a|[e|]] w2].
  - specialize (Hexit w2).
    destruct (RabitContext.__exit__ ctx w2) as [[[]|f] w3];
      repeat (etrans; [eassumption|]); reflexivity.
  - specialize (Hexit w2).
    destruct (RabitContext.__exit__ ctx w2) as [[[]|f] w3];
      repeat (etrans; [eassumption|]); reflexivity.
  - repeat (etrans; [eassumption|]); reflexivity.
Qed.

Lemma steps_actor_train (c : Collaborators) (self : RayXGBoostActor.t)
    (rabit_args : list string) (params : gmap string value) (dtrain : RayDMatrix)
    (evals : list (RayDMatrix * string)) (args : list value)
    (kwargs : gmap string value) :
  (∀ ev, is_actor_event ev = true → P ev) →
  respects (steps P)
    (RayXGBoostActor.train c self rabit_args params dtrain evals args kwargs).
Proof.
  intros HP. unfold RayXGBoostActor.train.
  assert (∀ ev, is_any_shard_load ev = true → P ev) as Hload
    by (intros ev Hev; apply HP; by destruct ev).
  apply respects_bind; [apply _|by apply steps_load_if_missing|].
  intros [self1 local_dtrain].
  apply respects_bind; [apply _|by apply steps_load_evals|].
  intros [self2 local_evals].
  frame.
  all: apply steps_with_RabitContext; [done|]; frame; by apply steps_xgb_train.
Qed.

End attempt_frame.

Section coordinator_frame.

Context (P : Event → Prop).
Context (HP : ∀ ev, is_spawn ev = false → is_remove ev = false → P ev).

Lemma actor_event_allowed (ev : Event) : is_actor_event ev = true → P ev.
Proof. intros Hev. apply HP; by destruct ev. Qed.

Lemma steps_load_data_remote (cl : Cluster) (attempt : Z) (data : RayDMatrix)
    (actor : ActorHandle) :
  respects (steps P) (load_data_remote cl attempt data actor).
Proof.
  unfold load_data_remote. apply respects_remote; [apply _|]. intros self. frame.
  apply steps_load_data. intros ev Hev. apply HP; by destruct ev.
Qed.

Lemma steps_trigger_data_load_evals (cl : Cluster) (attempt : Z) (actor : ActorHandle)
    (evals : list (RayDMatrix * string)) :
  respects (steps P) (_trigger_data_load_evals cl attempt actor evals).
Proof.
  revert actor. induction evals as [|[deval name] evals IH]; intros actor; simpl.
  - frame.
  - apply respects_bind; [apply _|apply steps_load_data_remote|]. intros [actor1 ref].
    apply respects_bind; [apply _|apply IH|]. intros [actor2 refs]. frame.
Qed.

Lemma steps_trigger_data_load (cl : Cluster) (attempt : Z) (actor : ActorHandle)
    (dtrain : RayDMatrix) (evals : list (RayDMatrix * string)) :
  respects (steps P) (_trigger_data_load cl attempt actor dtrain evals).
Proof.
  unfold _trigger_data_load.
  apply respects_bind; [apply _|apply steps_load_data_remote|]. intros [actor1 ref].
  apply respects_bind; [apply _|apply steps_trigger_data_load_evals|].
  intros [actor2 refs]. frame.
Qed.

Lemma steps_load_all (cl : Cluster) (attempt : Z) (actors : list ActorHandle)
    (dtrain : RayDMatrix) (evals : list (RayDMatrix * string)) :
  respects (steps P) (load_all cl attempt actors dtrain evals).
Proof.
  induction actors as [|actor actors IH]; simpl.
  - frame.
  - apply respects_bind; [apply _|apply steps_trigger_data_load|]. intros [actor1 refs].
    apply respects_bind; [apply _|apply IH|]. intros [actors1 wait_load]. frame.
Qed.

Lemma steps_train_remote (cl : Cluster) (attempt : Z) (rabit_args : list string)
    (params : gmap string value) (dtrain : RayDMatrix)
    (evals : list (RayDMatrix * string)) (args : list value)
    (kwargs : gmap string value) (actor : ActorHandle) :
  respects (steps P)
    (train_remote cl attempt rabit_args params dtrain evals args kwargs actor).
Proof.
  unfold train_remote. apply respects_remote; [apply _|]. intros self.
  apply steps_actor_train, actor_event_allowed.
Qed.

Lemma steps_start_rabit_tracker (cl : Cluster) (attempt num_workers : Z) :
  respects (steps P) (_start_rabit_tracker cl attempt num_workers).
Proof. unfold _start_rabit_tracker. frame. Qed.

Lemma steps_ray_init_if_needed (cl : Cluster) :
  respects (steps P) (ray_init_if_needed cl).
Proof.
  intros w. unfold ray_init_if_needed.
  destruct (ray_initialized w); [reflexivity|].
  destruct (ray_init cl); [|reflexivity].
  split; [done|]. exists [EvRayInit]. split; [done|].
  apply Forall_singleton. by apply HP.
Qed.

(** Lines 212-239 of [_train]: everything after the actors were created. *)
Lemma steps_after_creation (cl : Cluster) (attempt : Z)
    (params : gmap string value) (dtrain : RayDMatrix) (args : list value)
    (evals : list (RayDMatrix * string)) (num_actors : Z)
    (kwargs : gmap string value) (actors : list ActorHandle) :
  respects (steps P)
    (emit (EvLog "info" ("[RayXGBoost] Created "
                         +:+ Py.str_int (Z.of_nat (length actors))
                         +:+ " remote actors."));;
     '(actors, wait_load) ← load_all cl attempt actors dtrain evals;
     ray_get wait_load;;
     emit (EvLog "info" "[RayXGBoost] Starting XGBoost training.");;
     env ← _start_rabit_tracker cl attempt num_actors;
     let rabit_args := format_item <$> env in
     started ← forM (train_remote cl attempt rabit_args params dtrain evals args kwargs)
                    actors;
     let fut := snd <$> started in
     ray_get fut;;
     match fut !! 0%nat with
     | Some ref => ray_get1 ref
     | None => raise IndexError
     end).
Proof.
  apply respects_bind; [apply _|frame|]. intros _.
  apply respects_bind; [apply _|apply steps_load_all|]. intros [actors1 wait_load].
  apply respects_bind; [apply _|frame|]. intros _.
  apply respects_bind; [apply _|frame|]. intros _.
  apply respects_bind; [apply _|apply steps_start_rabit_tracker|]. intros env.
  apply respects_bind; [apply _| |].
  { apply respects_forM; [apply _|]. intros actor. apply steps_train_remote. }
  intros started. cbv zeta. frame.
Qed.

End coordinator_frame.

(** ** Counting spawned workers *)

Lemma count_events_none (p : Event → bool) (evs : list Event) :
  Forall (λ ev, p ev = false) evs → count_events p evs = 0%nat.
Proof.
  unfold count_events. induction 1 as [|ev evs Hev _ IH]; [done|].
  simpl. by rewrite Hev.
Qed.

Lemma steps_quiet_spawned (w w' : World) :
  steps is_quiet w w' → spawned_at_most 0 w w'.
Proof.
  intros Hsteps. split.
  - eapply steps_mono; [|done]. by intros ev [_ ?].
  - destruct Hsteps as [_ (evs & Ht & Hevs)].
    unfold spawns. rewrite Ht, count_events_app, (count_events_none _ evs); [lia|].
    eapply Forall_impl; [done|]. by intros ev [? _].
Qed.

Lemma respects_quiet_spawned {E A} (m : M E A) :
  respects (steps is_quiet) m → respects (spawned_at_most 0) m.
Proof. intros Hm w. by apply steps_quiet_spawned. Qed.

Lemma spawned_at_most_trans (j k : nat) (w1 w2 w3 : World) :
  spawned_at_most j w1 w2 → spawned_at_most k w2 w3 → spawned_at_most (j + k) w1 w3.
Proof.
  intros [Hs12 Hn12] [Hs23 Hn23]. split; [by etrans|lia].
Qed.

Lemma spawned_at_most_mono (j k : nat) (w w' : World) :
  (j ≤ k)%nat → spawned_at_most j w w' → spawned_at_most k w w'.
Proof. intros Hjk [Hs Hn]. split; [done|lia]. Qed.

Lemma respects_spawned_mono {E A} (j k : nat) (m : M E A) :
  (j ≤ k)%nat → respects (spawned_at_most j) m → respects (spawned_at_most k) m.
Proof. intros Hjk Hm w. by eapply spawned_at_most_mono. Qed.

Lemma spawned_bind {E A B} (j k : nat) (m : M E A) (f : A → M E B) :
  respects (spawned_at_most j) m → (∀ a, respects (spawned_at_most k) (f a)) →
  respects (spawned_at_most (j + k)) (m ≫= f).
Proof.
  intros Hm Hf w. rewrite bind_unfold. specialize (Hm w).
  destruct (m w) as [[a|e] w1]; simpl in *.
  - eapply spawned_at_most_trans; [done|]. apply Hf.
  - eapply spawned_at_most_mono; [|done]. lia.
Qed.

Lemma spawned_create_actor (cl : Cluster) (attempt rank num_actors num_gpus : Z)
    (checkpoint_prefix : option string) (checkpoint_path : string)
    (checkpoint_frequency : Z) :
  respects (spawned_at_most 1)
    (_create_actor cl attempt rank num_actors num_gpus checkpoint_prefix
       checkpoint_path checkpoint_frequency).
Proof.
  intros w. unfold _create_actor. rewrite bind_unfold. simpl. split.
  - split; [done|]. eexists. split; [done|]. by apply Forall_singleton.
  - unfold spawns. simpl. rewrite count_events_app. done.
Qed.

Lemma spawned_forM {E A B} (f : A → M E B) (l : list A) :
  (∀ x, respects (spawned_at_most 1) (f x)) →
  respects (spawned_at_most (length l)) (forM f l).
Proof.
  intros Hf. induction l as [|x l IH]; simpl.
  - apply respects_quiet_spawned. frame.
  - apply (spawned_bind 1 (length l)); [done|]. intros y.
    replace (length l) with (length l + 0)%nat by lia.
    apply spawned_bind; [done|]. intros ys.
    apply respects_quiet_spawned. frame.
Qed.

Lemma length_range (n : Z) : length (Py.range n) = Z.to_nat n.
Proof. unfold Py.range. by rewrite length_fmap, length_seq. Qed.

(** An attempt loses no file, removes nothing and spawns at most
    [num_actors] workers up to the point where the result is fetched. *)
Lemma spawned_train_result (cl : Cluster) (attempt : Z)
    (params : gmap string value) (dtrain : RayDMatrix) (args : list value)
    (evals : list (RayDMatrix * string)) (num_actors gpus_per_worker : Z)
    (checkpoint_prefix : option string) (checkpoint_path : string)
    (checkpoint_frequency : Z) (kwargs : gmap string value) :
  respects (spawned_at_most (Z.to_nat num_actors))
    (_train_result cl attempt params dtrain args evals num_actors gpus_per_worker
       checkpoint_prefix checkpoint_path checkpoint_frequency kwargs).
Proof.
  assert (∀ ev, is_spawn ev = false → is_remove ev = false → is_quiet ev) as Hq
    by (by split).
  unfold _train_result.
  apply (respects_spawned_mono (0 + (0 + (0 + (Z.to_nat num_actors + 0))))); [lia|].
  apply spawned_bind.
  { apply respects_quiet_spawned, respects_assert_ray_support; apply _. }
  intros _. apply spawned_bind.
  { by apply respects_quiet_spawned, steps_ray_init_if_needed. }
  intros _. apply spawned_bind.
  { apply respects_quiet_spawned, respects_resolve_gpus; apply _. }
  intros gpus. apply spawned_bind.
  { rewrite <- length_range. apply spawned_forM. intros i. apply spawned_create_actor. }
  intros actors. by apply respects_quiet_spawned, steps_after_creation.
Qed.

(** ** Cleaning up after a successful attempt *)

Lemma elem_of_range (n i : Z) : i ∈ Py.range n ↔ 0 ≤ i < n.
Proof.
  unfold Py.range. rewrite list_elem_of_fmap. split.
  - intros (k & -> & Hk). apply elem_of_seq in Hk. lia.
  - intros Hi. exists (Z.to_nat i). split; [lia|]. apply elem_of_seq. lia.
Qed.

Lemma cleanup_rank_spec (checkpoint_prefix : option string) (checkpoint_path : string)
    (i : Z) (w : World) :
  Py.truthy checkpoint_prefix = true →
  ∃ f w', _checkpoint_file checkpoint_path checkpoint_prefix i = Some f ∧
    cleanup_rank checkpoint_prefix checkpoint_path i w = (Ok tt, w') ∧
    files w' = delete f (files w) ∧
    ∃ removed, trace w' = trace w ++ removed ∧
               Forall (λ ev, is_remove ev = true) removed.
Proof.
  intros Hprefix.
  destruct (checkpoint_file_truthy checkpoint_path checkpoint_prefix i Hprefix)
    as [f Hf].
  exists f. unfold cleanup_rank. rewrite Hf, bind_unfold. simpl.
  case_bool_decide as Hfound.
  - unfold os_remove. destruct Hfound as [m Hm]. rewrite Hm.
    eexists. split; [done|]. split; [done|]. split; [done|]. simpl.
    eexists. split; [done|]. by apply Forall_singleton.
  - exists w. split; [done|]. split; [done|]. split.
    + symmetry. apply delete_id. by apply eq_None_not_Some.
    + exists []. by rewrite app_nil_r.
Qed.

Lemma cleanup_loop_spec (checkpoint_prefix : option string) (checkpoint_path : string)
    (ranks : list Z) (w : World) :
  Py.truthy checkpoint_prefix = true →
  ∃ units w',
    forM (cleanup_rank checkpoint_prefix checkpoint_path) ranks w = (Ok units, w') ∧
    (∀ g, files w' !! g = None ∨ files w' !! g = files w !! g) ∧
    (∀ i f, i ∈ ranks →
       _checkpoint_file checkpoint_path checkpoint_prefix i = Some f →
       files w' !! f = None) ∧
    ∃ removed, trace w' = trace w ++ removed ∧
               Forall (λ ev, is_remove ev = true) removed.
Proof.
  intros Hprefix. revert w. induction ranks as [|i ranks IH]; intros w; simpl.
  - exists [], w. split; [done|]. split; [by auto|]. split.
    + intros i f Hi. by apply elem_of_nil in Hi.
    + exists []. by rewrite app_nil_r.
  - destruct (cleanup_rank_spec checkpoint_prefix checkpoint_path i w Hprefix)
      as (f & w1 & Hf & Hstep & Hfiles1 & rm1 & Ht1 & Hrm1).
    destruct (IH w1) as (units & w2 & Hloop & Hshrink & Hgone & rm2 & Ht2 & Hrm2).
    exists (tt :: units), w2. rewrite bind_unfold, Hstep, bind_unfold, Hloop.
    split; [done|].
    assert (∀ g, files w2 !! g = None ∨ files w2 !! g = files w !! g) as Hshrink2.
    { intros g. destruct (Hshrink g) as [?|Hg]; [by left|].
      rewrite Hg, Hfiles1. destruct (decide (f = g)) as [->|Hne].
      - left. apply lookup_delete_eq.
      - right. by apply lookup_delete_ne. }
    split; [done|]. split.
    + intros j g Hj Hg. apply elem_of_cons in Hj as [->|Hj]; [|by eapply Hgone].
      assert (g = f) as -> by congruence.
      destruct (Hshrink f) as [?|Hsame]; [done|].
      rewrite Hsame, Hfiles1. apply lookup_delete_eq.
    + exists (rm1 ++ rm2). rewrite Ht2, Ht1, app_assoc. split; [done|].
      by apply Forall_app.
Qed.

(** With a configured prefix [_cleanup] returns; afterwards no rank in
    [0, num_actors) has a checkpoint file, and nothing else happened to the
    files. *)
Lemma cleanup_spec (checkpoint_prefix : option string) (checkpoint_path : string)
    (num_actors : Z) (w : World) :
  Py.truthy checkpoint_prefix = true →
  ∃ w', _cleanup checkpoint_prefix checkpoint_path num_actors w = (Ok tt, w') ∧
    (∀ g, files w' !! g = None ∨ files w' !! g = files w !! g) ∧
    (∀ i f, 0 ≤ i < num_actors →
       _checkpoint_file checkpoint_path checkpoint_prefix i = Some f →
       files w' !! f = None) ∧
    ∃ removed, trace w' = trace w ++ removed ∧
               Forall (λ ev, is_remove ev = true) removed.
Proof.
  intros Hprefix.
  destruct (cleanup_loop_spec checkpoint_prefix checkpoint_path
              (Py.range num_actors) w Hprefix)
    as (units & w' & Hloop & Hshrink & Hgone & Hremoved).
  exists w'. unfold _cleanup. rewrite bind_unfold, Hloop.
  split; [done|]. split; [done|]. split; [|done].
  intros i f Hi. apply Hgone. by apply elem_of_range.
Qed.

(** ** One attempt *)

Section attempt.

Variables (cl : Cluster) (params : gmap string value) (dtrain : RayDMatrix)
  (args : list value) (evals : list (RayDMatrix * string))
  (num_actors gpus_per_worker : Z) (kwargs : gmap string value).

Lemma spawns_removed (w w' : World) (removed : list Event) :
  trace w' = trace w ++ removed → Forall (λ ev, is_remove ev = true) removed →
  spawns w' = spawns w.
Proof.
  intros Ht Hrm. unfold spawns.
  rewrite Ht, count_events_app, (count_events_none _ removed); [lia|].
  eapply Forall_impl; [done|]. by intros [].
Qed.

(** What [_train] does to the world: it spawns at most [num_actors]
    workers; when it raises, no file was lost and none was removed; when it
    returns, it returns what [_train_result] fetched, and with a configured
    prefix no rank has a checkpoint file left. *)
Lemma train_attempt_spec (attempt : Z) (checkpoint_prefix : option string)
    (checkpoint_path : string) (checkpoint_frequency : Z) (w : World) :
  let r := _train cl attempt params dtrain args evals num_actors gpus_per_worker
             checkpoint_prefix checkpoint_path checkpoint_frequency kwargs w in
  (spawns r.2 ≤ spawns w + Z.to_nat num_actors)%nat ∧
  (∀ e, r.1 = Err e → steps (λ ev, is_remove ev = false) w r.2) ∧
  (∀ res, r.1 = Ok res →
     ∃ w1, _train_result cl attempt params dtrain args evals num_actors
             gpus_per_worker checkpoint_prefix checkpoint_path
             checkpoint_frequency kwargs w = (Ok res, w1)) ∧
  (∀ res, r.1 = Ok res → Py.truthy checkpoint_prefix = true →
     ∀ i f, 0 ≤ i < num_actors →
       _checkpoint_file checkpoint_path checkpoint_prefix i = Some f →
       files r.2 !! f = None).
Proof.
  simpl. unfold _train. rewrite bind_unfold.
  pose proof (spawned_train_result cl attempt params dtrain args evals num_actors
                gpus_per_worker checkpoint_prefix checkpoint_path
                checkpoint_frequency kwargs w) as [Hsteps Hspawns].
  destruct (_train_result cl attempt params dtrain args evals num_actors
              gpus_per_worker checkpoint_prefix checkpoint_path
              checkpoint_frequency kwargs w) as [[[bst evals_result]|e] w1];
    simpl in *.
  2:{ split; [done|]. split; [by intros ? _|]. split; intros; done. }
  rewrite bind_unfold.
  destruct (Py.truthy checkpoint_prefix) eqn:Hprefix; simpl.
  - destruct (cleanup_spec checkpoint_prefix checkpoint_path num_actors w1 Hprefix)
      as (w2 & -> & Hshrink & Hgone & removed & Ht & Hremoved). simpl.
    rewrite (spawns_removed w1 w2 removed) by done.
    split; [done|]. split; [done|]. split; [intros ? [= <-]; by eexists|].
    intros res _ _ i f Hi Hf. by eapply Hgone.
  - split; [done|]. split; [done|]. split; [intros ? [= <-]; by eexists|]. done.
Qed.

End attempt.

(** ** The retry loop *)

Section retry.

Variables (cl : Cluster) (params : gmap string value) (dtrain : RayDMatrix)
  (args : list value) (evals : list (RayDMatrix * string))
  (num_actors gpus_per_worker : Z) (max_actor_restarts : Restarts)
  (checkpoint_prefix checkpoint_path checkpoint_frequency : value)
  (kwargs : gmap string value).

Local Abbreviation attempt tries :=
  (call__train cl tries params dtrain args evals num_actors gpus_per_worker
     checkpoint_prefix checkpoint_path checkpoint_frequency kwargs).

Local Abbreviation loop fuel tries :=
  (train_loop fuel cl params dtrain args evals num_actors gpus_per_worker
     max_actor_restarts checkpoint_prefix checkpoint_path checkpoint_frequency
     kwargs tries).

Lemma call_train_spec (tries : Z) (w : World) :
  (spawns (attempt tries w).2 ≤ spawns w + Z.to_nat num_actors)%nat ∧
  (∀ e, (attempt tries w).1 = Err e →
        steps (λ ev, is_remove ev = false) w (attempt tries w).2).
Proof.
  unfold call__train.
  destruct (filter _ _) as [|k ks]; [|simpl; split; [lia|by intros ? _]].
  destruct checkpoint_prefix as [| |prefix| |], checkpoint_path as [| |path| |],
    checkpoint_frequency as [|frequency| | |];
    try (simpl; split; [lia|by intros ? _]).
  - destruct (train_attempt_spec cl params dtrain args evals num_actors
                gpus_per_worker kwargs tries None path frequency w)
      as (? & ? & _); by split.
  - destruct (train_attempt_spec cl params dtrain args evals num_actors
                gpus_per_worker kwargs tries (Some prefix) path frequency w)
      as (? & ? & _); by split.
Qed.

(** One turn of the loop, case by case. *)
Lemma loop_unfold (fuel : nat) (tries : Z) (w : World) :
  loop (S fuel) tries w =
  if le_restarts tries max_actor_restarts then
    match attempt tries w with
    | (Ok (bst, evals_result), w') => Some (Ok (Some bst, evals_result), w')
    | (Err RayActorError, w') =>
        if le_restarts (tries + 1) max_actor_restarts then
          loop fuel (tries + 1)
            (emit (E := exn) (EvLog "warning"
               "A Ray actor died during training. Trying to restart and continue training from last checkpoint.") w').2
        else Some (Err (RuntimeError
                          (exhaustion_message checkpoint_path checkpoint_frequency)), w')
    | (Err e, w') => Some (Err e, w')
    end
  else Some (Ok (None, ∅), w).
Proof. reflexivity. Qed.

(** The loop is only ever entered with [tries] within the budget, so it
    never reaches the [return None, {}] after it. *)
Lemma loop_no_fall_through (fuel : nat) (tries : Z) (w w' : World)
    (evals_result : EvalsResult) :
  le_restarts tries max_actor_restarts = true →
  loop fuel tries w ≠ Some (Ok (None, evals_result), w').
Proof.
  revert tries w. induction fuel as [|fuel IH]; intros tries w Hle; [done|].
  rewrite loop_unfold, Hle.
  destruct (attempt tries w) as [[[bst ev]|e] w1]; [done|].
  destruct e; try done.
  destruct (le_restarts (tries + 1) max_actor_restarts) eqn:Hnext; [|done].
  by apply IH.
Qed.

(** A returned model is the one of a successful attempt. *)
Lemma loop_returns_attempt (fuel : nat) (tries : Z) (w w' : World)
    (bst : Booster) (evals_result : EvalsResult) :
  loop fuel tries w = Some (Ok (Some bst, evals_result), w') →
  ∃ tries' w0, tries ≤ tries' ∧ attempt tries' w0 = (Ok (bst, evals_result), w').
Proof.
  revert tries w. induction fuel as [|fuel IH]; intros tries w; [done|].
  rewrite loop_unfold.
  destruct (le_restarts tries max_actor_restarts); [|done].
  destruct (attempt tries w) as [[[bst1 ev1]|e] w1] eqn:Hattempt.
  - intros [= -> -> ->]. exists tries, w. split; [lia|done].
  - destruct e; try done.
    destruct (le_restarts (tries + 1) max_actor_restarts); [|done].
    intros Hloop. apply IH in Hloop as (tries' & w0 & Hle & Hok).
    exists tries', w0. split; [lia|done].
Qed.

(** A loop that ends in an error has lost no file and removed none. *)
Lemma loop_failure_keeps_files (fuel : nat) (tries : Z) (w w' : World) (e : exn) :
  loop fuel tries w = Some (Err e, w') →
  steps (λ ev, is_remove ev = false) w w'.
Proof.
  revert tries w. induction fuel as [|fuel IH]; intros tries w; [done|].
  rewrite loop_unfold.
  destruct (le_restarts tries max_actor_restarts); [|done].
  destruct (call_train_spec tries w) as [_ Hkeeps].
  destruct (attempt tries w) as [[[bst1 ev1]|e1] w1] eqn:Hattempt; [done|].
  specialize (Hkeeps e1 eq_refl). simpl in Hkeeps.
  destruct e1; try (intros [= <- <-]; done).
  destruct (le_restarts (tries + 1) max_actor_restarts); [|by intros [= <- <-]].
  intros Hloop. apply IH in Hloop.
  etrans; [done|]. etrans; [|done].
  split; [done|]. eexists. split; [done|]. by apply Forall_singleton.
Qed.

(** With a finite budget [R] the loop spawns at most [num_actors] workers
    for each of the attempts [tries, ..., R]. *)
Lemma loop_spawn_bound (R : Z) (fuel : nat) (tries : Z) (w w' : World)
    (r : res exn (option Booster * EvalsResult)) :
  max_actor_restarts = Finite R →
  loop fuel tries w = Some (r, w') →
  (spawns w' ≤ spawns w + Z.to_nat (R + 1 - tries) * Z.to_nat num_actors)%nat.
Proof.
  intros Hmax. revert tries w. induction fuel as [|fuel IH]; intros tries w; [done|].
  rewrite loop_unfold. rewrite Hmax at 1. simpl.
  case_bool_decide as Hle; [|intros [= <- <-]; nia].
  destruct (call_train_spec tries w) as [Hspawn _].
  assert (Z.to_nat (R + 1 - tries) = S (Z.to_nat (R - tries))) as -> by lia.
  rewrite Nat.mul_succ_l.
  destruct (attempt tries w) as [[[bst1 ev1]|e1] w1] eqn:Hattempt; simpl in Hspawn.
  { intros [= <- <-]. nia. }
  destruct e1; try (intros [= <- <-]; nia).
  destruct (le_restarts (tries + 1) max_actor_restarts); [|intros [= <- <-]; nia].
  intros Hloop. apply IH in Hloop.
  replace (R + 1 - (tries + 1)) with (R - tries) in Hloop by lia.
  unfold spawns in *. simpl in Hloop. rewrite count_events_app in Hloop.
  change (count_events is_spawn [EvLog _ _]) with 0%nat in Hloop. nia.
Qed.

(** With a finite budget [R], [R + 1 - tries] turns are enough to leave the
    loop. *)
Lemma loop_terminates (R : Z) (fuel : nat) (tries : Z) (w : World) :
  max_actor_restarts = Finite R → tries ≤ R →
  (Z.to_nat (R - tries) < fuel)%nat →
  is_Some (loop fuel tries w).
Proof.
  intros Hmax. revert tries w. induction fuel as [|fuel IH]; intros tries w Hle Hfuel;
    [lia|].
  rewrite loop_unfold.
  destruct (le_restarts tries max_actor_restarts); [|by eexists].
  destruct (attempt tries w) as [[[bst1 ev1]|e1] w1]; [by eexists|].
  destruct e1; try by eexists.
  destruct (le_restarts (tries + 1) max_actor_restarts) eqn:Hnext; [|by eexists].
  rewrite Hmax in Hnext. simpl in Hnext. apply bool_decide_eq_true in Hnext.
  apply IH; lia.
Qed.

End retry.

(** ** The public [train] *)

Section public_train.

Variables (cl : Cluster) (params : gmap string value) (dtrain : RayDMatrix)
  (args : list value) (evals : list (RayDMatrix * string))
  (num_actors gpus_per_worker : Z) (kwargs : gmap string value).

Local Abbreviation auto_prefix := (".xgb_ray_" +:+ time_time cl).

Local Abbreviation kw_prefix :=
  (default (VStr auto_prefix) (kwargs !! "checkpoint_prefix")).
Local Abbreviation kw_path := (default (VStr "/tmp") (kwargs !! "checkpoint_path")).
Local Abbreviation kw_frequency := (default (VInt 5) (kwargs !! "checkpoint_frequency")).

Local Abbreviation budget R :=
  (if bool_decide (0 ≤ R) then Finite R else Infinite).

Lemma train_unfold (fuel : nat) (max_actor_restarts : Z) (w : World) :
  RAY_INSTALLED cl = true →
  train fuel cl params dtrain args evals num_actors gpus_per_worker
    max_actor_restarts kwargs w
  = train_loop fuel cl params dtrain args evals num_actors gpus_per_worker
      (budget max_actor_restarts) kw_prefix kw_path kw_frequency kwargs 0 w.
Proof. intros Hray. unfold train, _assert_ray_support. by rewrite Hray. Qed.

Lemma train_without_ray (fuel : nat) (max_actor_restarts : Z) (w : World) :
  RAY_INSTALLED cl = false →
  ∃ msg, train fuel cl params dtrain args evals num_actors gpus_per_worker
           max_actor_restarts kwargs w = Some (Err (ImportError msg), w).
Proof. intros Hray. unfold train, _assert_ray_support. rewrite Hray. by eexists. Qed.

Lemma budget_allows_first (max_actor_restarts : Z) :
  le_restarts 0 (budget max_actor_restarts) = true.
Proof.
  case_bool_decide; [|done]. simpl. by apply bool_decide_eq_true.
Qed.

(** A checkpoint keyword in [kwargs] makes the call of [_train] a
    [TypeError]; the world is not touched. *)
Lemma call_train_duplicate_keyword (tries : Z) (w : World) :
  is_Some (kwargs !! "checkpoint_prefix") ∨ is_Some (kwargs !! "checkpoint_path")
    ∨ is_Some (kwargs !! "checkpoint_frequency") →
  ∃ msg, call__train cl tries params dtrain args evals num_actors gpus_per_worker
           kw_prefix kw_path kw_frequency kwargs w = (Err (TypeError msg), w).
Proof.
  intros Hdup. unfold call__train.
  destruct (filter _ _) as [|k ks] eqn:Hfilter; [|by eexists].
  exfalso.
  assert (∀ k, k ∈ ["checkpoint_prefix"; "checkpoint_path"; "checkpoint_frequency"] →
               ¬ is_Some (kwargs !! k)) as Hnone.
  { intros k Hk Hsome.
    assert (k ∈ filter (λ k, is_Some (kwargs !! k))
              ["checkpoint_prefix"; "checkpoint_path"; "checkpoint_frequency"]) as Hin
      by (by apply list_elem_of_filter).
    rewrite Hfilter in Hin. by apply elem_of_nil in Hin. }
  destruct Hdup as [H|[H|H]]; (eapply Hnone; [|exact H]); set_solver.
Qed.

(** Without them the call is the call of [_train] with the defaults. *)
Lemma call_train_defaults (tries : Z) (w : World) :
  kwargs !! "checkpoint_prefix" = None → kwargs !! "checkpoint_path" = None →
  kwargs !! "checkpoint_frequency" = None →
  call__train cl tries params dtrain args evals num_actors gpus_per_worker
    kw_prefix kw_path kw_frequency kwargs w
  = _train cl tries params dtrain args evals num_actors gpus_per_worker
      (Some auto_prefix) "/tmp" 5 kwargs w.
Proof.
  intros H1 H2 H3. unfold call__train. rewrite H1, H2, H3. simpl.
  rewrite !filter_cons, filter_nil, H1, H2, H3.
  rewrite !decide_False by (by intros [? ?]). done.
Qed.

Lemma call_train_ok (tries : Z) (w w' : World) (res : Booster * EvalsResult) :
  call__train cl tries params dtrain args evals num_actors gpus_per_worker
    kw_prefix kw_path kw_frequency kwargs w = (Ok res, w') →
  _train cl tries params dtrain args evals num_actors gpus_per_worker
    (Some auto_prefix) "/tmp" 5 kwargs w = (Ok res, w').
Proof.
  intros Hok.
  destruct (kwargs !! "checkpoint_prefix") as [v|] eqn:H1.
  { destruct (call_train_duplicate_keyword tries w) as [msg Hmsg];
      [left; rewrite H1; by eexists|]. rewrite H1 in Hmsg. congruence. }
  destruct (kwargs !! "checkpoint_path") as [v|] eqn:H2.
  { destruct (call_train_duplicate_keyword tries w) as [msg Hmsg];
      [right; left; rewrite H2; by eexists|].
    rewrite H1, H2 in Hmsg. congruence. }
  destruct (kwargs !! "checkpoint_frequency") as [v|] eqn:H3.
  { destruct (call_train_duplicate_keyword tries w) as [msg Hmsg];
      [right; right; rewrite H3; by eexists|].
    rewrite H1, H2, H3 in Hmsg. congruence. }
  rewrite <- Hok. symmetry.
  pose proof (call_train_defaults tries w H1 H2 H3) as Hdef.
  rewrite H1, H2, H3 in Hdef. exact Hdef.
Qed.

End public_train.

(** ** Each attempt spawns [num_actors] fresh workers *)

Lemma spawns_quiet (w w' : World) : steps is_quiet w w' → spawns w' = spawns w.
Proof.
  intros [_ (evs & Ht & Hevs)]. unfold spawns.
  rewrite Ht, count_events_app, (count_events_none _ evs); [lia|].
  eapply Forall_impl; [done|]. by intros ev [? _].
Qed.

Lemma count_events_spawn (ranks : list Z) (num_actors num_gpus : Z) :
  count_events is_spawn ((λ i, EvSpawn i num_actors num_gpus) <$> ranks) = length ranks.
Proof.
  unfold count_events. induction ranks as [|i ranks IH]; [done|]. simpl. by f_equal.
Qed.

(** The actors are created in the order of their ranks, each with the
    fields of [__init__] and an empty cache, and each creation is one spawn
    event. *)
Lemma create_actors_spec (cl : Cluster) (attempt num_actors num_gpus : Z)
    (checkpoint_prefix : option string) (checkpoint_path : string)
    (checkpoint_frequency : Z) (ranks : list Z) (w : World) :
  forM (λ i, _create_actor cl attempt i num_actors num_gpus checkpoint_prefix
               checkpoint_path checkpoint_frequency) ranks w
  = (Ok ((λ i, Some (RayXGBoostActor.__init__ (actor_object_id cl attempt i) i
                       num_actors checkpoint_prefix checkpoint_path
                       checkpoint_frequency)) <$> ranks),
     {| files := files w; ray_initialized := ray_initialized w;
        trace := trace w ++ ((λ i, EvSpawn i num_actors num_gpus) <$> ranks) |}).
Proof.
  revert w. induction ranks as [|i ranks IH]; intros w; simpl.
  - rewrite app_nil_r. by destruct w.
  - rewrite bind_unfold. unfold _create_actor at 1. rewrite bind_unfold. simpl.
    rewrite bind_unfold, IH. simpl. by rewrite <- app_assoc.
Qed.

(** An attempt that gets as far as creating the actors spawns exactly
    [num_actors] workers, whatever happens afterwards. *)
Lemma train_result_spawns_exactly (cl : Cluster) (attempt : Z)
    (params : gmap string value) (dtrain : RayDMatrix) (args : list value)
    (evals : list (RayDMatrix * string)) (num_actors gpus_per_worker : Z)
    (checkpoint_prefix : option string) (checkpoint_path : string)
    (checkpoint_frequency : Z) (kwargs : gmap string value) (w : World) (gpus : Z) :
  RAY_INSTALLED cl = true →
  (ray_initialized w = true ∨ ray_init cl = Ok tt) →
  (resolve_gpus_per_worker params gpus_per_worker w).1 = Ok gpus →
  spawns (_train_result cl attempt params dtrain args evals num_actors
            gpus_per_worker checkpoint_prefix checkpoint_path checkpoint_frequency
            kwargs w).2
  = (spawns w + Z.to_nat num_actors)%nat.
Proof.
  intros Hray Hinit Hgpus. unfold _train_result, _assert_ray_support.
  rewrite Hray, bind_ret_l, bind_unfold.
  assert (∃ w1, ray_init_if_needed cl w = (Ok tt, w1) ∧ spawns w1 = spawns w) as
    (w1 & -> & <-).
  { unfold ray_init_if_needed.
    destruct (ray_initialized w) eqn:Hup; [by eexists|].
    destruct Hinit as [? | ->]; [done|]. eexists. split; [done|].
    unfold spawns. simpl. by rewrite count_events_app. }
  rewrite bind_unfold.
  assert (resolve_gpus_per_worker params gpus_per_worker w1 = (Ok gpus, w1)) as ->.
  { revert Hgpus. unfold resolve_gpus_per_worker.
    repeat case_match; simpl; by intros [= ->]. }
  rewrite bind_unfold, create_actors_spec.
  match goal with
  | |- spawns (?rest ?actors ?w2).2 = _ =>
      rewrite (spawns_quiet w2 (rest actors w2).2)
  end.
  - unfold spawns. simpl.
    by rewrite count_events_app, count_events_spawn, length_range.
  - apply steps_after_creation. by split.
Qed.

(** ** The claims about [train] *)

(** With a budget [R >= 0], [R + 1] turns are enough for [train] to end. *)
Lemma train_terminates
    (fuel : nat) (cl : Cluster) (params : gmap string value) (dtrain : RayDMatrix)
    (args : list value) (evals : list (RayDMatrix * string))
    (num_actors gpus_per_worker max_actor_restarts : Z)
    (kwargs : gmap string value) (w : World) :
  0 ≤ max_actor_restarts → (Z.to_nat max_actor_restarts < fuel)%nat →
  is_Some (train fuel cl params dtrain args evals num_actors gpus_per_worker
             max_actor_restarts kwargs w).
Proof.
  intros HR Hfuel. destruct (RAY_INSTALLED cl) eqn:Hray.
  - rewrite train_unfold by done. rewrite bool_decide_eq_true_2 by done.
    eapply loop_terminates; [done|lia|]. by rewrite Z.sub_0_r.
  - destruct (train_without_ray cl params dtrain args evals num_actors
                gpus_per_worker kwargs fuel max_actor_restarts w Hray) as [msg ->].
    by eexists.
Qed.


(** C10: [train] never ends in the [return None, {}] that follows the
    loop; a returned model is the one [_train] returned in some attempt
    (called with the generated prefix and the default directory and
    frequency); and with a budget [R >= 0], [R + 1] turns of the loop are
    enough for [train] to return or raise.  [fuel] bounds the turns of the
    loop; with unlimited restarts a run in which every attempt loses an
    actor has no end. *)
Theorem train_never_falls_through
    (fuel : nat) (cl : Cluster) (params : gmap string value) (dtrain : RayDMatrix)
    (args : list value) (evals : list (RayDMatrix * string))
    (num_actors gpus_per_worker max_actor_restarts : Z)
    (kwargs : gmap string value) (w : World) :
  let out := train fuel cl params dtrain args evals num_actors gpus_per_worker
               max_actor_restarts kwargs w in
  (∀ evals_result w', out ≠ Some (Ok (None, evals_result), w')) ∧
  (∀ bst evals_result w', out = Some (Ok (Some bst, evals_result), w') →
     ∃ tries w0, 0 ≤ tries ∧
       _train cl tries params dtrain args evals num_actors gpus_per_worker
         (Some (".xgb_ray_" +:+ time_time cl)) "/tmp" 5 kwargs w0
       = (Ok (bst, evals_result), w')) ∧
  (0 ≤ max_actor_restarts → (Z.to_nat max_actor_restarts < fuel)%nat → is_Some out).
Proof.
  simpl. destruct (RAY_INSTALLED cl) eqn:Hray.
  2:{ destruct (train_without_ray cl params dtrain args evals num_actors
                  gpus_per_worker kwargs fuel max_actor_restarts w Hray) as [msg ->].
      split; [done|]. split; [done|]. by eexists. }
  rewrite train_unfold by done. split; [|split].
  - intros evals_result w'. apply loop_no_fall_through.
    case_bool_decide; [|done]. simpl. by apply bool_decide_eq_true.
  - intros bst evals_result w' Hout.
    apply loop_returns_attempt in Hout as (tries & w0 & Hle & Hok).
    exists tries, w0. split; [done|]. by apply call_train_ok.
  - intros HR Hfuel.
    pose proof (train_terminates fuel cl params dtrain args evals num_actors
                  gpus_per_worker max_actor_restarts kwargs w HR Hfuel) as Hends.
    by rewrite train_unfold in Hends.
Qed.

Lemma train_never_falls_through_witness :
  is_Some (train 2 (demo_cluster 1) ∅ 0%nat [] [] 2 (-1) 1 ∅ empty_world) ∧
  match train 2 (demo_cluster 1) ∅ 0%nat [] [] 2 (-1) 1 ∅ empty_world with
  | Some (Ok (Some bst, evals_result), w') =>
      ∃ tries w0, 0 ≤ tries ∧
        _train (demo_cluster 1) tries ∅ 0%nat [] [] 2 (-1)
          (Some (".xgb_ray_" +:+ time_time (demo_cluster 1))) "/tmp" 5 ∅ w0
        = (Ok (bst, evals_result), w')
  | _ => True
  end.
Proof.
  destruct (train_never_falls_through 2 (demo_cluster 1) ∅ 0%nat [] [] 2 (-1) 1 ∅
              empty_world) as (_ & Hreturns & Hends).
  split.
  - apply Hends; lia.
  - destruct (train 2 (demo_cluster 1) ∅ 0%nat [] [] 2 (-1) 1 ∅ empty_world)
      as [[[[[bst|] evals_result]|e] w']|]; try exact I.
    apply Hreturns. reflexivity.
Defined.

Example train_demo_returns :
  (λ out, (out.1, spawns out.2)) <$>
    train 2 (demo_cluster 1) ∅ 0%nat [] [] 2 (-1) 1 ∅ empty_world
  = Some (Ok (Some 7, ∅), 4%nat).
Proof. vm_compute. reflexivity. Qed.

(** C4: in any turn of the retry loop, an error of the attempt other than
    [RayActorError] ends the loop at once with that very error: the world is
    the one the attempt left (no warning, no further attempt) whatever
    budget is left.  In particular [train] raises the error of its first
    attempt unchanged. *)
Theorem other_errors_propagate
    (fuel : nat) (cl : Cluster) (params : gmap string value) (dtrain : RayDMatrix)
    (args : list value) (evals : list (RayDMatrix * string))
    (num_actors gpus_per_worker : Z) (kwargs : gmap string value) (e : exn) :
  e ≠ RayActorError →
  (∀ max_actor_restarts checkpoint_prefix checkpoint_path checkpoint_frequency
     tries w,
     le_restarts tries max_actor_restarts = true →
     (call__train cl tries params dtrain args evals num_actors gpus_per_worker
        checkpoint_prefix checkpoint_path checkpoint_frequency kwargs w).1 = Err e →
     train_loop (S fuel) cl params dtrain args evals num_actors gpus_per_worker
       max_actor_restarts checkpoint_prefix checkpoint_path checkpoint_frequency
       kwargs tries w
     = Some (Err e,
             (call__train cl tries params dtrain args evals num_actors
                gpus_per_worker checkpoint_prefix checkpoint_path
                checkpoint_frequency kwargs w).2)) ∧
  (∀ max_actor_restarts w,
     RAY_INSTALLED cl = true →
     kwargs !! "checkpoint_prefix" = None → kwargs !! "checkpoint_path" = None →
     kwargs !! "checkpoint_frequency" = None →
     (_train cl 0 params dtrain args evals num_actors gpus_per_worker
        (Some (".xgb_ray_" +:+ time_time cl)) "/tmp" 5 kwargs w).1 = Err e →
     train (S fuel) cl params dtrain args evals num_actors gpus_per_worker
       max_actor_restarts kwargs w
     = Some (Err e,
             (_train cl 0 params dtrain args evals num_actors gpus_per_worker
                (Some (".xgb_ray_" +:+ time_time cl)) "/tmp" 5 kwargs w).2)).
Proof.
  intros Hne.
  assert (∀ max_actor_restarts checkpoint_prefix checkpoint_path checkpoint_frequency
            tries w,
     le_restarts tries max_actor_restarts = true →
     (call__train cl tries params dtrain args evals num_actors gpus_per_worker
        checkpoint_prefix checkpoint_path checkpoint_frequency kwargs w).1 = Err e →
     train_loop (S fuel) cl params dtrain args evals num_actors gpus_per_worker
       max_actor_restarts checkpoint_prefix checkpoint_path checkpoint_frequency
       kwargs tries w
     = Some (Err e,
             (call__train cl tries params dtrain args evals num_actors
                gpus_per_worker checkpoint_prefix checkpoint_path
                checkpoint_frequency kwargs w).2)) as Hloop.
  { intros max_actor_restarts checkpoint_prefix checkpoint_path checkpoint_frequency
      tries w Hle Herr.
    rewrite loop_unfold, Hle.
    destruct (call__train cl tries params dtrain args evals num_actors
                gpus_per_worker checkpoint_prefix checkpoint_path
                checkpoint_frequency kwargs w) as [[res|e'] w1]; simpl in *; [done|].
    injection Herr as ->. by destruct e. }
  split; [exact Hloop|].
  intros max_actor_restarts w Hray H1 H2 H3 Herr.
  rewrite train_unfold by done.
  rewrite <- (call_train_defaults cl params dtrain args evals num_actors
                gpus_per_worker kwargs 0 w H1 H2 H3) in *.
  apply Hloop; [|done]. apply budget_allows_first.
Qed.

Lemma other_errors_propagate_witness :
  train_loop 1 rejecting_cluster ∅ 0%nat [] [] 2 (-1) (Finite 3)
    (VStr "ckpt") (VStr "/tmp") (VInt 5) ∅ 1 empty_world
  = Some (Err (XGBoostError "Invalid Parameter"),
          (call__train rejecting_cluster 1 ∅ 0%nat [] [] 2 (-1)
             (VStr "ckpt") (VStr "/tmp") (VInt 5) ∅ empty_world).2) ∧
  train 1 rejecting_cluster ∅ 0%nat [] [] 2 (-1) 3 ∅ empty_world
  = Some (Err (XGBoostError "Invalid Parameter"),
          (_train rejecting_cluster 0 ∅ 0%nat [] [] 2 (-1)
             (Some (".xgb_ray_" +:+ time_time rejecting_cluster)) "/tmp" 5 ∅
             empty_world).2).
Proof.
  destruct (other_errors_propagate 0 rejecting_cluster ∅ 0%nat [] [] 2 (-1) ∅
              (XGBoostError "Invalid Parameter")) as [Hloop Htrain];
    [discriminate|].
  split.
  - apply Hloop; vm_compute; reflexivity.
  - apply Htrain; vm_compute; reflexivity.
Defined.

Example rejected_parameters_one_attempt :
  (λ out, (out.1, spawns out.2)) <$>
    train 4 rejecting_cluster ∅ 0%nat [] [] 2 (-1) 3 ∅ empty_world
  = Some (Err (XGBoostError "Invalid Parameter"), 2%nat).
Proof. vm_compute. reflexivity. Qed.

(** An attempt spawns what its first part spawns: the cleanup spawns
    nothing. *)
Lemma train_spawns_as_result (cl : Cluster) (attempt : Z)
    (params : gmap string value) (dtrain : RayDMatrix) (args : list value)
    (evals : list (RayDMatrix * string)) (num_actors gpus_per_worker : Z)
    (checkpoint_prefix : option string) (checkpoint_path : string)
    (checkpoint_frequency : Z) (kwargs : gmap string value) (w : World) :
  spawns (_train cl attempt params dtrain args evals num_actors gpus_per_worker
            checkpoint_prefix checkpoint_path checkpoint_frequency kwargs w).2
  = spawns (_train_result cl attempt params dtrain args evals num_actors
              gpus_per_worker checkpoint_prefix checkpoint_path
              checkpoint_frequency kwargs w).2.
Proof.
  unfold _train. rewrite bind_unfold.
  destruct (_train_result cl attempt params dtrain args evals num_actors
              gpus_per_worker checkpoint_prefix checkpoint_path
              checkpoint_frequency kwargs w) as [[[bst evals_result]|e] w1];
    [|done].
  rewrite bind_unfold.
  destruct (Py.truthy checkpoint_prefix) eqn:Hprefix; [|done].
  destruct (cleanup_spec checkpoint_prefix checkpoint_path num_actors w1 Hprefix)
    as (w2 & -> & _ & _ & removed & Ht & Hremoved). simpl.
  by eapply spawns_removed.
Qed.

(** C3: with a budget [R >= 0], [R + 1] turns of the loop (one attempt
    each) are enough for [train] to end, and when it ends it has spawned at
    most [(R + 1) * N] workers.  Every attempt spawns at most [N] workers,
    and exactly [N] once it gets as far as creating the actors.  With
    [R = 0] an attempt that loses an actor makes [train] raise the
    [RuntimeError] of the exhausted budget right after that attempt. *)
Theorem spawn_events_bounded
    (fuel : nat) (cl : Cluster) (params : gmap string value) (dtrain : RayDMatrix)
    (args : list value) (evals : list (RayDMatrix * string))
    (num_actors gpus_per_worker max_actor_restarts : Z)
    (kwargs : gmap string value) (w : World) :
  0 ≤ max_actor_restarts →
  let out := train fuel cl params dtrain args evals num_actors gpus_per_worker
               max_actor_restarts kwargs w in
  ((Z.to_nat max_actor_restarts < fuel)%nat → is_Some out) ∧
  (∀ r w', out = Some (r, w') →
     (spawns w' ≤ spawns w + Z.to_nat (max_actor_restarts + 1) * Z.to_nat num_actors)%nat) ∧
  (∀ tries checkpoint_prefix checkpoint_path checkpoint_frequency w0,
     let attempt := _train cl tries params dtrain args evals num_actors
                      gpus_per_worker checkpoint_prefix checkpoint_path
                      checkpoint_frequency kwargs w0 in
     (spawns attempt.2 ≤ spawns w0 + Z.to_nat num_actors)%nat ∧
     (∀ gpus, RAY_INSTALLED cl = true →
        ray_initialized w0 = true ∨ ray_init cl = Ok tt →
        (resolve_gpus_per_worker params gpus_per_worker w0).1 = Ok gpus →
        spawns attempt.2 = (spawns w0 + Z.to_nat num_actors)%nat)) ∧
  (max_actor_restarts = 0 → (0 < fuel)%nat → RAY_INSTALLED cl = true →
   kwargs !! "checkpoint_prefix" = None → kwargs !! "checkpoint_path" = None →
   kwargs !! "checkpoint_frequency" = None →
   let first := _train cl 0 params dtrain args evals num_actors gpus_per_worker
                  (Some (".xgb_ray_" +:+ time_time cl)) "/tmp" 5 kwargs w in
   first.1 = Err RayActorError →
   out = Some (Err (RuntimeError (exhaustion_message (VStr "/tmp") (VInt 5))),
               first.2)).
Proof.
  intros HR. simpl. split; [|split; [|split]].
  - intros Hfuel. by apply train_terminates.
  - intros r w'. destruct (RAY_INSTALLED cl) eqn:Hray.
    + rewrite train_unfold by done. rewrite bool_decide_eq_true_2 by done.
      intros Hout. eapply loop_spawn_bound in Hout; [|done].
      by rewrite Z.sub_0_r in Hout.
    + destruct (train_without_ray cl params dtrain args evals num_actors
                  gpus_per_worker kwargs fuel max_actor_restarts w Hray) as [msg ->].
      intros [= <- <-]. lia.
  - intros tries checkpoint_prefix checkpoint_path checkpoint_frequency w0. split.
    + apply (train_attempt_spec cl params dtrain args evals num_actors
               gpus_per_worker kwargs tries checkpoint_prefix checkpoint_path
               checkpoint_frequency w0).
    + intros gpus Hray Hinit Hgpus.
      rewrite train_spawns_as_result. by eapply train_result_spawns_exactly.
  - intros -> Hfuel Hray H1 H2 H3 Hfirst.
    destruct fuel as [|fuel]; [lia|].
    rewrite train_unfold by done. rewrite loop_unfold. simpl.
    rewrite call_train_defaults by done.
    destruct (_train cl 0 params dtrain args evals num_actors gpus_per_worker
                (Some (".xgb_ray_" +:+ time_time cl)) "/tmp" 5 kwargs w)
      as [[res|e] w1]; simpl in *; [done|].
    injection Hfirst as ->. by rewrite H2, H3.
Qed.

Lemma spawn_events_bounded_witness :
  is_Some (train 3 (demo_cluster 1) ∅ 0%nat [] [] 4 (-1) 2 ∅ empty_world) ∧
  match train 3 (demo_cluster 1) ∅ 0%nat [] [] 4 (-1) 2 ∅ empty_world with
  | Some (r, w') => (spawns w' ≤ spawns empty_world + Z.to_nat (2 + 1) * Z.to_nat 4)%nat
  | None => True
  end ∧
  spawns (_train (demo_cluster 1) 0 ∅ 0%nat [] [] 4 (-1) (Some "ckpt") "/tmp" 5 ∅
            empty_world).2
  = (spawns empty_world + Z.to_nat 4)%nat ∧
  train 1 (demo_cluster 1) ∅ 0%nat [] [] 4 (-1) 0 ∅ empty_world
  = Some (Err (RuntimeError (exhaustion_message (VStr "/tmp") (VInt 5))),
          (_train (demo_cluster 1) 0 ∅ 0%nat [] [] 4 (-1)
             (Some (".xgb_ray_" +:+ time_time (demo_cluster 1))) "/tmp" 5 ∅
             empty_world).2).
Proof.
  destruct (spawn_events_bounded 3 (demo_cluster 1) ∅ 0%nat [] [] 4 (-1) 2 ∅
              empty_world) as (Hends & Hbound & Hattempt & _); [lia|].
  destruct (spawn_events_bounded 1 (demo_cluster 1) ∅ 0%nat [] [] 4 (-1) 0 ∅
              empty_world) as (_ & _ & _ & Hfatal); [lia|].
  split; [|split; [|split]].
  - apply Hends. simpl. lia.
  - destruct (train 3 (demo_cluster 1) ∅ 0%nat [] [] 4 (-1) 2 ∅ empty_world)
      as [[r w']|]; [|exact I].
    apply (Hbound r w'). reflexivity.
  - destruct (Hattempt 0 (Some "ckpt") "/tmp" 5 empty_world) as [_ Hexact].
    apply (Hexact 0); [reflexivity|right; reflexivity|reflexivity].
  - apply Hfatal; try reflexivity. lia.
Defined.

Example four_workers_two_restarts :
  (λ out, (out.1, spawns out.2)) <$>
    train 3 (demo_cluster 1) ∅ 0%nat [] [] 4 (-1) 2 ∅ empty_world
  = Some (Ok (Some 7, ∅), 8%nat).
Proof. vm_compute. reflexivity. Qed.

(** ** Checkpoint files and failure *)

Example failed_job_keeps_checkpoints :
  (λ out, (out.1, map_to_list (files out.2))) <$>
    train 1 (demo_cluster 1) ∅ 0%nat [] [] 2 (-1) 0 ∅ empty_world
  = Some (Err (RuntimeError (exhaustion_message (VStr "/tmp") (VInt 5))),
          [("/tmp/.xgb_ray_1600000000.5_00001.xgb", 5);
           ("/tmp/.xgb_ray_1600000000.5_00000.xgb", 5)]).
Proof. vm_compute. reflexivity. Qed.

Example finished_job_removes_checkpoints :
  (λ out, (out.1, map_to_list (files out.2))) <$>
    train 2 (demo_cluster 1) ∅ 0%nat [] [] 2 (-1) 1 ∅ empty_world
  = Some (Ok (Some 7, ∅), []).
Proof. vm_compute. reflexivity. Qed.

(** C5: when [train] raises, every file that existed before still exists
    and no removal happened; the same holds for every single attempt
    ([_train]) that raises; and when an attempt returns with a configured
    prefix, no rank in [0, N) has a checkpoint file left. *)
Theorem checkpoints_survive_failure
    (cl : Cluster) (params : gmap string value) (dtrain : RayDMatrix)
    (args : list value) (evals : list (RayDMatrix * string))
    (num_actors gpus_per_worker : Z) (kwargs : gmap string value) :
  (∀ fuel max_actor_restarts w e w',
     train fuel cl params dtrain args evals num_actors gpus_per_worker
       max_actor_restarts kwargs w = Some (Err e, w') →
     (∀ f, is_Some (files w !! f) → is_Some (files w' !! f)) ∧
     ∃ evs, trace w' = trace w ++ evs ∧ Forall (λ ev, is_remove ev = false) evs) ∧
  (∀ tries checkpoint_prefix checkpoint_path checkpoint_frequency w e w',
     _train cl tries params dtrain args evals num_actors gpus_per_worker
       checkpoint_prefix checkpoint_path checkpoint_frequency kwargs w = (Err e, w') →
     (∀ f, is_Some (files w !! f) → is_Some (files w' !! f)) ∧
     ∃ evs, trace w' = trace w ++ evs ∧ Forall (λ ev, is_remove ev = false) evs) ∧
  (∀ tries checkpoint_prefix checkpoint_path checkpoint_frequency w res w',
     _train cl tries params dtrain args evals num_actors gpus_per_worker
       checkpoint_prefix checkpoint_path checkpoint_frequency kwargs w = (Ok res, w') →
     Py.truthy checkpoint_prefix = true →
     ∀ i, 0 ≤ i < num_actors →
       ∃ f, _checkpoint_file checkpoint_path checkpoint_prefix i = Some f ∧
            files w' !! f = None).
Proof.
  split; [|split].
  - intros fuel max_actor_restarts w e w' Hout.
    destruct (RAY_INSTALLED cl) eqn:Hray.
    + rewrite train_unfold in Hout by done.
      by apply loop_failure_keeps_files in Hout.
    + destruct (train_without_ray cl params dtrain args evals num_actors
                  gpus_per_worker kwargs fuel max_actor_restarts w Hray) as [msg Hmsg].
      rewrite Hmsg in Hout. injection Hout as _ <-.
      split; [done|]. exists []. by rewrite app_nil_r.
  - intros tries checkpoint_prefix checkpoint_path checkpoint_frequency w e w' Hout.
    destruct (train_attempt_spec cl params dtrain args evals num_actors
                gpus_per_worker kwargs tries checkpoint_prefix checkpoint_path
                checkpoint_frequency w) as (_ & Hkeeps & _).
    rewrite Hout in Hkeeps. by apply (Hkeeps e).
  - intros tries checkpoint_prefix checkpoint_path checkpoint_frequency w res w' Hout
      Hprefix i Hi.
    destruct (train_attempt_spec cl params dtrain args evals num_actors
                gpus_per_worker kwargs tries checkpoint_prefix checkpoint_path
                checkpoint_frequency w) as (_ & _ & _ & Hgone).
    rewrite Hout in Hgone.
    destruct (checkpoint_file_truthy checkpoint_path checkpoint_prefix i Hprefix)
      as [f Hf].
    exists f. split; [done|]. by eapply Hgone.
Qed.

Lemma checkpoints_survive_failure_witness :
  match train 1 (demo_cluster 1) ∅ 0%nat [] [] 2 (-1) 0 ∅ checkpointed_world with
  | Some (Err e, w') => is_Some (files w' !! "/tmp/ckpt_00000.xgb")
  | _ => False
  end ∧
  match _train (demo_cluster 1) 0 ∅ 0%nat [] [] 2 (-1) (Some "ckpt") "/tmp" 5 ∅
          checkpointed_world with
  | (Err e, w') => is_Some (files w' !! "/tmp/ckpt_00000.xgb")
  | _ => False
  end ∧
  match _train (demo_cluster 0) 0 ∅ 0%nat [] [] 2 (-1) (Some "ckpt") "/tmp" 5 ∅
          checkpointed_world with
  | (Ok res, w') =>
      ∃ f, _checkpoint_file "/tmp" (Some "ckpt") 0 = Some f ∧ files w' !! f = None
  | _ => False
  end.
Proof.
  destruct (checkpoints_survive_failure (demo_cluster 1) ∅ 0%nat [] [] 2 (-1) ∅)
    as (Hjob & Hattempt & _).
  destruct (checkpoints_survive_failure (demo_cluster 0) ∅ 0%nat [] [] 2 (-1) ∅)
    as (_ & _ & Hclean).
  split; [|split].
  - destruct (train 1 (demo_cluster 1) ∅ 0%nat [] [] 2 (-1) 0 ∅ checkpointed_world)
      as [[[r|e] w']|] eqn:Hout; [vm_compute in Hout; discriminate| |
                                  vm_compute in Hout; discriminate].
    destruct (Hjob _ _ _ _ _ Hout) as [Hfiles _].
    apply Hfiles. vm_compute. by eexists.
  - destruct (_train (demo_cluster 1) 0 ∅ 0%nat [] [] 2 (-1) (Some "ckpt") "/tmp" 5 ∅
                checkpointed_world) as [[r|e] w'] eqn:Hout;
      [vm_compute in Hout; discriminate|].
    destruct (Hattempt _ _ _ _ _ _ _ Hout) as [Hfiles _].
    apply Hfiles. vm_compute. by eexists.
  - destruct (_train (demo_cluster 0) 0 ∅ 0%nat [] [] 2 (-1) (Some "ckpt") "/tmp" 5 ∅
                checkpointed_world) as [[r|e] w'] eqn:Hout;
      [|vm_compute in Hout; discriminate].
    apply (Hclean _ _ _ _ _ _ _ Hout); [reflexivity|lia].
Defined.

(** ** The message of the exhausted budget *)

(** C2, the code at a failing input: two workers, no restart allowed, the
    actor of rank [1] dies in the engine.  [train] raises the
    [RuntimeError] of lines 306-313; its message names the directory
    ["/tmp"] and, as the prefix, the checkpoint frequency ["5"]; the prefix
    in use, under which the checkpoint of rank [0] was saved, is
    [".xgb_ray_1600000000.5"] and does not occur in the message. *)
Theorem exhaustion_message_reports_frequency :
  ∃ w',
    train 1 (demo_cluster 1) ∅ 0%nat [] [] 2 (-1) 0 ∅ empty_world
    = Some (Err (RuntimeError
        "A Ray actor died during training and the maximum number of retries is exhausted. Checkpoints have been stored at `/tmp` with prefix `5` - you can pass these parameters as `checkpoint_path` and `checkpoint_prefix` to the `train()` function to try to continue the training."),
            w') ∧
    is_Some (files w' !! "/tmp/.xgb_ray_1600000000.5_00000.xgb") ∧
    Py.contains (exhaustion_message (VStr "/tmp") (VInt 5)) ".xgb_ray_1600000000.5"
    = false.
Proof.
  eexists. split; [vm_compute; reflexivity|]. split; [|vm_compute; reflexivity].
  vm_compute. by eexists.
Qed.

(** Passing the reported values back is not possible either: a
    [checkpoint_prefix] given to [train] reaches [_train] twice. *)
Example resume_with_prefix_is_type_error :
  train 1 (demo_cluster 0) ∅ 0%nat [] [] 2 (-1) 0
    {["checkpoint_prefix" := VStr ".xgb_ray_1600000000.5"]} empty_world
  = Some (Err (TypeError
        "_train() got multiple values for keyword argument 'checkpoint_prefix'"),
          empty_world).
Proof. vm_compute. reflexivity. Qed.

(** ** Unlimited restarts *)

(** On a cluster where an actor dies in every attempt, every attempt ends
    in [RayActorError]. *)
Lemma doomed_attempt (tries : Z) (w : World) :
  (call__train doomed_cluster tries ∅ 0%nat [] [] 1 (-1)
     (VStr ".xgb_ray_1600000000.5") (VStr "/tmp") (VInt 5) ∅ w).1
  = Err RayActorError.
Proof.
  destruct w as [fs [] tr]; vm_compute; reflexivity.
Qed.

(** With [max_actor_restarts = -1] such a run never leaves the loop: no
    number of turns is enough. *)
Lemma unlimited_restarts_never_end (fuel : nat) (w : World) :
  train fuel doomed_cluster ∅ 0%nat [] [] 1 (-1) (-1) ∅ w = None.
Proof.
  rewrite train_unfold by done.
  change (default _ (∅ !! "checkpoint_prefix")) with (VStr ".xgb_ray_1600000000.5").
  change (default _ (∅ !! "checkpoint_path")) with (VStr "/tmp").
  change (default _ (∅ !! "checkpoint_frequency")) with (VInt 5).
  change (if bool_decide (0 ≤ -1) then Finite (-1) else Infinite) with Infinite.
  generalize 0 as tries. revert w.
  induction fuel as [|fuel IH]; intros w tries; [done|].
  rewrite loop_unfold. simpl.
  pose proof (doomed_attempt tries w) as Hdies.
  destruct (call__train doomed_cluster tries ∅ 0%nat [] [] 1 (-1)
              (VStr ".xgb_ray_1600000000.5") (VStr "/tmp") (VInt 5) ∅ w)
    as [[res|e] w1]; simpl in Hdies; [done|].
  injection Hdies as ->. apply IH.
Qed.

(** * Further properties of the code *)

(** ** [_cleanup] *)

Lemma cleanup_rank_absent (checkpoint_prefix : option string) (checkpoint_path : string)
    (i : Z) (f : string) (w : World) :
  _checkpoint_file checkpoint_path checkpoint_prefix i = Some f →
  files w !! f = None →
  cleanup_rank checkpoint_prefix checkpoint_path i w = (Ok tt, w).
Proof.
  intros Hf Habsent. unfold cleanup_rank. rewrite Hf, bind_unfold. simpl.
  rewrite bool_decide_eq_false_2; [done|]. rewrite Habsent. by intros [? ?].
Qed.

Lemma cleanup_rank_present (checkpoint_prefix : option string) (checkpoint_path : string)
    (i : Z) (f : string) (w : World) :
  _checkpoint_file checkpoint_path checkpoint_prefix i = Some f →
  is_Some (files w !! f) →
  cleanup_rank checkpoint_prefix checkpoint_path i w
  = (Ok tt, {| files := delete f (files w); ray_initialized := ray_initialized w;
               trace := trace w ++ [EvRemove f] |}).
Proof.
  intros Hf [m Hm]. unfold cleanup_rank. rewrite Hf, bind_unfold. simpl.
  rewrite bool_decide_eq_true_2 by (by eexists). unfold os_remove. by rewrite Hm.
Qed.

(** The loop of [_cleanup] over any list of ranks: it returns, the files of
    the ranks are gone, every other file is as before, and each removal is
    the removal of a rank file that existed. *)
Lemma cleanup_loop_exact (checkpoint_prefix : option string) (checkpoint_path : string)
    (ranks : list Z) (w : World) :
  Py.truthy checkpoint_prefix = true →
  ∃ units w',
    forM (cleanup_rank checkpoint_prefix checkpoint_path) ranks w = (Ok units, w') ∧
    (∀ i g, i ∈ ranks →
       _checkpoint_file checkpoint_path checkpoint_prefix i = Some g →
       files w' !! g = None) ∧
    (∀ g, (∀ i, i ∈ ranks →
             _checkpoint_file checkpoint_path checkpoint_prefix i ≠ Some g) →
       files w' !! g = files w !! g) ∧
    ray_initialized w' = ray_initialized w ∧
    ∃ removed, trace w' = trace w ++ (EvRemove <$> removed) ∧
      Forall (λ g, is_Some (files w !! g) ∧
                   ∃ i, i ∈ ranks ∧
                     _checkpoint_file checkpoint_path checkpoint_prefix i = Some g)
             removed.
Proof.
  intros Hprefix. revert w. induction ranks as [|i ranks IH]; intros w; simpl.
  - exists [], w. split; [done|]. split; [by intros ? ? ?%elem_of_nil|].
    split; [done|]. split; [done|]. exists []. by rewrite app_nil_r.
  - destruct (checkpoint_file_truthy checkpoint_path checkpoint_prefix i Hprefix)
      as [f Hf].
    assert (∃ w1 rm1,
      cleanup_rank checkpoint_prefix checkpoint_path i w = (Ok tt, w1) ∧
      files w1 = delete f (files w) ∧ ray_initialized w1 = ray_initialized w ∧
      trace w1 = trace w ++ (EvRemove <$> rm1) ∧
      Forall (λ g, g = f ∧ is_Some (files w !! f)) rm1) as
      (w1 & rm1 & Hstep & Hfiles1 & Hinit1 & Ht1 & Hrm1).
    { destruct (files w !! f) as [m|] eqn:Hm.
      - eexists _, [f]. rewrite (cleanup_rank_present _ _ _ f) by (by rewrite ?Hm).
        repeat split; try done. apply Forall_singleton. split; [done|by eexists].
      - exists w, []. rewrite (cleanup_rank_absent _ _ _ f) by done.
        repeat split; try done.
        + symmetry. by apply delete_id.
        + by rewrite app_nil_r. }
    destruct (IH w1) as (units & w2 & Hloop & Hgone & Hkept & Hinit2 & rm2 & Ht2 & Hrm2).
    exists (tt :: units), w2. rewrite bind_unfold, Hstep, bind_unfold, Hloop.
    split; [done|]. split; [|split; [|split; [congruence|]]].
    + intros j g Hj Hg. apply elem_of_cons in Hj as [->|Hj]; [|by eapply Hgone].
      assert (g = f) as -> by congruence.
      destruct (decide (Exists (λ k, _checkpoint_file checkpoint_path
                                       checkpoint_prefix k = Some f) ranks))
        as [(k & Hk & Hkf)%Exists_exists|Hnone].
      * by eapply Hgone.
      * rewrite Hkept, Hfiles1; [apply lookup_delete_eq|].
        intros k Hk Hkf. apply Hnone, Exists_exists. by exists k.
    + intros g Hg. rewrite Hkept, Hfiles1.
      * apply lookup_delete_ne. intros ->. apply (Hg i); [left|done].
      * intros k Hk. apply Hg. by right.
    + exists (rm1 ++ rm2). rewrite Ht2, Ht1, fmap_app, app_assoc. split; [done|].
      apply Forall_app. split.
      * eapply Forall_impl; [done|]. intros g [-> Hsome]. split; [done|].
        exists i. split; [left|done].
      * eapply Forall_impl; [done|]. intros g [Hsome (k & Hk & Hkg)]. split.
        -- rewrite Hfiles1 in Hsome. destruct (decide (f = g)) as [->|Hne].
           ++ rewrite lookup_delete_eq in Hsome. by destruct Hsome.
           ++ by rewrite lookup_delete_ne in Hsome.
        -- exists k. split; [by right|done].
Qed.

Lemma cleanup_loop_absent (checkpoint_prefix : option string) (checkpoint_path : string)
    (ranks : list Z) (w : World) :
  Py.truthy checkpoint_prefix = true →
  (∀ i g, i ∈ ranks →
     _checkpoint_file checkpoint_path checkpoint_prefix i = Some g →
     files w !! g = None) →
  ∃ units, forM (cleanup_rank checkpoint_prefix checkpoint_path) ranks w = (Ok units, w).
Proof.
  intros Hprefix. induction ranks as [|i ranks IH]; intros Habsent; simpl.
  - by eexists.
  - destruct (checkpoint_file_truthy checkpoint_path checkpoint_prefix i Hprefix)
      as [f Hf].
    destruct IH as [units Hloop].
    { intros j g Hj. apply Habsent. by right. }
    exists (tt :: units).
    rewrite bind_unfold, (cleanup_rank_absent _ _ _ f), bind_unfold, Hloop; try done.
    apply (Habsent i); [left|done].
Qed.

(** X1: with a configured prefix [_cleanup] returns normally; afterwards no
    rank in [0, num_actors) has a checkpoint file, every other file is
    exactly as before, only files that existed were removed, and running it
    again changes nothing. *)
Theorem cleanup_removes_exactly
    (checkpoint_prefix : option string) (checkpoint_path : string)
    (num_actors : Z) (w : World) :
  Py.truthy checkpoint_prefix = true →
  ∃ w', _cleanup checkpoint_prefix checkpoint_path num_actors w = (Ok tt, w') ∧
    (∀ i g, 0 ≤ i < num_actors →
       _checkpoint_file checkpoint_path checkpoint_prefix i = Some g →
       files w' !! g = None) ∧
    (∀ g, (∀ i, 0 ≤ i < num_actors →
             _checkpoint_file checkpoint_path checkpoint_prefix i ≠ Some g) →
       files w' !! g = files w !! g) ∧
    (∃ removed, trace w' = trace w ++ (EvRemove <$> removed) ∧
       Forall (λ g, is_Some (files w !! g)) removed) ∧
    _cleanup checkpoint_prefix checkpoint_path num_actors w' = (Ok tt, w').
Proof.
  intros Hprefix.
  destruct (cleanup_loop_exact checkpoint_prefix checkpoint_path
              (Py.range num_actors) w Hprefix)
    as (units & w' & Hloop & Hgone & Hkept & _ & removed & Ht & Hremoved).
  exists w'. unfold _cleanup. rewrite bind_unfold, Hloop.
  split; [done|]. split; [|split; [|split]].
  - intros i g Hi. apply Hgone. by apply elem_of_range.
  - intros g Hg. apply Hkept. intros i Hi. apply Hg. by apply elem_of_range.
  - exists removed. split; [done|]. eapply Forall_impl; [done|]. by intros g [? _].
  - destruct (cleanup_loop_absent checkpoint_prefix checkpoint_path
                (Py.range num_actors) w' Hprefix Hgone) as [units' Hagain].
    by rewrite bind_unfold, Hagain.
Qed.

Lemma cleanup_removes_exactly_witness :
  ∃ w', _cleanup (Some "ckpt") "/tmp" 2
          {| files := {["/tmp/ckpt_00000.xgb" := 3; "/tmp/other_00000.xgb" := 4]};
             ray_initialized := true; trace := [] |} = (Ok tt, w') ∧
    files w' !! "/tmp/ckpt_00000.xgb" = None ∧
    _cleanup (Some "ckpt") "/tmp" 2 w' = (Ok tt, w').
Proof.
  destruct (cleanup_removes_exactly (Some "ckpt") "/tmp" 2
              {| files := {["/tmp/ckpt_00000.xgb" := 3; "/tmp/other_00000.xgb" := 4]};
                 ray_initialized := true; trace := [] |})
    as (w' & Hrun & Hgone & _ & _ & Hagain); [reflexivity|].
  exists w'. split; [exact Hrun|]. split; [|exact Hagain].
  apply (Hgone 0); [lia|reflexivity].
Defined.

Example cleanup_keeps_other_files :
  (λ r, (r.1, map_to_list (files r.2), trace r.2))
    (_cleanup (Some "ckpt") "/tmp" 2
       {| files := {["/tmp/ckpt_00000.xgb" := 3; "/tmp/other_00000.xgb" := 4]};
          ray_initialized := true; trace := [] |})
  = (Ok tt, [("/tmp/other_00000.xgb", 4)], [EvRemove "/tmp/ckpt_00000.xgb"]).
Proof. vm_compute. reflexivity. Qed.

(** X2: without a prefix ([None] or [""]) [_cleanup] cannot name a file: for
    a positive [num_actors] it raises the [TypeError] of
    [os.path.exists(None)] and touches nothing, which is why [_train] guards
    the call; with no rank to visit it returns at once, whatever the prefix. *)
Theorem cleanup_without_prefix
    (checkpoint_prefix : option string) (checkpoint_path : string)
    (num_actors : Z) (w : World) :
  (Py.truthy checkpoint_prefix = false → 0 < num_actors →
   ∃ msg, _cleanup checkpoint_prefix checkpoint_path num_actors w
          = (Err (TypeError msg), w)) ∧
  (num_actors ≤ 0 →
   _cleanup checkpoint_prefix checkpoint_path num_actors w = (Ok tt, w)).
Proof.
  split.
  - intros Hprefix HN. unfold _cleanup, Py.range.
    destruct (Z.to_nat num_actors) as [|n] eqn:Hn; [lia|]. simpl.
    rewrite !bind_unfold. unfold cleanup_rank at 1.
    assert (_checkpoint_file checkpoint_path checkpoint_prefix (Z.of_nat 0) = None) as ->.
    { unfold _checkpoint_file. destruct checkpoint_prefix as [p|]; [|done].
      by rewrite Hprefix. }
    rewrite bind_unfold. simpl. by eexists.
  - intros HN. unfold _cleanup, Py.range.
    replace (Z.to_nat num_actors) with 0%nat by lia. done.
Qed.

Lemma cleanup_without_prefix_witness :
  (∃ msg, _cleanup None "/tmp" 2 checkpointed_world = (Err (TypeError msg), checkpointed_world)) ∧
  _cleanup (Some "ckpt") "/tmp" 0 checkpointed_world = (Ok tt, checkpointed_world).
Proof.
  split.
  - apply (cleanup_without_prefix None "/tmp" 2 checkpointed_world); [reflexivity|lia].
  - apply (cleanup_without_prefix (Some "ckpt") "/tmp" 0 checkpointed_world). lia.
Defined.

(** ** An attempt without actors *)

Lemma range_nonpositive (n : Z) : n ≤ 0 → Py.range n = [].
Proof. intros Hn. unfold Py.range. by replace (Z.to_nat n) with 0%nat by lia. Qed.

(** X3: with [num_actors <= 0] an attempt creates no actor, starts the
    tracker all the same and then fails on [fut[0]]: [_train] raises
    [IndexError], having spawned nothing and changed no file; [train] passes
    that error on from the first attempt, whatever the budget of restarts. *)
Theorem train_without_actors
    (cl : Cluster) (params : gmap string value) (dtrain : RayDMatrix)
    (args : list value) (evals : list (RayDMatrix * string))
    (num_actors gpus_per_worker : Z) (kwargs : gmap string value)
    (w : World) (gpus : Z) :
  num_actors ≤ 0 →
  RAY_INSTALLED cl = true →
  ray_initialized w = true ∨ ray_init cl = Ok tt →
  (resolve_gpus_per_worker params gpus_per_worker w).1 = Ok gpus →
  (∀ attempt checkpoint_prefix checkpoint_path checkpoint_frequency,
     let r := _train cl attempt params dtrain args evals num_actors gpus_per_worker
                checkpoint_prefix checkpoint_path checkpoint_frequency kwargs w in
     r.1 = Err IndexError ∧ spawns r.2 = spawns w ∧ files r.2 = files w ∧
     EvTracker num_actors ∈ trace r.2) ∧
  (kwargs !! "checkpoint_prefix" = None → kwargs !! "checkpoint_path" = None →
   kwargs !! "checkpoint_frequency" = None →
   ∀ fuel max_actor_restarts,
     train (S fuel) cl params dtrain args evals num_actors gpus_per_worker
       max_actor_restarts kwargs w
     = Some (Err IndexError,
             (_train cl 0 params dtrain args evals num_actors gpus_per_worker
                (Some (".xgb_ray_" +:+ time_time cl)) "/tmp" 5 kwargs w).2)).
Proof.
  intros HN Hray Hinit Hgpus.
  assert (∃ w1, ray_init_if_needed cl w = (Ok tt, w1) ∧ spawns w1 = spawns w ∧
                files w1 = files w) as (w1 & Hw1 & Hs1 & Hf1).
  { unfold ray_init_if_needed.
    destruct (ray_initialized w) eqn:Hup; [by eexists|].
    destruct Hinit as [? | ->]; [done|]. eexists. split; [done|].
    unfold spawns. simpl. by rewrite count_events_app. }
  assert (resolve_gpus_per_worker params gpus_per_worker w1 = (Ok gpus, w1)) as Hg1.
  { revert Hgpus. unfold resolve_gpus_per_worker.
    repeat case_match; simpl; by intros [= ->]. }
  assert (∀ attempt checkpoint_prefix checkpoint_path checkpoint_frequency,
    _train cl attempt params dtrain args evals num_actors gpus_per_worker
      checkpoint_prefix checkpoint_path checkpoint_frequency kwargs w
    = (Err IndexError,
       {| files := files w1; ray_initialized := ray_initialized w1;
          trace := trace w1 ++
            [EvLog "info" "[RayXGBoost] Created 0 remote actors.";
             EvLog "info" "[RayXGBoost] Starting XGBoost training.";
             EvTracker num_actors] |})) as Hr.
  { intros attempt checkpoint_prefix checkpoint_path checkpoint_frequency.
    unfold _train, _train_result, _assert_ray_support.
    rewrite Hray, (range_nonpositive num_actors HN).
    rewrite bind_unfold, bind_ret_l, bind_unfold, Hw1, bind_unfold, Hg1.
    simpl. rewrite <- !app_assoc. reflexivity. }
  split.
  - intros attempt checkpoint_prefix checkpoint_path checkpoint_frequency.
    simpl. rewrite Hr. simpl. split; [done|]. split; [|split; [done|]].
    + unfold spawns in *. simpl. by rewrite count_events_app, Hs1.
    + rewrite elem_of_app, !elem_of_cons. auto.
  - intros H1 H2 H3 fuel max_actor_restarts.
    rewrite train_unfold by done. rewrite loop_unfold, budget_allows_first.
    rewrite call_train_defaults by done. by rewrite Hr.
Qed.

Lemma train_without_actors_witness :
  (_train (demo_cluster 0) 0 ∅ 0%nat [] [] 0 (-1) (Some "ckpt") "/tmp" 5 ∅
     checkpointed_world).1 = Err IndexError ∧
  train 1 (demo_cluster 0) ∅ 0%nat [] [] 0 (-1) 3 ∅ checkpointed_world
  = Some (Err IndexError,
          (_train (demo_cluster 0) 0 ∅ 0%nat [] [] 0 (-1)
             (Some (".xgb_ray_" +:+ time_time (demo_cluster 0))) "/tmp" 5 ∅
             checkpointed_world).2).
Proof.
  destruct (train_without_actors (demo_cluster 0) ∅ 0%nat [] [] 0 (-1) ∅
              checkpointed_world 0) as [Hattempt Htrain];
    [lia|reflexivity|right; reflexivity|reflexivity|].
  split.
  - apply (Hattempt 0 (Some "ckpt") "/tmp" 5).
  - apply Htrain; reflexivity.
Defined.

(** ** The load-on-demand of the actor's [train] *)

Section load_on_demand.

Variable c : Collaborators.

Local Abbreviation loaded w data self :=
  {| files := files w; ray_initialized := ray_initialized w;
     trace := trace w ++ [EvShardLoad data (RayXGBoostActor.rank self)
                            (RayXGBoostActor.num_actors self)] |}.

Lemma load_data_inv (self self' : RayXGBoostActor.t) (data : RayDMatrix) (w w' : World) :
  RayXGBoostActor.load_data c self data w = (Ok self', w') →
  ∃ x y,
    load_shard c data (RayXGBoostActor.rank self) (RayXGBoostActor.num_actors self)
      = Ok (x, y) ∧
    self' = RayXGBoostActor.set_data self data {| dm_data := x; dm_label := y |} ∧
    w' = loaded w data self.
Proof.
  unfold RayXGBoostActor.load_data, ray_get_load_data. rewrite !bind_unfold. simpl.
  destruct (load_shard c data _ _) as [[x y]|f] eqn:Hload; simpl; [|done].
  intros [= <- <-]. by exists x, y.
Qed.

Lemma load_if_missing_inv (self self' : RayXGBoostActor.t) (data : RayDMatrix)
    (matrix : DMatrix) (w w' : World) :
  RayXGBoostActor.load_if_missing c self data w = (Ok (self', matrix), w') →
  (RayXGBoostActor._data self !! data = Some matrix ∧ self' = self ∧ w' = w) ∨
  (RayXGBoostActor._data self !! data = None ∧
   self' = RayXGBoostActor.set_data self data matrix ∧ w' = loaded w data self).
Proof.
  unfold RayXGBoostActor.load_if_missing.
  destruct (RayXGBoostActor._data self !! data) as [m|] eqn:Hcached.
  - intros [= <- <- <-]. by left.
  - rewrite bind_unfold.
    destruct (RayXGBoostActor.load_data c self data w) as [[self1|f] w1] eqn:Hload;
      [|done].
    apply load_data_inv in Hload as (x & y & _ & -> & ->). simpl.
    rewrite lookup_insert_eq. intros [= <- <- <-]. by right.
Qed.

Lemma load_if_missing_uncached (self : RayXGBoostActor.t) (data : RayDMatrix)
    (x : list (list Z)) (y : list Z) (w : World) :
  RayXGBoostActor._data self !! data = None →
  load_shard c data (RayXGBoostActor.rank self) (RayXGBoostActor.num_actors self)
    = Ok (x, y) →
  RayXGBoostActor.load_if_missing c self data w
  = (Ok (RayXGBoostActor.set_data self data {| dm_data := x; dm_label := y |},
         {| dm_data := x; dm_label := y |}),
     loaded w data self).
Proof.
  intros Hnone Hload. unfold RayXGBoostActor.load_if_missing.
  rewrite Hnone, bind_unfold, (load_data_ok c self data w x y Hload). simpl.
  by rewrite lookup_insert_eq.
Qed.

(** The loop over [evals]: when it gets through, the handles of [evals] are
    cached on top of what was cached, what was cached is untouched, no file
    changed, and each handle that was not cached was loaded once, however
    often it occurs. *)
Lemma load_evals_inv (evals : list (RayDMatrix * string))
    (self self' : RayXGBoostActor.t) (local_evals : list (DMatrix * string))
    (w w' : World) :
  RayXGBoostActor.load_evals c self evals w = (Ok (self', local_evals), w') →
  same_actor self self' ∧
  files w' = files w ∧ ray_initialized w' = ray_initialized w ∧
  (∀ d, is_Some (RayXGBoostActor._data self' !! d) ↔
        is_Some (RayXGBoostActor._data self !! d) ∨ d ∈ evals.*1) ∧
  (∀ d, is_Some (RayXGBoostActor._data self !! d) →
        RayXGBoostActor._data self' !! d = RayXGBoostActor._data self !! d) ∧
  ∃ loads, trace w' = trace w ++ loads ∧
    Forall (λ ev, is_any_shard_load ev = true) loads ∧
    ∀ d, count_events (is_shard_load d) loads
         = if decide (d ∈ evals.*1 ∧ RayXGBoostActor._data self !! d = None)
           then 1%nat else 0%nat.
Proof.
  revert self self' local_evals w w'.
  induction evals as [|[deval name] evals IH]; intros self self' local_evals w w'; simpl.
  - intros [= <- _ <-]. split; [done|]. split; [done|]. split; [done|].
    split; [|split; [done|]].
    + intros d. rewrite elem_of_nil. tauto.
    + exists []. rewrite app_nil_r. split; [done|]. split; [done|].
      intros d. done.
  - rewrite bind_unfold.
    destruct (RayXGBoostActor.load_if_missing c self deval w)
      as [[[self1 matrix]|f] w1] eqn:H1; [|done].
    rewrite bind_unfold.
    destruct (RayXGBoostActor.load_evals c self1 evals w1)
      as [[[self2 locals]|f] w2] eqn:H2; [|done].
    intros [= <- _ <-].
    apply IH in H2 as (Hsame & Hfiles & Hinit & Hdom & Hkept & loads & Ht & Hloads & Hcount).
    apply load_if_missing_inv in H1 as [(Hcached & -> & ->)|(Hnone & -> & ->)].
    + split; [done|]. split; [done|]. split; [done|]. split; [|split; [done|]].
      * intros d. rewrite Hdom, elem_of_cons.
        split; [tauto|]. intros [?|[->|?]]; eauto.
      * exists loads. split; [done|]. split; [done|].
        intros d. rewrite Hcount. apply decide_ext. rewrite elem_of_cons.
        split; [tauto|]. intros [[->|?] ?]; [congruence|done].
    + simpl in *. split; [done|]. split; [done|]. split; [done|].
      split; [|split].
      * intros d. rewrite Hdom, elem_of_cons.
        destruct (decide (deval = d)) as [->|Hne].
        -- rewrite lookup_insert_eq. split; [auto|]. intros _. left. by eexists.
        -- rewrite lookup_insert_ne by done. split; [tauto|].
           intros [?|[->|?]]; auto. done.
      * intros d Hd. rewrite Hkept.
        -- apply lookup_insert_ne. intros ->. rewrite Hnone in Hd. by destruct Hd.
        -- destruct (decide (deval = d)) as [->|Hne];
             [rewrite lookup_insert_eq; by eexists|by rewrite lookup_insert_ne].
      * exists (EvShardLoad deval (RayXGBoostActor.rank self)
                                  (RayXGBoostActor.num_actors self) :: loads).
        split; [by rewrite Ht, <- app_assoc|]. split; [by constructor|].
        intros d.
        change (EvShardLoad deval ?r ?n :: loads)
          with ([EvShardLoad deval r n] ++ loads).
        rewrite count_events_app, Hcount.
        destruct (decide (deval = d)) as [->|Hne].
        -- rewrite count_events_load, lookup_insert_eq.
           rewrite (decide_False (P := _ ∧ Some _ = None)) by (by intros [_ ?]).
           rewrite decide_True; [done|]. split; [left|done].
        -- rewrite lookup_insert_ne by done.
           assert (count_events (is_shard_load d)
                     [EvShardLoad deval (RayXGBoostActor.rank self)
                        (RayXGBoostActor.num_actors self)] = 0%nat) as ->.
           { unfold count_events. simpl. by rewrite bool_decide_eq_false_2. }
           simpl. apply decide_ext. rewrite elem_of_cons.
           split; [tauto|]. intros [[->|?] ?]; done.
Qed.

End load_on_demand.

(** ** The save hook over the rounds of the engine *)

(** One round: the caller's hooks, then the save hook. *)
Lemma hooks_round (run : EngineRun) (user : list callback) (frequency : Z)
    (file : string) (j : nat) (w : World) :
  frequency ≠ 0 →
  Forall (λ cb, ∃ name, cb = UserCallback name) user →
  ∃ units,
    forM (λ cb, call_callback cb {| iteration := Z.of_nat j; model := model_at run j |})
         (user ++ [SaveCheckpointCallback frequency (Some file)]) w
    = (Ok units,
       if decide (Z.of_nat j `mod` frequency = 0)
       then {| files := <[file := model_at run j]> (files w);
               ray_initialized := ray_initialized w;
               trace := trace w ++ [EvSave file] |}
       else w).
Proof.
  intros Hne Huser. induction Huser as [|cb cbs [name ->] _ [units IH]]; simpl.
  - rewrite bind_unfold. unfold save_checkpoint_closure.
    rewrite decide_False by done.
    simpl. destruct (decide (Z.of_nat j `mod` frequency = 0)); simpl; by eexists.
  - rewrite bind_unfold. simpl. rewrite bind_unfold, IH. simpl. by eexists.
Qed.

Section hook_over_rounds.

Variables (run : EngineRun) (user : list callback) (frequency : Z) (file : string).

Hypothesis frequency_positive : 0 < frequency.
Hypothesis user_hooks : Forall (λ cb, ∃ name, cb = UserCallback name) user.

Local Abbreviation hooks := (user ++ [SaveCheckpointCallback frequency (Some file)]).

Lemma boost_snoc (callbacks : list callback) (i n : nat) (w : World) :
  boost run callbacks i (S n) w
  = (boost run callbacks i n;;
     forM (λ cb, call_callback cb
                   {| iteration := Z.of_nat (i + n); model := model_at run (i + n) |})
          callbacks;;
     mret tt) w.
Proof.
  revert i w. induction n as [|n IH]; intros i w.
  - simpl. by rewrite Nat.add_0_r, bind_ret_l.
  - change (boost run callbacks i (S (S n)) w)
      with ((forM (λ cb, call_callback cb
                           {| iteration := Z.of_nat i; model := model_at run i |})
                  callbacks;;
             boost run callbacks (S i) (S n)) w).
    rewrite bind_unfold.
    change (boost run callbacks i (S n))
      with (forM (λ cb, call_callback cb
                          {| iteration := Z.of_nat i; model := model_at run i |})
                 callbacks;;
            boost run callbacks (S i) n).
    rewrite !bind_unfold.
    destruct (forM _ callbacks w) as [[units|e] w1]; [|done].
    rewrite IH, !bind_unfold. by replace (S i + n)%nat with (i + S n)%nat by lia.
Qed.

Lemma last_checkpoint_step (n : nat) :
  (0 < n)%nat →
  last_checkpoint frequency (S n)
  = if decide (Z.of_nat n `mod` frequency = 0) then n
    else last_checkpoint frequency n.
Proof.
  intros Hn. unfold last_checkpoint. replace (Z.of_nat (S n) - 1) with (Z.of_nat n) by lia.
  pose proof (Z.div_mod (Z.of_nat n) frequency ltac:(lia)) as Hdm.
  pose proof (Z.mod_pos_bound (Z.of_nat n) frequency ltac:(lia)) as Hbound.
  case_decide as Hmod.
  - rewrite Hmod, Z.add_0_r in Hdm. rewrite <- Hdm. lia.
  - f_equal. f_equal.
    apply (Z.div_unique_pos _ _ _ (Z.of_nat n `mod` frequency - 1)); lia.
Qed.

(** After [n >= 1] rounds from iteration [0] the checkpoint file holds the
    model of the last iteration at which the hook saved; no other file
    changed and nothing but saves was added to the trace. *)
Lemma boost_checkpoint (n : nat) (w : World) :
  ∃ w', boost run hooks 0 n w = (Ok tt, w') ∧
    ray_initialized w' = ray_initialized w ∧
    (∀ g, g ≠ file → files w' !! g = files w !! g) ∧
    files w' !! file
      = (if decide (n = 0%nat) then files w !! file
         else Some (model_at run (last_checkpoint frequency n))) ∧
    ∃ saves, trace w' = trace w ++ saves ∧ Forall (λ ev, ev = EvSave file) saves.
Proof.
  induction n as [|n (w1 & Hrun & Hinit & Hother & Hfile & saves & Ht & Hsaves)].
  - exists w. repeat split; try done. exists []. by rewrite app_nil_r.
  - destruct (hooks_round run user frequency file n w1) as [units Hround];
      [lia|done|].
    rewrite boost_snoc, bind_unfold, Hrun, bind_unfold. simpl. rewrite Hround.
    eexists. split; [done|].
    destruct (decide (n = 0%nat)) as [->|Hn].
    + rewrite Zmod_0_l. simpl. split; [done|]. split; [|split].
      * intros g Hg. rewrite lookup_insert_ne by done. by apply Hother.
      * rewrite lookup_insert_eq. do 2 f_equal.
        unfold last_checkpoint. rewrite Z.div_small by lia. lia.
      * exists (saves ++ [EvSave file]). rewrite Ht, app_assoc. split; [done|].
        apply Forall_app. split; [done|]. by apply Forall_singleton.
    + rewrite last_checkpoint_step by lia.
      destruct (decide (Z.of_nat n `mod` frequency = 0)); simpl.
      * split; [done|]. split; [|split].
        -- intros g Hg. rewrite lookup_insert_ne by done. by apply Hother.
        -- by rewrite lookup_insert_eq.
        -- exists (saves ++ [EvSave file]). rewrite Ht, app_assoc. split; [done|].
           apply Forall_app. split; [done|]. by apply Forall_singleton.
      * split; [done|]. split; [done|]. split; [done|]. by exists saves.
Qed.

End hook_over_rounds.

(** ** The engine under the hooks of an actor *)

(** The engine started with the caller's hooks followed by the save hook of
    period [frequency > 0]: it ends as the run says; the checkpoint file
    holds the model of the last saving iteration (when there was a round at
    all); no other file changed. *)
Lemma xgb_train_checkpoint (run : EngineRun) (kwargs : gmap string value)
    (user : list callback) (frequency : Z) (file : string) (w : World) :
  0 < frequency →
  Forall (λ cb, ∃ name, cb = UserCallback name) user →
  kwargs !! "callbacks"
    = Some (VCallbacks (user ++ [SaveCheckpointCallback frequency (Some file)])) →
  ∃ w', xgb_train run kwargs w = (engine_outcome run, w') ∧
    ray_initialized w' = ray_initialized w ∧
    (∀ g, g ≠ file → files w' !! g = files w !! g) ∧
    files w' !! file
      = (if decide (rounds run = 0%nat) then files w !! file
         else Some (model_at run (last_checkpoint frequency (rounds run)))) ∧
    ∃ saves, trace w' = trace w ++ EvXgbTrain (kwargs !! "xgb_model") :: saves ∧
             Forall (λ ev, ev = EvSave file) saves.
Proof.
  intros Hpos Huser Hcallbacks. unfold xgb_train. rewrite Hcallbacks.
  rewrite bind_ret_l, bind_unfold. simpl. rewrite bind_unfold. unfold py.
  destruct (boost_checkpoint run user frequency file Hpos Huser (rounds run)
              {| files := files w; ray_initialized := ray_initialized w;
                 trace := trace w ++ [EvXgbTrain (kwargs !! "xgb_model")] |})
    as (w' & -> & Hinit & Hother & Hfile & saves & Ht & Hsaves).
  exists w'. simpl in *. split.
  { unfold engine_outcome. by destruct (ending run). }
  split; [done|]. split; [done|]. split; [done|].
  exists saves. by rewrite Ht, <- app_assoc.
Qed.

(** A result of the engine is the result of a run that finished. *)
Lemma xgb_train_ok_inv (run : EngineRun) (kwargs : gmap string value) (w w' : World)
    (res : Booster * EvalsResult) :
  xgb_train run kwargs w = (Ok res, w') → engine_outcome run = Ok res.
Proof.
  unfold xgb_train, engine_outcome. rewrite bind_unfold.
  set (callbacks := match kwargs !! "callbacks" with
                    | Some (VCallbacks cbs) => cbs | _ => [] end).
  assert ((match kwargs !! "callbacks" with
           | Some (VCallbacks cbs) => mret cbs
           | _ => mret []
           end : M fault (list callback)) w = (Ok callbacks, w)) as ->.
  { unfold callbacks. by repeat case_match. }
  rewrite bind_unfold. simpl. rewrite bind_unfold. unfold py.
  destruct (boost run callbacks 0 (rounds run) _) as [[[]|e] w2]; simpl; [|done].
  destruct (ending run); simpl; [|done..]. by intros [= <- _].
Qed.

(** A context whose [__enter__] joins: the body runs after the join, and
    [__exit__] runs after the body unless the process died in it. *)
Lemma with_RabitContext_joined {A} (c : Collaborators) (ctx : RabitContext.t)
    (body : M fault A) (w : World) :
  rabit_join c = Ok tt →
  with_RabitContext c ctx body w
  = match body {| files := files w; ray_initialized := ray_initialized w;
                  trace := trace w ++ [EvRabitInit (RabitContext.args ctx)] |} with
    | (Err ProcessDied, w2) => (Err ProcessDied, w2)
    | (r, w2) => (r, {| files := files w2; ray_initialized := ray_initialized w2;
                        trace := trace w2 ++ [EvRabitFinalize] |})
    end.
Proof.
  intros Hjoin. unfold with_RabitContext, RabitContext.__enter__, rabit_init.
  rewrite bind_unfold. simpl. rewrite Hjoin. simpl.
  by destruct (body _) as [[a|[e|]] w2].
Qed.

(** ** The load phase of the actor's [train], whatever its outcome *)

Section load_phase.

Variable c : Collaborators.

Local Abbreviation loaded w data self :=
  {| files := files w; ray_initialized := ray_initialized w;
     trace := trace w ++ [EvShardLoad data (RayXGBoostActor.rank self)
                            (RayXGBoostActor.num_actors self)] |}.

(** A handle can be had: it is cached or its shard loads. *)
Local Abbreviation loadable self d :=
  (is_Some (RayXGBoostActor._data self !! d) ∨
   ∃ xy, load_shard c d (RayXGBoostActor.rank self) (RayXGBoostActor.num_actors self)
         = Ok xy).

Lemma load_if_missing_world (self : RayXGBoostActor.t) (data : RayDMatrix) (w : World) :
  (RayXGBoostActor.load_if_missing c self data w).2
  = if decide (RayXGBoostActor._data self !! data = None) then loaded w data self else w.
Proof.
  unfold RayXGBoostActor.load_if_missing.
  destruct (RayXGBoostActor._data self !! data) as [m|] eqn:Hcached.
  - by rewrite decide_False.
  - rewrite decide_True by done.
    unfold RayXGBoostActor.load_data, ray_get_load_data. rewrite !bind_unfold. simpl.
    destruct (load_shard c data _ _) as [[x y]|f]; simpl; [|done].
    by rewrite lookup_insert_eq.
Qed.

Lemma load_if_missing_ok (self : RayXGBoostActor.t) (data : RayDMatrix) (w : World) :
  loadable self data →
  ∃ self' matrix w',
    RayXGBoostActor.load_if_missing c self data w = (Ok (self', matrix), w').
Proof.
  intros Hloadable.
  destruct (RayXGBoostActor._data self !! data) as [m|] eqn:Hcached.
  - exists self, m, w. by apply load_if_missing_cached.
  - destruct Hloadable as [[m Hm]|[[x y] Hload]]; [congruence|].
    eexists _, _, _. by apply load_if_missing_uncached.
Qed.

Lemma load_evals_ok (evals : list (RayDMatrix * string)) (self : RayXGBoostActor.t)
    (w : World) :
  (∀ d, d ∈ evals.*1 → loadable self d) →
  ∃ self' local_evals w',
    RayXGBoostActor.load_evals c self evals w = (Ok (self', local_evals), w').
Proof.
  revert self w. induction evals as [|[deval name] evals IH]; intros self w Hloadable.
  - by eexists _, _, _.
  - destruct (load_if_missing_ok self deval w) as (self1 & matrix & w1 & H1).
    { apply Hloadable. left. }
    destruct (IH self1 w1) as (self2 & locals & w2 & H2).
    { intros d Hd. destruct (Hloadable d) as [Hcached|Hload]; [by right| |].
      - left. apply load_if_missing_inv in H1 as [(_ & -> & _)|(_ & -> & _)]; [done|].
        simpl. rewrite lookup_insert_is_Some. destruct (decide (deval = d)); auto.
      - right.
        apply load_if_missing_inv in H1 as [(_ & -> & _)|(_ & -> & _)]; done. }
    simpl. rewrite bind_unfold, H1, bind_unfold, H2. by eexists _, _, _.
Qed.

(** Whatever its outcome, the loop over [evals] changes no file and adds
    nothing but loads, none of a cached handle and at most one of any
    handle. *)
Lemma load_evals_world (evals : list (RayDMatrix * string)) (self : RayXGBoostActor.t)
    (w : World) :
  let r := RayXGBoostActor.load_evals c self evals w in
  files r.2 = files w ∧ ray_initialized r.2 = ray_initialized w ∧
  ∃ loads, trace r.2 = trace w ++ loads ∧
    Forall (λ ev, is_any_shard_load ev = true) loads ∧
    ∀ d, (count_events (is_shard_load d) loads
          ≤ if decide (d ∈ evals.*1 ∧ RayXGBoostActor._data self !! d = None)
            then 1 else 0)%nat.
Proof.
  simpl. revert self w. induction evals as [|[deval name] evals IH]; intros self w.
  - simpl. split; [done|]. split; [done|]. exists []. rewrite app_nil_r.
    split; [done|]. split; [done|]. intros d. unfold count_events. simpl. lia.
  - simpl. rewrite bind_unfold.
    pose proof (load_if_missing_world self deval w) as Hw1.
    destruct (RayXGBoostActor.load_if_missing c self deval w)
      as [[[self1 matrix]|f] w1] eqn:H1; simpl in Hw1.
    + rewrite bind_unfold.
      destruct (IH self1 w1) as (Hfiles & Hinit & loads & Ht & Hloads & Hcount).
      destruct (RayXGBoostActor.load_evals c self1 evals w1)
        as [[[self2 locals]|f] w2] eqn:H2; simpl in *.
      all: apply load_if_missing_inv in H1 as [(Hcached & -> & ->)|(Hnone & -> & ->)].
      all: simpl in *; split; [done|]; split; [done|].
      1,3: exists loads; split; [done|]; split; [done|]; intros d;
        etrans; [apply Hcount|]; repeat case_decide; try lia;
        exfalso; rewrite ?fmap_cons, ?elem_of_cons in *; simpl in *; tauto.
      all: exists (EvShardLoad deval (RayXGBoostActor.rank self)
                     (RayXGBoostActor.num_actors self) :: loads);
        (split; [by rewrite Ht, <- app_assoc|]); (split; [by constructor|]);
        intros d;
        change (EvShardLoad deval ?r ?n :: loads) with ([EvShardLoad deval r n] ++ loads);
        rewrite count_events_app; specialize (Hcount d);
        (destruct (decide (deval = d)) as [->|Hne];
         [rewrite count_events_load, lookup_insert_eq in *;
          rewrite (decide_False (P := _ ∧ Some _ = None)) in Hcount by (by intros [_ ?]);
          rewrite decide_True by (split; [left|done]); lia
         |rewrite lookup_insert_ne in Hcount by done;
          assert (count_events (is_shard_load d)
                    [EvShardLoad deval (RayXGBoostActor.rank self)
                       (RayXGBoostActor.num_actors self)] = 0%nat) as ->
            by (unfold count_events; simpl; by rewrite bool_decide_eq_false_2);
          simpl; etrans; [apply Hcount|]; repeat case_decide; try lia;
          exfalso; rewrite ?fmap_cons, ?elem_of_cons in *; simpl in *; tauto]).
    + case_decide as Hnone; subst w1; simpl.
      * split; [done|]. split; [done|]. eexists [_]. split; [done|].
        split; [by constructor|]. intros d.
        destruct (decide (deval = d)) as [->|Hne].
        -- rewrite count_events_load, decide_True; [done|]. split; [left|done].
        -- unfold count_events. simpl. rewrite bool_decide_eq_false_2 by done.
           simpl. lia.
      * exfalso. unfold RayXGBoostActor.load_if_missing in H1.
        destruct (RayXGBoostActor._data self !! deval); [done|by apply Hnone].
Qed.

End load_phase.

(** ** The actor's [train], phase by phase *)

Section actor_train.

Variables (c : Collaborators) (rabit_args : list string) (params : gmap string value)
  (dtrain : RayDMatrix) (evals : list (RayDMatrix * string)) (args : list value)
  (kwargs : gmap string value).

(** The hooks the caller passed. *)
Local Abbreviation user_callbacks :=
  (match kwargs !! "callbacks" with Some (VCallbacks cbs) => cbs | _ => [] end).

(** The call of the engine under the context, as [train] makes it. *)
Local Abbreviation engine_call self kwargs1 :=
  (with_RabitContext c
     (RabitContext.__init__ (Py.str_int (RayXGBoostActor.object_id self)) rabit_args)
     (xgb_train (engine c)
        (<["callbacks" := VCallbacks
             (user_callbacks ++ [RayXGBoostActor._save_checkpoint_callback self])]> kwargs1)
      ≫= λ '(bst, evals_result), mret (self, (bst, evals_result)))).

(** [train] loads what is missing and then either raises before the
    rendezvous or calls the engine, resuming from the checkpoint file of the
    actor if there is one. *)
Lemma train_cases (self : RayXGBoostActor.t) (w : World) :
  let r := RayXGBoostActor.train c self rabit_args params dtrain evals args kwargs w in
  ∃ loads w1,
    w1 = (RayXGBoostActor.load_evals c self ((dtrain, ""%string) :: evals) w).2 ∧
    files w1 = files w ∧ ray_initialized w1 = ray_initialized w ∧
    trace w1 = trace w ++ loads ∧
    Forall (λ ev, is_any_shard_load ev = true) loads ∧
    (∀ d, (count_events (is_shard_load d) loads
           ≤ if decide (d ∈ dtrain :: evals.*1 ∧ RayXGBoostActor._data self !! d = None)
             then 1 else 0)%nat) ∧
    ((∃ f, r = (Err f, w1) ∧
        ((RayXGBoostActor.load_evals c self ((dtrain, ""%string) :: evals) w).1 = Err f ∨
         (RayXGBoostActor.checkpoint_file self = None ∧
          ∃ msg, f = Raised (TypeError msg)) ∨
         (∃ v msg, kwargs !! "callbacks" = Some v ∧ (∀ cbs, v ≠ VCallbacks cbs) ∧
                   f = Raised (AttributeError msg)))) ∨
     (∃ self2 f,
        same_actor self self2 ∧
        (∀ d, is_Some (RayXGBoostActor._data self2 !! d) ↔
              is_Some (RayXGBoostActor._data self !! d) ∨ d ∈ dtrain :: evals.*1) ∧
        (∀ d, count_events (is_shard_load d) loads
              = if decide (d ∈ dtrain :: evals.*1 ∧ RayXGBoostActor._data self !! d = None)
                then 1%nat else 0%nat) ∧
        RayXGBoostActor.checkpoint_file self = Some f ∧
        r = engine_call self2
              (if decide (is_Some (files w !! f))
               then <["xgb_model" := VStr f]> kwargs else kwargs) w1)).
Proof.
  pose proof (load_evals_world c ((dtrain, ""%string) :: evals) self w) as Hworld.
  pose proof (load_evals_inv c ((dtrain, ""%string) :: evals) self) as Hinv.
  simpl in Hworld, Hinv. unfold RayXGBoostActor.train. cbv zeta.
  rewrite bind_unfold in Hworld. rewrite bind_unfold.
  destruct (RayXGBoostActor.load_if_missing c self dtrain w)
    as [[[self1 local_dtrain]|f] w1] eqn:H1.
  2:{ destruct Hworld as (Hfiles & Hinit & loads & Ht & Hloads & Hcount).
      exists loads, w1. split; [simpl; by rewrite bind_unfold, H1|].
      repeat (split; [done|]). left. exists f. split; [done|].
      left. simpl. by rewrite bind_unfold, H1. }
  rewrite bind_unfold in Hworld. rewrite bind_unfold.
  destruct (RayXGBoostActor.load_evals c self1 evals w1)
    as [[[self2 locals]|f] w2] eqn:H2.
  2:{ destruct Hworld as (Hfiles & Hinit & loads & Ht & Hloads & Hcount).
      exists loads, w2. split; [simpl; by rewrite bind_unfold, H1, bind_unfold, H2|].
      repeat (split; [done|]). left. exists f. split; [done|].
      left. simpl. by rewrite bind_unfold, H1, bind_unfold, H2. }
  destruct Hworld as (Hfiles & Hinit & loads & Ht & Hloads & _).
  destruct (Hinv self2 ((local_dtrain, ""%string) :: locals) w w2)
    as (Hsame & _ & _ & Hdom & _ & loads' & Ht' & _ & Hcount).
  { by rewrite bind_unfold, H1, bind_unfold, H2. }
  simpl in Ht. rewrite Ht in Ht'. apply app_inv_head in Ht' as <-.
  exists loads, w2. split; [simpl; by rewrite bind_unfold, H1, bind_unfold, H2|].
  split; [done|]. split; [done|]. split; [done|]. split; [done|].
  split. { intros d. by rewrite Hcount. }
  assert (RayXGBoostActor.checkpoint_file self2 = RayXGBoostActor.checkpoint_file self)
    as Hck.
  { unfold RayXGBoostActor.checkpoint_file.
    by destruct Hsame as (_ & -> & _ & -> & -> & _). }
  rewrite Hck. simpl in Hfiles.
  destruct (RayXGBoostActor.checkpoint_file self) as [f|] eqn:Hf.
  2:{ left. rewrite bind_unfold. simpl. eexists. split; [done|].
      right. left. split; [done|]. by eexists. }
  rewrite bind_unfold. unfold py at 1. simpl. rewrite Hfiles.
  destruct (decide (is_Some (files w !! f))) as [Hsome|Hnone];
    [rewrite bool_decide_eq_true_2 by done; rewrite bind_ret_l;
     rewrite bind_unfold, lookup_insert_ne by done
    |rewrite bool_decide_eq_false_2 by done; rewrite bind_ret_l, bind_unfold].
  all: destruct (kwargs !! "callbacks") as [[| | |user|]|] eqn:Hcb; simpl.
  all: try (left; eexists; split; [done|]; right; right; by eexists _, _).
  all: right; exists self2, f; repeat (split; [done|]); by case_decide.
Qed.

(** The engine call of [train], whatever its outcome: after the loads no
    shard is loaded any more; the engine is started with the [xgb_model] of
    the keywords it is passed; and a result comes from a joined rendezvous
    and a run that finished. *)
Lemma engine_call_trace (self : RayXGBoostActor.t) (kwargs1 : gmap string value)
    (w : World) :
  let r := engine_call self kwargs1 w in
  ∃ tail, trace r.2 = trace w ++ tail ∧
    Forall (λ ev, is_any_shard_load ev = false) tail ∧
    (∀ m, EvXgbTrain m ∈ tail → m = kwargs1 !! "xgb_model") ∧
    (∀ res, r.1 = Ok res →
       EvXgbTrain (kwargs1 !! "xgb_model") ∈ tail ∧ rabit_join c = Ok tt ∧
       res.1 = self ∧ engine_outcome (engine c) = Ok res.2).
Proof.
  simpl. unfold with_RabitContext, RabitContext.__enter__, rabit_init.
  rewrite bind_unfold. simpl.
  destruct (rabit_join c) as [[]|f] eqn:Hjoin; simpl.
  2:{ eexists [_]. split; [done|]. split; [by constructor|]. split; [|done].
      intros m [=]%list_elem_of_singleton. }
  set (kwargs2 := <["callbacks" := _]> kwargs1).
  assert (kwargs2 !! "xgb_model" = kwargs1 !! "xgb_model") as Hmodel
    by (by apply lookup_insert_ne).
  set (w1 := {| files := files w; ray_initialized := ray_initialized w;
                trace := trace w ++ [_] |}).
  destruct (xgb_train_trace (engine c) kwargs2 w1) as (saves & Hsaves & Htrace & _).
  rewrite Hmodel in Htrace. rewrite bind_unfold.
  assert (Forall (λ ev, is_any_shard_load ev = false) saves) as Hquiet.
  { eapply Forall_impl; [done|]. by intros []. }
  assert (∀ m evs, Forall (λ ev, is_save ev = true) evs → EvXgbTrain m ∉ evs) as Hnot.
  { intros m evs Hevs Hin. rewrite Forall_forall in Hevs. by apply Hevs in Hin. }
  destruct (xgb_train (engine c) kwargs2 w1) as [[[bst evals_result]|[e|]] w2] eqn:Hrun;
    simpl in *.
  - exists (EvRabitInit (RabitContext.args (RabitContext.__init__
              (Py.str_int (RayXGBoostActor.object_id self)) rabit_args))
            :: EvXgbTrain (kwargs1 !! "xgb_model") :: saves ++ [EvRabitFinalize]).
    split; [by rewrite Htrace, <- !app_assoc|]. split.
    { do 2 (constructor; [done|]). apply Forall_app. split; [done|by constructor]. }
    split.
    + intros m. rewrite !elem_of_cons, elem_of_app, list_elem_of_singleton.
      intros [?|[[= ->]|[?%Hnot|?]]]; done.
    + intros res [= <-]. split; [right; left|]. split; [done|]. split; [done|].
      simpl. by eapply xgb_train_ok_inv.
  - exists (EvRabitInit (RabitContext.args (RabitContext.__init__
              (Py.str_int (RayXGBoostActor.object_id self)) rabit_args))
            :: EvXgbTrain (kwargs1 !! "xgb_model") :: saves ++ [EvRabitFinalize]).
    split; [by rewrite Htrace, <- !app_assoc|]. split.
    { do 2 (constructor; [done|]). apply Forall_app. split; [done|by constructor]. }
    split; [|done].
    intros m. rewrite !elem_of_cons, elem_of_app, list_elem_of_singleton.
    intros [?|[[= ->]|[?%Hnot|?]]]; done.
  - exists (EvRabitInit (RabitContext.args (RabitContext.__init__
              (Py.str_int (RayXGBoostActor.object_id self)) rabit_args))
            :: EvXgbTrain (kwargs1 !! "xgb_model") :: saves).
    split; [by rewrite Htrace, <- !app_assoc|]. split.
    { by do 2 (constructor; [done|]). }
    split; [|done].
    intros m. rewrite !elem_of_cons. intros [?|[[= ->]|?%Hnot]]; done.
Qed.

(** [train] as a whole, whatever its outcome. *)
Lemma train_spec (self : RayXGBoostActor.t) (w : World) :
  let r := RayXGBoostActor.train c self rabit_args params dtrain evals args kwargs w in
  ∃ loads tail,
    trace r.2 = trace w ++ loads ++ tail ∧
    Forall (λ ev, is_any_shard_load ev = true) loads ∧
    Forall (λ ev, is_any_shard_load ev = false) tail ∧
    (∀ d, (count_events (is_shard_load d) loads
           ≤ if decide (d ∈ dtrain :: evals.*1 ∧ RayXGBoostActor._data self !! d = None)
             then 1 else 0)%nat) ∧
    (∀ m, EvXgbTrain m ∈ tail →
       ∃ f, RayXGBoostActor.checkpoint_file self = Some f ∧
            m = if decide (is_Some (files w !! f)) then Some (VStr f)
                else kwargs !! "xgb_model") ∧
    (∀ self' res, r.1 = Ok (self', res) →
       same_actor self self' ∧
       (∀ d, is_Some (RayXGBoostActor._data self' !! d) ↔
             is_Some (RayXGBoostActor._data self !! d) ∨ d ∈ dtrain :: evals.*1) ∧
       (∀ d, count_events (is_shard_load d) loads
             = if decide (d ∈ dtrain :: evals.*1 ∧ RayXGBoostActor._data self !! d = None)
               then 1%nat else 0%nat) ∧
       (∃ f, RayXGBoostActor.checkpoint_file self = Some f ∧
             EvXgbTrain (if decide (is_Some (files w !! f)) then Some (VStr f)
                         else kwargs !! "xgb_model") ∈ tail) ∧
       rabit_join c = Ok tt ∧ engine_outcome (engine c) = Ok res).
Proof.
  destruct (train_cases self w)
    as (loads & w1 & _ & Hfiles & Hinit & Ht & Hloads & Hbound & Hcases).
  simpl in *. exists loads.
  destruct Hcases as [(f & -> & _)|(self2 & f & Hsame & Hdom & Hcount & Hf & ->)].
  - exists []. simpl. rewrite app_nil_r. repeat (split; [done|]).
    split; [|done]. by intros m ?%elem_of_nil.
  - set (kwargs1 := if decide (is_Some (files w !! f))
                    then <["xgb_model" := VStr f]> kwargs else kwargs).
    assert (kwargs1 !! "xgb_model"
            = if decide (is_Some (files w !! f)) then Some (VStr f)
              else kwargs !! "xgb_model") as Hmodel.
    { unfold kwargs1. case_decide; [by rewrite lookup_insert_eq|done]. }
    destruct (engine_call_trace self2 kwargs1 w1) as (tail & Ht2 & Htail & Hxgb & Hok).
    simpl in *. exists tail. split; [by rewrite Ht2, Ht, app_assoc|].
    repeat (split; [done|]). split.
    + intros m Hm. exists f. split; [done|]. rewrite <- Hmodel. by apply Hxgb.
    + intros self' res Hres. destruct (Hok _ Hres) as (Hin & Hjoin & <- & Hout).
      repeat (split; [done|]). split; [|done].
      exists f. split; [done|]. by rewrite <- Hmodel.
Qed.

End actor_train.

Lemma count_events_not_loads (d : RayDMatrix) (evs : list Event) :
  Forall (λ ev, is_any_shard_load ev = false) evs →
  count_events (is_shard_load d) evs = 0%nat.
Proof.
  intros Hevs. apply count_events_none. eapply Forall_impl; [done|]. by intros [].
Qed.

(** X4: the actor's [train] loads on demand.  Whatever its outcome, it loads
    a handle at most once, never a handle that is cached and never one that
    is neither [dtrain] nor in [evals]; when it returns, every handle of
    [dtrain] and [evals] that was not cached has been loaded exactly once,
    however often it occurs, and the cache holds what it held and these
    handles. *)
Theorem train_loads_only_missing
    (c : Collaborators) (self : RayXGBoostActor.t) (rabit_args : list string)
    (params : gmap string value) (dtrain : RayDMatrix)
    (evals : list (RayDMatrix * string)) (args : list value)
    (kwargs : gmap string value) (w : World) (d : RayDMatrix) :
  let r := RayXGBoostActor.train c self rabit_args params dtrain evals args kwargs w in
  (shard_loads d w ≤ shard_loads d r.2 ≤ S (shard_loads d w))%nat ∧
  (is_Some (RayXGBoostActor._data self !! d) ∨ d ∉ dtrain :: evals.*1 →
   shard_loads d r.2 = shard_loads d w) ∧
  (∀ self' res, r.1 = Ok (self', res) →
     (d ∈ dtrain :: evals.*1 → RayXGBoostActor._data self !! d = None →
      shard_loads d r.2 = S (shard_loads d w)) ∧
     (is_Some (RayXGBoostActor._data self' !! d) ↔
      is_Some (RayXGBoostActor._data self !! d) ∨ d ∈ dtrain :: evals.*1)).
Proof.
  destruct (train_spec c rabit_args params dtrain evals args kwargs self w)
    as (loads & tail & Ht & Hloads & Htail & Hbound & _ & Hok).
  simpl in *. unfold shard_loads. rewrite Ht, !count_events_app.
  rewrite (count_events_not_loads d tail Htail). specialize (Hbound d).
  split; [|split].
  - case_decide; lia.
  - intros Hd. rewrite decide_False in Hbound; [lia|].
    intros [Hin Hnone]. destruct Hd as [[m Hm]|Hd]; [congruence|done].
  - intros self' res Hres.
    destruct (Hok self' res Hres) as (_ & Hdom & Hcount & _). split; [|done].
    intros Hin Hnone. rewrite Hcount, decide_True by done. lia.
Qed.

Lemma train_loads_only_missing_witness :
  shard_loads 1%nat
    (RayXGBoostActor.train (demo_process (Finishes ∅)) demo_actor
       ["DMLC_NUM_WORKER=4"] ∅ 0%nat [(1%nat, "eval"); (1%nat, "again")] [] ∅
       empty_world).2
  = S (shard_loads 1%nat empty_world) ∧
  shard_loads 2%nat
    (RayXGBoostActor.train (demo_process (Finishes ∅)) demo_actor
       ["DMLC_NUM_WORKER=4"] ∅ 0%nat [(1%nat, "eval"); (1%nat, "again")] [] ∅
       empty_world).2
  = shard_loads 2%nat empty_world.
Proof.
  pose proof (train_loads_only_missing (demo_process (Finishes ∅)) demo_actor
                ["DMLC_NUM_WORKER=4"] ∅ 0%nat [(1%nat, "eval"); (1%nat, "again")] [] ∅
                empty_world) as H.
  split.
  - destruct (H 1%nat) as (_ & _ & Hok).
    eapply Hok; [vm_compute; reflexivity|right; left|reflexivity].
  - destruct (H 2%nat) as (_ & Hnone & _). apply Hnone. right.
    rewrite !fmap_cons, fmap_nil, !elem_of_cons, elem_of_nil. simpl.
    intros [?|[?|[?|?]]]; done.
Defined.

(** X5: the actor's [train] resumes from its own checkpoint.  Whenever it
    starts the engine, the [xgb_model] the engine gets is the checkpoint
    file of the actor if that file existed when [train] was called, whatever
    [xgb_model] the caller passed, and the caller's [xgb_model] (or none)
    otherwise; an actor without a checkpoint file never starts the engine,
    and a [train] that returns has started it. *)
Theorem train_resumes_from_checkpoint
    (c : Collaborators) (self : RayXGBoostActor.t) (rabit_args : list string)
    (params : gmap string value) (dtrain : RayDMatrix)
    (evals : list (RayDMatrix * string)) (args : list value)
    (kwargs : gmap string value) (w : World) :
  let r := RayXGBoostActor.train c self rabit_args params dtrain evals args kwargs w in
  ∃ evs, trace r.2 = trace w ++ evs ∧
    (∀ m, EvXgbTrain m ∈ evs →
       ∃ f, RayXGBoostActor.checkpoint_file self = Some f ∧
            m = if decide (is_Some (files w !! f)) then Some (VStr f)
                else kwargs !! "xgb_model") ∧
    (∀ res, r.1 = Ok res → ∃ m, EvXgbTrain m ∈ evs).
Proof.
  destruct (train_spec c rabit_args params dtrain evals args kwargs self w)
    as (loads & tail & Ht & Hloads & Htail & _ & Hxgb & Hok).
  simpl in *. exists (loads ++ tail). split; [done|]. split.
  - intros m [Hm|Hm]%elem_of_app; [|by apply Hxgb].
    rewrite Forall_forall in Hloads. by apply Hloads in Hm.
  - intros [self' res] Hres.
    destruct (Hok self' res Hres) as (_ & _ & _ & (f & _ & Hin) & _).
    eexists. apply elem_of_app. by right.
Qed.

Lemma train_resumes_from_checkpoint_witness :
  ∃ evs,
    trace (RayXGBoostActor.train (demo_process (Finishes ∅))
             (RayXGBoostActor.__init__ 140000 0 4 (Some "ckpt") "/tmp" 5)
             ["DMLC_NUM_WORKER=4"] ∅ 0%nat [] [] {["xgb_model" := VStr "mine.xgb"]}
             checkpointed_world).2
    = trace checkpointed_world ++ evs ∧
    EvXgbTrain (Some (VStr "/tmp/ckpt_00000.xgb")) ∈ evs ∧
    EvXgbTrain (Some (VStr "mine.xgb")) ∉ evs.
Proof.
  destruct (train_resumes_from_checkpoint (demo_process (Finishes ∅))
              (RayXGBoostActor.__init__ 140000 0 4 (Some "ckpt") "/tmp" 5)
              ["DMLC_NUM_WORKER=4"] ∅ 0%nat [] [] {["xgb_model" := VStr "mine.xgb"]}
              checkpointed_world) as (evs & Ht & Hxgb & Hok).
  exists evs. split; [exact Ht|].
  assert (∀ m, EvXgbTrain m ∈ evs → m = Some (VStr "/tmp/ckpt_00000.xgb")) as Honly.
  { intros m Hm. destruct (Hxgb m Hm) as (f & Hf & ->).
    injection Hf as <-. reflexivity. }
  split.
  - destruct (Hok _ ltac:(vm_compute; reflexivity)) as [m Hm].
    by rewrite <- (Honly m Hm).
  - intros Hm. by apply Honly in Hm.
Defined.

(** X6: what a run of the actor's [train] leaves on disk.  For an actor with
    a checkpoint file and a positive frequency, whose shards load, which
    joins the rendezvous and whose caller passed no hooks or hooks of its
    own, [train] ends as the engine does (it returns the model after the
    last round, or raises the engine's error, or dies with it); in each case
    the checkpoint file then holds the model of the last iteration that is a
    multiple of the frequency, iteration [0] included, and every other file
    is as it was. *)
Theorem train_leaves_last_checkpoint
    (c : Collaborators) (self : RayXGBoostActor.t) (rabit_args : list string)
    (params : gmap string value) (dtrain : RayDMatrix)
    (evals : list (RayDMatrix * string)) (args : list value)
    (kwargs : gmap string value) (w : World) (f : string) :
  RayXGBoostActor.checkpoint_file self = Some f →
  0 < RayXGBoostActor.checkpoint_frequency self →
  (∀ v, kwargs !! "callbacks" = Some v →
     ∃ user, v = VCallbacks user ∧ Forall (λ cb, ∃ name, cb = UserCallback name) user) →
  (∀ d, d ∈ dtrain :: evals.*1 →
     is_Some (RayXGBoostActor._data self !! d) ∨
     ∃ xy, load_shard c d (RayXGBoostActor.rank self) (RayXGBoostActor.num_actors self)
           = Ok xy) →
  rabit_join c = Ok tt →
  let r := RayXGBoostActor.train c self rabit_args params dtrain evals args kwargs w in
  let n := rounds (engine c) in
  match engine_outcome (engine c) with
  | Ok res => ∃ self', r.1 = Ok (self', res)
  | Err e => r.1 = Err e
  end ∧
  (∀ g, g ≠ f → files r.2 !! g = files w !! g) ∧
  files r.2 !! f
  = if decide (n = 0%nat) then files w !! f
    else Some (model_at (engine c)
                 (last_checkpoint (RayXGBoostActor.checkpoint_frequency self) n)).
Proof.
  intros Hf Hfreq Hcb Hloadable Hjoin.
  destruct (train_cases c rabit_args params dtrain evals args kwargs self w)
    as (loads & w1 & _ & Hfiles & Hinit & Ht & Hloads & Hbound & Hcases).
  destruct Hcases as [(e & Hr & Hwhy)|(self2 & f' & Hsame & Hdom & Hcount & Hf' & Hr)].
  { exfalso. destruct Hwhy as [Hload|[[Hnone _]|(v & msg & Hv & Hbad & _)]].
    - destruct (load_evals_ok c ((dtrain, ""%string) :: evals) self w)
        as (self' & locals & w' & Hok); [done|].
      by rewrite Hok in Hload.
    - congruence.
    - destruct (Hcb v Hv) as (user & -> & _). by eapply Hbad. }
  assert (f' = f) as -> by congruence. simpl. rewrite Hr.
  rewrite with_RabitContext_joined by done. rewrite bind_unfold.
  set (user := match kwargs !! "callbacks" with
               | Some (VCallbacks cbs) => cbs | _ => [] end).
  assert (Forall (λ cb, ∃ name, cb = UserCallback name) user) as Huser.
  { unfold user. destruct (kwargs !! "callbacks") as [v|] eqn:Hv; [|done].
    by destruct (Hcb v eq_refl) as (cbs & -> & ?). }
  assert (RayXGBoostActor._save_checkpoint_callback self2
          = SaveCheckpointCallback (RayXGBoostActor.checkpoint_frequency self) (Some f))
    as ->.
  { unfold RayXGBoostActor._save_checkpoint_callback. rewrite <- Hf.
    unfold RayXGBoostActor.checkpoint_file.
    by destruct Hsame as (_ & -> & _ & -> & -> & ->). }
  match goal with
  | |- context [xgb_train ?run ?kw ?w0] =>
      destruct (xgb_train_checkpoint run kw user
                  (RayXGBoostActor.checkpoint_frequency self) f w0 Hfreq Huser)
        as (w2 & -> & _ & Hother & Hfile & _); [by rewrite lookup_insert_eq|]
  end.
  simpl in Hother, Hfile. rewrite Hfiles in Hother, Hfile.
  destruct (engine_outcome (engine c)) as [[bst evals_result]|[e|]]; simpl.
  - split; [by eexists|]. done.
  - done.
  - done.
Qed.

Lemma train_leaves_last_checkpoint_witness :
  (RayXGBoostActor.train (demo_process (Fails (XGBoostError "stopped")))
     demo_actor ["DMLC_NUM_WORKER=4"] ∅ 0%nat [] [] ∅ checkpointed_world).1
  = Err (Raised (XGBoostError "stopped")) ∧
  files (RayXGBoostActor.train (demo_process (Fails (XGBoostError "stopped")))
           demo_actor ["DMLC_NUM_WORKER=4"] ∅ 0%nat [] [] ∅ checkpointed_world).2
    !! "/tmp/ckpt_00000.xgb" = Some 3 ∧
  files (RayXGBoostActor.train (demo_process (Fails (XGBoostError "stopped")))
           demo_actor ["DMLC_NUM_WORKER=4"] ∅ 0%nat [] [] ∅ checkpointed_world).2
    !! "/tmp/ckpt_00001.xgb" = Some 5.
Proof.
  destruct (train_leaves_last_checkpoint (demo_process (Fails (XGBoostError "stopped")))
              demo_actor ["DMLC_NUM_WORKER=4"] ∅ 0%nat [] [] ∅ checkpointed_world
              "/tmp/ckpt_00001.xgb") as (Hend & Hother & Hfile).
  - reflexivity.
  - reflexivity.
  - intros v Hv. rewrite lookup_empty in Hv. discriminate Hv.
  - intros d Hd. right. eexists. reflexivity.
  - reflexivity.
  - split; [exact Hend|]. split.
    + rewrite Hother by discriminate. reflexivity.
    + exact Hfile.
Defined.

(** ** The coordinator's view of its actors *)

(** [ray.get] of a list returns only when every call returned, with the
    values in the order of the calls, and leaves the world alone. *)
Lemma ray_get_ok {A} (refs : list (ObjectRef A)) (vals : list A) (w w' : World) :
  ray_get refs w = (Ok vals, w') → refs = Ok <$> vals ∧ w' = w.
Proof.
  unfold ray_get. revert vals w'.
  induction refs as [|ref refs IH]; intros vals w'; simpl.
  - by intros [= <- <-].
  - rewrite bind_unfold. destruct ref as [a|[e|]]; simpl; [|done..].
    rewrite bind_unfold.
    destruct (forM ray_get1 refs w) as [[vals'|e] w1] eqn:Hrest; [|done].
    intros [= <- <-]. destruct (IH vals' w1 eq_refl) as [-> ->]. done.
Qed.

Section coordinator_loads.

Variables (cl : Cluster) (attempt : Z).

Local Abbreviation loaded w data self :=
  {| files := files w; ray_initialized := ray_initialized w;
     trace := trace w ++ [EvShardLoad data (RayXGBoostActor.rank self)
                            (RayXGBoostActor.num_actors self)] |}.

(** A remote [load_data] that returned has cached the shard in the actor
    behind the handle. *)
Lemma load_data_remote_ok (data : RayDMatrix) (self : RayXGBoostActor.t)
    (actor' : ActorHandle) (u : unit) (w w' : World) :
  load_data_remote cl attempt data (Some self) w = (Ok (actor', Ok u), w') →
  ∃ matrix, actor' = Some (RayXGBoostActor.set_data self data matrix) ∧
            w' = loaded w data self.
Proof.
  unfold load_data_remote, remote. rewrite bind_unfold.
  destruct (RayXGBoostActor.load_data (process_of cl attempt self) self data w)
    as [[self1|[e|]] w1] eqn:Hload; simpl; [|done..].
  intros [= <- _ <-].
  apply load_data_inv in Hload as (x & y & _ & -> & ->). by eexists.
Qed.

(** The remote loads of [_trigger_data_load] for [evals]: when all of them
    returned, the actor is alive, it loaded every handle once per
    occurrence, cached or not, and its cache holds them. *)
Lemma trigger_data_load_evals_ok (evals : list (RayDMatrix * string))
    (self : RayXGBoostActor.t) (actor' : ActorHandle) (refs : list (ObjectRef unit))
    (w w' : World) :
  _trigger_data_load_evals cl attempt (Some self) evals w = (Ok (actor', refs), w') →
  Forall (λ ref, ok_ref ref) refs →
  ∃ self', actor' = Some self' ∧ same_actor self self' ∧
    (∀ d, is_Some (RayXGBoostActor._data self' !! d) ↔
          is_Some (RayXGBoostActor._data self !! d) ∨ d ∈ evals.*1) ∧
    files w' = files w ∧ ray_initialized w' = ray_initialized w ∧
    trace w' = trace w ++ ((λ d, EvShardLoad d (RayXGBoostActor.rank self)
                                   (RayXGBoostActor.num_actors self)) <$> evals.*1).
Proof.
  revert self actor' refs w w'.
  induction evals as [|[deval name] evals IH]; intros self actor' refs w w'; simpl.
  - intros [= <- <- <-] _. exists self. repeat (split; [done|]). split.
    + intros d. rewrite elem_of_nil. tauto.
    + by rewrite app_nil_r.
  - rewrite bind_unfold.
    destruct (load_data_remote cl attempt deval (Some self) w)
      as [[[actor1 ref1]|e] w1] eqn:H1; [|done].
    rewrite bind_unfold.
    destruct (_trigger_data_load_evals cl attempt actor1 evals w1)
      as [[[actor2 refs2]|e] w2] eqn:H2; [|done].
    intros [= <- <- <-] [[u ->] Hrefs]%Forall_cons.
    apply load_data_remote_ok in H1 as (matrix & -> & ->).
    destruct (IH _ _ _ _ _ H2 Hrefs)
      as (self' & -> & Hsame & Hdom & Hfiles & Hinit & Ht).
    exists self'. simpl in *. repeat (split; [done|]). split; [|split; [done|]].
    + intros d. rewrite Hdom, elem_of_cons, lookup_insert_is_Some.
      destruct (decide (deval = d)); intuition congruence.
    + split; [done|]. by rewrite Ht, <- app_assoc.
Qed.

(** main.py, lines 166-170, for an actor that is alive. *)
Lemma trigger_data_load_ok (dtrain : RayDMatrix) (evals : list (RayDMatrix * string))
    (self : RayXGBoostActor.t) (actor' : ActorHandle) (refs : list (ObjectRef unit))
    (w w' : World) :
  _trigger_data_load cl attempt (Some self) dtrain evals w = (Ok (actor', refs), w') →
  Forall (λ ref, ok_ref ref) refs →
  ∃ self', actor' = Some self' ∧ same_actor self self' ∧
    (∀ d, is_Some (RayXGBoostActor._data self' !! d) ↔
          is_Some (RayXGBoostActor._data self !! d) ∨ d ∈ dtrain :: evals.*1) ∧
    files w' = files w ∧ ray_initialized w' = ray_initialized w ∧
    trace w' = trace w ++ ((λ d, EvShardLoad d (RayXGBoostActor.rank self)
                                   (RayXGBoostActor.num_actors self))
                           <$> dtrain :: evals.*1).
Proof.
  intros Hrun. apply (trigger_data_load_evals_ok ((dtrain, ""%string) :: evals)).
  exact Hrun.
Qed.

End coordinator_loads.

Section coordinator_calls.

Variables (cl : Cluster) (attempt : Z) (params : gmap string value)
  (dtrain : RayDMatrix) (args : list value) (evals : list (RayDMatrix * string))
  (kwargs : gmap string value).

(** The loop over the actors that fills [wait_load]: when every load
    returned, every actor is alive and holds [dtrain] and the handles of
    [evals]. *)
Lemma load_all_ok (selves : list RayXGBoostActor.t) (actors' : list ActorHandle)
    (wait_load : list (ObjectRef unit)) (w w' : World) :
  load_all cl attempt (Some <$> selves) dtrain evals w = (Ok (actors', wait_load), w') →
  Forall (λ ref, ok_ref ref) wait_load →
  ∃ selves', actors' = Some <$> selves' ∧
    Forall2 (λ self self',
               same_actor self self' ∧
               ∀ d, d ∈ dtrain :: evals.*1 →
                    is_Some (RayXGBoostActor._data self' !! d)) selves selves' ∧
    files w' = files w.
Proof.
  revert actors' wait_load w w'.
  induction selves as [|self selves IH]; intros actors' wait_load w w'; simpl.
  - intros [= <- <- <-] _. exists []. by repeat split.
  - rewrite bind_unfold.
    destruct (_trigger_data_load cl attempt (Some self) dtrain evals w)
      as [[[actor1 refs1]|e] w1] eqn:H1; [|done].
    rewrite bind_unfold.
    destruct (load_all cl attempt _ dtrain evals w1)
      as [[[actors2 refs2]|e] w2] eqn:H2; [|done].
    intros [= <- <- <-] [Hrefs1 Hrefs2]%Forall_app.
    destruct (trigger_data_load_ok _ _ _ _ _ _ _ _ _ H1 Hrefs1)
      as (self' & -> & Hsame & Hdom & Hfiles & _).
    destruct (IH _ _ _ _ H2 Hrefs2) as (selves' & -> & Hall & Hfiles2).
    exists (self' :: selves'). split; [done|]. split; [|congruence].
    constructor; [|done]. split; [done|]. intros d Hd. apply Hdom. by right.
Qed.

(** The calls of [train] on the actors, in the order of the list: when
    every call returned, each result is the result of the actor's [train]. *)
Lemma train_all_ok (rabit_args : list string) (selves : list RayXGBoostActor.t)
    (started : list (ActorHandle * ObjectRef (Booster * EvalsResult))) (w w' : World) :
  forM (train_remote cl attempt rabit_args params dtrain evals args kwargs)
       (Some <$> selves) w = (Ok started, w') →
  Forall (λ ref, ok_ref ref) started.*2 →
  ∃ results, started.*2 = Ok <$> results ∧
    Forall2 (λ self res,
               ∃ self' w0 w1,
                 RayXGBoostActor.train (process_of cl attempt self) self rabit_args
                   params dtrain evals args kwargs w0 = (Ok (self', res), w1))
            selves results.
Proof.
  revert started w w'.
  induction selves as [|self selves IH]; intros started w w'; simpl.
  - intros [= <- <-] _. by exists [].
  - rewrite bind_unfold. unfold train_remote at 1. unfold remote.
    destruct (RayXGBoostActor.train (process_of cl attempt self) self rabit_args
                params dtrain evals args kwargs w) as [[[self' res]|[e|]] w1] eqn:H1.
    all: rewrite bind_unfold.
    all: destruct (forM _ _ w1) as [[started2|e'] w2] eqn:H2; [|done].
    all: intros [= <- <-]; simpl; intros [[u [= <-]] Hrest]%Forall_cons.
    destruct (IH _ _ _ H2 Hrest) as (results & Hresults & Hall).
    exists (res :: results). split; [simpl; f_equal; exact Hresults|].
    constructor; [|done]. by eexists _, _, _.
Qed.

End coordinator_calls.

(** ** An attempt that returns *)

(** What stands behind the result of an attempt: one actor per rank, each
    with the checkpoint settings of the attempt, each of which returned from
    its [train]; the result is the one of the first. *)
Lemma train_result_ok_inv (cl : Cluster) (attempt : Z)
    (params : gmap string value) (dtrain : RayDMatrix) (args : list value)
    (evals : list (RayDMatrix * string)) (num_actors gpus_per_worker : Z)
    (checkpoint_prefix : option string) (checkpoint_path : string)
    (checkpoint_frequency : Z) (kwargs : gmap string value) (w w' : World)
    (res : Booster * EvalsResult) :
  _train_result cl attempt params dtrain args evals num_actors gpus_per_worker
    checkpoint_prefix checkpoint_path checkpoint_frequency kwargs w = (Ok res, w') →
  ∃ selves results,
    Forall2 (λ i self,
               RayXGBoostActor.rank self = i ∧
               RayXGBoostActor.checkpoint_prefix self = checkpoint_prefix ∧
               RayXGBoostActor.checkpoint_path self = checkpoint_path)
            (Py.range num_actors) selves ∧
    Forall2 (λ self res,
               ∃ rabit_args self' w0 w1,
                 RayXGBoostActor.train (process_of cl attempt self) self rabit_args
                   params dtrain evals args kwargs w0 = (Ok (self', res), w1))
            selves results ∧
    head results = Some res.
Proof.
  unfold _train_result. rewrite bind_unfold.
  destruct (_assert_ray_support cl w) as [[[]|e] w0]; [|done].
  rewrite bind_unfold.
  destruct (ray_init_if_needed cl w0) as [[[]|e] w1]; [|done].
  rewrite bind_unfold.
  destruct (resolve_gpus_per_worker params gpus_per_worker w1) as [[gpus|e] w2]; [|done].
  rewrite bind_unfold, create_actors_spec, bind_unfold.
  set (selves := (λ i, RayXGBoostActor.__init__ (actor_object_id cl attempt i) i
                         num_actors checkpoint_prefix checkpoint_path
                         checkpoint_frequency) <$> Py.range num_actors).
  replace ((λ i, Some (RayXGBoostActor.__init__ (actor_object_id cl attempt i) i
                         num_actors checkpoint_prefix checkpoint_path
                         checkpoint_frequency)) <$> Py.range num_actors)
    with (Some <$> selves) by (unfold selves; by rewrite <- list_fmap_compose).
  destruct (emit _ _) as [[[]|e] w3]; [|done].
  rewrite bind_unfold.
  destruct (load_all cl attempt (Some <$> selves) dtrain evals w3)
    as [[[actors' wait_load]|e] w4] eqn:Hload; [|done].
  rewrite bind_unfold.
  destruct (ray_get wait_load w4) as [[units|e] w5] eqn:Hget; [|done].
  apply ray_get_ok in Hget as [-> ->].
  destruct (load_all_ok _ _ _ _ _ _ _ _ _ Hload) as (selves' & -> & Hloaded & _).
  { apply Forall_fmap, Forall_true. intros u. by exists u. }
  rewrite bind_unfold.
  destruct (emit _ _) as [[[]|e] w6]; [|done].
  rewrite bind_unfold. unfold _start_rabit_tracker. rewrite bind_unfold.
  destruct (emit _ _) as [[[]|e] w7]; [|done].
  unfold mret at 1, M_ret at 1. cbv beta iota zeta. rewrite bind_unfold.
  destruct (forM (train_remote cl attempt _ params dtrain evals args kwargs)
              (Some <$> selves') w7) as [[started|e] w8] eqn:Hstarted; [|done].
  rewrite bind_unfold.
  destruct (ray_get (started.*2) w8) as [[vals|e] w9] eqn:Hget; [|done].
  apply ray_get_ok in Hget as [Hvals ->].
  destruct (train_all_ok _ _ _ _ _ _ _ _ _ _ _ _ Hstarted) as (results & Hresults & Hall).
  { rewrite Hvals. apply Forall_fmap, Forall_true. intros u. by exists u. }
  rewrite Hresults.
  destruct results as [|res0 results]; simpl; [done|]. intros [= <- <-].
  exists selves', (res0 :: results). split; [|split; [|done]].
  - unfold selves in Hloaded. apply Forall2_fmap_l in Hloaded.
    eapply Forall2_impl; [done|]. simpl.
    by intros i self' [(_ & -> & _ & -> & -> & _) _].
  - eapply Forall2_impl; [done|]. simpl. intros self r (self' & wa & wb & Hr).
    by eexists _, _, _, _.
Qed.

(** X7: an attempt returns only when every one of its workers joined the
    rendezvous and finished its run, and what it returns is the result of
    the worker of rank [0]: the model after that worker's last round and its
    evaluation results.  It needs at least one worker and a non-empty
    checkpoint prefix: with [checkpoint_prefix=None], the default of
    [_train], no attempt returns. *)
Theorem train_returns_first_result
    (cl : Cluster) (attempt : Z) (params : gmap string value) (dtrain : RayDMatrix)
    (args : list value) (evals : list (RayDMatrix * string))
    (num_actors gpus_per_worker : Z) (checkpoint_prefix : option string)
    (checkpoint_path : string) (checkpoint_frequency : Z)
    (kwargs : gmap string value) (w w' : World) (res : Booster * EvalsResult) :
  _train cl attempt params dtrain args evals num_actors gpus_per_worker
    checkpoint_prefix checkpoint_path checkpoint_frequency kwargs w = (Ok res, w') →
  0 < num_actors ∧ Py.truthy checkpoint_prefix = true ∧
  engine_outcome (engine (process cl attempt 0)) = Ok res ∧
  ∀ i, 0 ≤ i < num_actors →
    rabit_join (process cl attempt i) = Ok tt ∧
    ∃ res_i, engine_outcome (engine (process cl attempt i)) = Ok res_i.
Proof.
  intros Hrun.
  destruct (train_attempt_spec cl params dtrain args evals num_actors gpus_per_worker
              kwargs attempt checkpoint_prefix checkpoint_path checkpoint_frequency w)
    as (_ & _ & Hresult & _).
  destruct (Hresult res) as [w1 Hres]; [by rewrite Hrun|].
  apply train_result_ok_inv in Hres as (selves & results & Hranks & Htrains & Hhead).
  assert (∀ k i, Py.range num_actors !! k = Some i →
            ∃ self r f, results !! k = Some r ∧
              RayXGBoostActor.checkpoint_file self = Some f ∧
              RayXGBoostActor.checkpoint_prefix self = checkpoint_prefix ∧
              rabit_join (process cl attempt i) = Ok tt ∧
              engine_outcome (engine (process cl attempt i)) = Ok r) as Hworker.
  { intros k i Hk.
    destruct (Forall2_lookup_l _ _ _ _ _ Hranks Hk) as (self & Hself & <- & Hprefix & _).
    destruct (Forall2_lookup_l _ _ _ _ _ Htrains Hself)
      as (r & Hr & rabit_args & self' & wa & wb & Htrain).
    destruct (train_spec (process_of cl attempt self) rabit_args params dtrain evals
                args kwargs self wa) as (loads & tail & _ & _ & _ & _ & _ & Hok).
    destruct (Hok self' r) as (_ & _ & _ & (f & Hf & _) & Hjoin & Hout);
      [by rewrite Htrain|].
    by exists self, r, f. }
  assert (0 < num_actors) as Hpos.
  { destruct (decide (0 < num_actors)) as [|Hle]; [done|].
    rewrite range_nonpositive in Hranks by lia.
    apply Forall2_nil_inv_l in Hranks as ->.
    apply Forall2_nil_inv_l in Htrains as ->. done. }
  assert (Py.range num_actors !! 0%nat = Some 0) as Hfirst.
  { unfold Py.range. destruct (Z.to_nat num_actors) eqn:Hn; [lia|done]. }
  destruct (Hworker _ _ Hfirst) as (self & r & f & Hr & Hf & Hprefix & _ & Hout).
  split; [done|]. split; [|split].
  - unfold RayXGBoostActor.checkpoint_file, _checkpoint_file in Hf.
    rewrite Hprefix in Hf. destruct checkpoint_prefix as [p|]; [|done].
    by destruct (Py.truthy (Some p)).
  - rewrite Hout. f_equal. destruct results; simpl in *; congruence.
  - intros i [k Hk]%elem_of_range%list_elem_of_lookup.
    destruct (Hworker _ _ Hk) as (_ & r' & _ & _ & _ & _ & Hjoin & Hout').
    split; [done|]. by exists r'.
Qed.

Lemma train_returns_first_result_witness :
  ∃ res w', _train (demo_cluster 0) 0 ∅ 0%nat [] [] 2 (-1) (Some "ckpt") "/tmp" 5 ∅
              empty_world = (Ok res, w') ∧
    engine_outcome (engine (process (demo_cluster 0) 0 0)) = Ok res ∧
    rabit_join (process (demo_cluster 0) 0 1) = Ok tt.
Proof.
  eexists _, _. split; [vm_compute; reflexivity|].
  edestruct (train_returns_first_result (demo_cluster 0) 0 ∅ 0%nat [] [] 2 (-1)
               (Some "ckpt") "/tmp" 5 ∅ empty_world) as (_ & _ & Hres & Hall);
    [vm_compute; reflexivity|].
  split; [exact Hres|]. apply (Hall 1). lia.
Defined.

(** X8: the loads the coordinator triggers and the load-on-demand of
    [train].  When the loads of [_trigger_data_load] on a live actor all
    returned, the actor has loaded [dtrain] and every handle of [evals]
    once per occurrence, cached or not; its cache then holds all of them,
    so a [train] on that actor with the same [dtrain] and [evals] loads
    nothing. *)
Theorem trigger_data_load_fills_cache
    (cl : Cluster) (attempt : Z) (self : RayXGBoostActor.t) (dtrain : RayDMatrix)
    (evals : list (RayDMatrix * string)) (actor' : ActorHandle)
    (refs : list (ObjectRef unit)) (w w' : World) :
  _trigger_data_load cl attempt (Some self) dtrain evals w = (Ok (actor', refs), w') →
  (∀ ref, ref ∈ refs → ∃ u, ref = Ok u) →
  ∃ self', actor' = Some self' ∧
    trace w' = trace w ++ ((λ d, EvShardLoad d (RayXGBoostActor.rank self)
                                   (RayXGBoostActor.num_actors self))
                           <$> dtrain :: evals.*1) ∧
    (∀ d, d ∈ dtrain :: evals.*1 → is_Some (RayXGBoostActor._data self' !! d)) ∧
    ∀ c rabit_args params args kwargs w2 d,
      shard_loads d (RayXGBoostActor.train c self' rabit_args params dtrain evals
                       args kwargs w2).2
      = shard_loads d w2.
Proof.
  intros Hrun Hrefs.
  destruct (trigger_data_load_ok cl attempt dtrain evals self actor' refs w w' Hrun)
    as (self' & -> & Hsame & Hdom & _ & _ & Ht); [by apply Forall_forall|].
  exists self'. split; [done|]. split; [done|].
  assert (∀ d, d ∈ dtrain :: evals.*1 → is_Some (RayXGBoostActor._data self' !! d))
    as Hcached by (intros d Hd; apply Hdom; by right).
  split; [done|].
  intros c rabit_args params args kwargs w2 d.
  destruct (train_spec c rabit_args params dtrain evals args kwargs self' w2)
    as (loads & tail & Ht2 & _ & Htail & Hbound & _).
  simpl in Ht2. unfold shard_loads. rewrite Ht2, !count_events_app.
  rewrite (count_events_not_loads d tail Htail). specialize (Hbound d).
  rewrite decide_False in Hbound; [lia|].
  intros [Hin Hnone]. apply Hcached in Hin as [m Hm]. congruence.
Qed.

Lemma trigger_data_load_fills_cache_witness :
  ∃ self' refs w',
    _trigger_data_load (demo_cluster 0) 0 (Some demo_actor) 0%nat
      [(1%nat, "eval"); (1%nat, "again")] empty_world = (Ok (Some self', refs), w') ∧
    trace w' = [EvShardLoad 0%nat 1 4; EvShardLoad 1%nat 1 4; EvShardLoad 1%nat 1 4] ∧
    shard_loads 1%nat
      (RayXGBoostActor.train (demo_process (Finishes ∅)) self' [] ∅ 0%nat
         [(1%nat, "eval"); (1%nat, "again")] [] ∅ w').2
    = shard_loads 1%nat w'.
Proof.
  eexists _, _, _. split; [vm_compute; reflexivity|].
  pose proof (λ actor' refs,
                trigger_data_load_fills_cache (demo_cluster 0) 0 demo_actor 0%nat
                  [(1%nat, "eval"); (1%nat, "again")] actor' refs empty_world)
    as Hfills.
  edestruct Hfills as (self' & Hactor & Ht & _ & Htrain).
  - vm_compute. reflexivity.
  - intros ref Href. rewrite !elem_of_cons, elem_of_nil in Href.
    destruct Href as [->|[->|[->|[]]]]; by eexists.
  - injection Hactor as <-. split; [exact Ht|apply Htrain].
Defined.

(** ** The checkpoint keywords of [train] *)

(** X9: the keywords [checkpoint_prefix], [checkpoint_path] and
    [checkpoint_frequency] that [train] reads from [kwargs] cannot be
    passed: [train] hands each of them to [_train] by name and once more
    inside [**kwargs], so with any of them the first call of [_train] is a
    [TypeError]; it is raised at once, whatever the budget of restarts, and
    nothing has happened (no worker spawned, no file touched). *)
Theorem train_rejects_checkpoint_keywords
    (fuel : nat) (cl : Cluster) (params : gmap string value) (dtrain : RayDMatrix)
    (args : list value) (evals : list (RayDMatrix * string))
    (num_actors gpus_per_worker max_actor_restarts : Z)
    (kwargs : gmap string value) (w : World) :
  RAY_INSTALLED cl = true →
  is_Some (kwargs !! "checkpoint_prefix") ∨ is_Some (kwargs !! "checkpoint_path")
    ∨ is_Some (kwargs !! "checkpoint_frequency") →
  ∃ msg, train (S fuel) cl params dtrain args evals num_actors gpus_per_worker
           max_actor_restarts kwargs w = Some (Err (TypeError msg), w).
Proof.
  intros Hray Hkeyword. rewrite train_unfold by done.
  rewrite loop_unfold, budget_allows_first.
  destruct (call_train_duplicate_keyword cl params dtrain args evals num_actors
              gpus_per_worker kwargs 0 w Hkeyword) as [msg ->].
  by exists msg.
Qed.

Lemma train_rejects_checkpoint_keywords_witness :
  ∃ msg, train 3 (demo_cluster 0) ∅ 0%nat [] [] 2 (-1) 2
           {["checkpoint_frequency" := VInt 10]} empty_world
         = Some (Err (TypeError msg), empty_world).
Proof.
  apply (train_rejects_checkpoint_keywords 2 (demo_cluster 0) ∅ 0%nat [] [] 2 (-1) 2
           {["checkpoint_frequency" := VInt 10]} empty_world).
  - reflexivity.
  - right. right. by eexists.
Defined.

(** ** The budget of restarts, used up *)

Lemma resolve_gpus_any_world (params : gmap string value) (gpus_per_worker : Z)
    (w w' : World) :
  (resolve_gpus_per_worker params gpus_per_worker w').1
  = (resolve_gpus_per_worker params gpus_per_worker w).1.
Proof. unfold resolve_gpus_per_worker. by repeat case_match. Qed.

(** A loop in which every attempt loses an actor makes every attempt the
    budget allows and then raises. *)
Lemma loop_exhausts (cl : Cluster) (params : gmap string value) (dtrain : RayDMatrix)
    (args : list value) (evals : list (RayDMatrix * string))
    (num_actors gpus_per_worker : Z) (R : Z)
    (checkpoint_prefix checkpoint_path checkpoint_frequency : value)
    (kwargs : gmap string value) (k : nat) :
  (∀ tries w,
     let a := call__train cl tries params dtrain args evals num_actors gpus_per_worker
                checkpoint_prefix checkpoint_path checkpoint_frequency kwargs w in
     0 ≤ tries ≤ R → a.1 = Err RayActorError ∧ spawns a.2 = (spawns w + k)%nat) →
  ∀ fuel tries w, 0 ≤ tries ≤ R → (Z.to_nat (R - tries) < fuel)%nat →
    ∃ w', train_loop fuel cl params dtrain args evals num_actors gpus_per_worker
            (Finite R) checkpoint_prefix checkpoint_path checkpoint_frequency kwargs
            tries w
          = Some (Err (RuntimeError
                         (exhaustion_message checkpoint_path checkpoint_frequency)), w') ∧
      spawns w' = (spawns w + Z.to_nat (R + 1 - tries) * k)%nat.
Proof.
  intros Hdie fuel. induction fuel as [|fuel IH]; intros tries w Htries Hfuel; [lia|].
  rewrite loop_unfold. simpl. rewrite bool_decide_eq_true_2 by lia.
  destruct (Hdie tries w Htries) as [Herr Hspawns].
  destruct (call__train cl tries params dtrain args evals num_actors gpus_per_worker
              checkpoint_prefix checkpoint_path checkpoint_frequency kwargs w)
    as [r w1]. simpl in Herr, Hspawns. subst r.
  destruct (decide (tries + 1 ≤ R)) as [Hmore|Hlast].
  - rewrite bool_decide_eq_true_2 by done.
    destruct (IH (tries + 1)
                {| files := files w1; ray_initialized := ray_initialized w1;
                   trace := trace w1 ++ [EvLog "warning" "A Ray actor died during training. Trying to restart and continue training from last checkpoint."] |})
      as (w' & -> & Hw'); [lia|lia|].
    exists w'. split; [done|]. rewrite Hw'. unfold spawns at 1. simpl.
    rewrite count_events_app. unfold spawns in Hspawns. rewrite Hspawns.
    replace (Z.to_nat (R + 1 - tries)) with (S (Z.to_nat (R + 1 - (tries + 1)))) by lia.
    unfold count_events at 2. simpl. unfold spawns. lia.
  - rewrite bool_decide_eq_false_2 by done. exists w1. split; [done|].
    replace (Z.to_nat (R + 1 - tries)) with 1%nat by lia. lia.
Qed.

(** X10: the budget of restarts used up.  When every attempt loses an actor,
    [train] with a budget [R >= 0] makes all [R + 1] attempts, each with
    [num_actors] fresh workers, and then raises the [RuntimeError] of the
    exhausted budget: the bound [(R + 1) * num_actors] on the workers it
    spawns is reached. *)
Theorem restarts_used_up
    (fuel : nat) (cl : Cluster) (params : gmap string value) (dtrain : RayDMatrix)
    (args : list value) (evals : list (RayDMatrix * string))
    (num_actors gpus_per_worker max_actor_restarts : Z)
    (kwargs : gmap string value) (w : World) (gpus : Z) :
  0 ≤ max_actor_restarts → (Z.to_nat max_actor_restarts < fuel)%nat →
  RAY_INSTALLED cl = true → ray_init cl = Ok tt →
  (resolve_gpus_per_worker params gpus_per_worker w).1 = Ok gpus →
  kwargs !! "checkpoint_prefix" = None → kwargs !! "checkpoint_path" = None →
  kwargs !! "checkpoint_frequency" = None →
  (∀ tries w0, 0 ≤ tries ≤ max_actor_restarts →
     (_train cl tries params dtrain args evals num_actors gpus_per_worker
        (Some (".xgb_ray_" +:+ time_time cl)) "/tmp" 5 kwargs w0).1
     = Err RayActorError) →
  ∃ w', train fuel cl params dtrain args evals num_actors gpus_per_worker
          max_actor_restarts kwargs w
        = Some (Err (RuntimeError (exhaustion_message (VStr "/tmp") (VInt 5))), w') ∧
    spawns w'
    = (spawns w + Z.to_nat (max_actor_restarts + 1) * Z.to_nat num_actors)%nat.
Proof.
  intros HR Hfuel Hray Hinit Hgpus Hk1 Hk2 Hk3 Hdie.
  rewrite train_unfold by done. rewrite bool_decide_eq_true_2 by done.
  rewrite Hk1, Hk2, Hk3. simpl.
  destruct (loop_exhausts cl params dtrain args evals num_actors gpus_per_worker
              max_actor_restarts (VStr (".xgb_ray_" +:+ time_time cl)) (VStr "/tmp")
              (VInt 5) kwargs (Z.to_nat num_actors)) with (fuel := fuel) (tries := 0)
              (w := w) as (w' & Hloop & Hspawns).
  - intros tries w0 a Htries. unfold a.
    pose proof (call_train_defaults cl params dtrain args evals num_actors
                  gpus_per_worker kwargs tries w0 Hk1 Hk2 Hk3) as Hcall.
    rewrite Hk1, Hk2, Hk3 in Hcall. simpl in Hcall. rewrite Hcall.
    split; [by apply Hdie|].
    rewrite train_spawns_as_result.
    apply (train_result_spawns_exactly _ _ _ _ _ _ _ _ _ _ _ _ _ gpus); [done|by right|].
    by rewrite (resolve_gpus_any_world _ _ w).
  - lia.
  - lia.
  - replace (max_actor_restarts + 1 - 0) with (max_actor_restarts + 1) in Hspawns by lia.
    by exists w'.
Qed.

Lemma restarts_used_up_witness :
  ∃ w', train 3 doomed_cluster ∅ 0%nat [] [] 1 (-1) 2 ∅ empty_world
        = Some (Err (RuntimeError (exhaustion_message (VStr "/tmp") (VInt 5))), w') ∧
    spawns w' = (spawns empty_world + Z.to_nat (2 + 1) * Z.to_nat 1)%nat.
Proof.
  apply (restarts_used_up 3 doomed_cluster ∅ 0%nat [] [] 1 (-1) 2 ∅ empty_world 0).
  - lia.
  - simpl. lia.
  - reflexivity.
  - reflexivity.
  - reflexivity.
  - reflexivity.
  - reflexivity.
  - reflexivity.
  - intros tries w0 _. exact (doomed_attempt tries w0).
Defined.

(** ** The task identifiers of the rendezvous *)

Lemma str_int_format (z : Z) : Py.str_int z = Py.format_0d 0 z.
Proof.
  unfold Py.str_int, Py.format_0d. destruct (z <? 0); simpl; by rewrite !app_nil_l.
Qed.

Lemma str_int_inj (z1 z2 : Z) : Py.str_int z1 = Py.str_int z2 → z1 = z2.
Proof. rewrite !str_int_format. apply format_0d_inj. Qed.

Lemma app_inv_head (p s1 s2 : string) : p +:+ s1 = p +:+ s2 → s1 = s2.
Proof.
  induction p as [|a p IH]; [by rewrite !app_nil_l|].
  rewrite !app_cons. intros [= Heq]. by apply IH.
Qed.

(** X11: what [RabitContext] adds to the arguments of the rendezvous.  The
    arguments of the tracker are kept in their order and one entry, the task
    identifier made of [id(self)], is appended; two contexts are given the
    same arguments exactly when they were made from the same arguments and
    the same [id]: the rank of an actor plays no part, so two actors of
    different ranks whose objects have the same [id] join under the same
    task identifier. *)
Theorem rabit_context_task_id
    (self self' : RayXGBoostActor.t) (rabit_args rabit_args' : list string) :
  let ctx := RabitContext.__init__ (Py.str_int (RayXGBoostActor.object_id self))
               rabit_args in
  let ctx' := RabitContext.__init__ (Py.str_int (RayXGBoostActor.object_id self'))
                rabit_args' in
  RabitContext.args ctx = rabit_args ++ [task_id self] ∧
  (task_id self = task_id self' ↔
   RayXGBoostActor.object_id self = RayXGBoostActor.object_id self') ∧
  (RabitContext.args ctx = RabitContext.args ctx' ↔
   rabit_args = rabit_args' ∧
   RayXGBoostActor.object_id self = RayXGBoostActor.object_id self').
Proof.
  simpl. split; [done|].
  assert (task_id self = task_id self' ↔
          RayXGBoostActor.object_id self = RayXGBoostActor.object_id self') as Hid.
  { unfold task_id. split; [|by intros ->].
    intros Heq%app_inv_head. by apply str_int_inj. }
  split; [done|]. fold (task_id self) (task_id self'). split.
  - intros [Hargs Htask]%app_inj_tail. split; [done|]. by apply Hid.
  - intros [-> Hobj]. f_equal. f_equal. by apply Hid.
Qed.

Lemma rabit_context_task_id_witness :
  task_id (RayXGBoostActor.__init__ 140001 0 4 (Some "ckpt") "/tmp" 5)
  = task_id (RayXGBoostActor.__init__ 140001 1 4 (Some "ckpt") "/tmp" 5) ∧
  (task_id (RayXGBoostActor.__init__ 140001 0 4 (Some "ckpt") "/tmp" 5)
   = task_id (RayXGBoostActor.__init__ 140002 0 4 (Some "ckpt") "/tmp" 5) → False).
Proof.
  split.
  - apply (rabit_context_task_id
             (RayXGBoostActor.__init__ 140001 0 4 (Some "ckpt") "/tmp" 5)
             (RayXGBoostActor.__init__ 140001 1 4 (Some "ckpt") "/tmp" 5) [] []).
    reflexivity.
  - intros Heq.
    apply (rabit_context_task_id
             (RayXGBoostActor.__init__ 140001 0 4 (Some "ckpt") "/tmp" 5)
             (RayXGBoostActor.__init__ 140002 0 4 (Some "ckpt") "/tmp" 5) [] []) in Heq.
    discriminate Heq.
Defined.

(** ** A checkpoint frequency of zero *)

Lemma boost_zero_frequency (run : EngineRun) (user : list callback) (file : option string)
    (i n : nat) (w : World) :
  Forall (λ cb, ∃ name, cb = UserCallback name) user →
  boost run (user ++ [SaveCheckpointCallback 0 file]) i (S n) w
  = (Err ZeroDivisionError, w).
Proof.
  intros Huser. simpl. rewrite bind_unfold.
  assert (∃ e, forM (λ cb, call_callback cb
                             {| iteration := Z.of_nat i; model := model_at run i |})
                    (user ++ [SaveCheckpointCallback 0 file]) w = (Err e, w) ∧
               e = ZeroDivisionError) as (e & -> & ->); [|done].
  induction Huser as [|cb cbs [name ->] _ (e & IH & ->)]; simpl.
  - rewrite bind_unfold. by eexists.
  - rewrite bind_unfold. simpl. rewrite bind_unfold, IH. by eexists.
Qed.

(** X12: with [checkpoint_frequency = 0] the save hook divides by zero in
    the first round.  An actor that gets as far as the engine and runs a
    round raises [ZeroDivisionError] from [train]; it has left the
    rendezvous on the way out, and no file has changed. *)
Theorem train_zero_frequency
    (c : Collaborators) (self : RayXGBoostActor.t) (rabit_args : list string)
    (params : gmap string value) (dtrain : RayDMatrix)
    (evals : list (RayDMatrix * string)) (args : list value)
    (kwargs : gmap string value) (w : World) :
  RayXGBoostActor.checkpoint_frequency self = 0 →
  Py.truthy (RayXGBoostActor.checkpoint_prefix self) = true →
  (∀ v, kwargs !! "callbacks" = Some v →
     ∃ user, v = VCallbacks user ∧ Forall (λ cb, ∃ name, cb = UserCallback name) user) →
  (∀ d, d ∈ dtrain :: evals.*1 →
     is_Some (RayXGBoostActor._data self !! d) ∨
     ∃ xy, load_shard c d (RayXGBoostActor.rank self) (RayXGBoostActor.num_actors self)
           = Ok xy) →
  rabit_join c = Ok tt →
  (0 < rounds (engine c))%nat →
  let r := RayXGBoostActor.train c self rabit_args params dtrain evals args kwargs w in
  r.1 = Err (Raised ZeroDivisionError) ∧ files r.2 = files w ∧
  last (trace r.2) = Some EvRabitFinalize.
Proof.
  intros Hfreq Hprefix Hcb Hloadable Hjoin Hrounds.
  destruct (train_cases c rabit_args params dtrain evals args kwargs self w)
    as (loads & w1 & _ & Hfiles & Hinit & Ht & Hloads & Hbound & Hcases).
  destruct Hcases as [(e & Hr & Hwhy)|(self2 & f & Hsame & Hdom & Hcount & Hf & Hr)].
  { exfalso. destruct Hwhy as [Hload|[[Hnone _]|(v & msg & Hv & Hbad & _)]].
    - destruct (load_evals_ok c ((dtrain, ""%string) :: evals) self w)
        as (self' & locals & w' & Hok); [done|].
      by rewrite Hok in Hload.
    - destruct (checkpoint_file_truthy (RayXGBoostActor.checkpoint_path self) _
                  (RayXGBoostActor.rank self) Hprefix) as [f Hf].
      unfold RayXGBoostActor.checkpoint_file in Hnone. congruence.
    - destruct (Hcb v Hv) as (user & -> & _). by eapply Hbad. }
  simpl. rewrite Hr. rewrite with_RabitContext_joined by done. rewrite bind_unfold.
  set (user := match kwargs !! "callbacks" with
               | Some (VCallbacks cbs) => cbs | _ => [] end).
  assert (Forall (λ cb, ∃ name, cb = UserCallback name) user) as Huser.
  { unfold user. destruct (kwargs !! "callbacks") as [v|] eqn:Hv; [|done].
    by destruct (Hcb v eq_refl) as (cbs & -> & ?). }
  unfold xgb_train. rewrite lookup_insert_eq, bind_ret_l, bind_unfold. simpl.
  rewrite bind_unfold. unfold py.
  unfold RayXGBoostActor._save_checkpoint_callback.
  destruct Hsame as (_ & _ & _ & _ & _ & ->). rewrite Hfreq.
  destruct (rounds (engine c)) as [|n]; [lia|].
  rewrite boost_zero_frequency by done. simpl.
  split; [done|]. split; [done|]. by rewrite last_snoc.
Qed.

Lemma train_zero_frequency_witness :
  (RayXGBoostActor.train (demo_process (Finishes ∅))
     (RayXGBoostActor.__init__ 140000 0 4 (Some "ckpt") "/tmp" 0)
     ["DMLC_NUM_WORKER=4"] ∅ 0%nat [] [] ∅ checkpointed_world).1
  = Err (Raised ZeroDivisionError) ∧
  files (RayXGBoostActor.train (demo_process (Finishes ∅))
           (RayXGBoostActor.__init__ 140000 0 4 (Some "ckpt") "/tmp" 0)
           ["DMLC_NUM_WORKER=4"] ∅ 0%nat [] [] ∅ checkpointed_world).2
  = files checkpointed_world.
Proof.
  destruct (train_zero_frequency (demo_process (Finishes ∅))
              (RayXGBoostActor.__init__ 140000 0 4 (Some "ckpt") "/tmp" 0)
              ["DMLC_NUM_WORKER=4"] ∅ 0%nat [] [] ∅ checkpointed_world)
    as (Hend & Hfiles & _).
  - reflexivity.
  - reflexivity.
  - intros v Hv. rewrite lookup_empty in Hv. discriminate Hv.
  - intros d Hd. right. eexists. reflexivity.
  - reflexivity.
  - simpl. lia.
  - split; [exact Hend|exact Hfiles].
Defined.

(** ** What the code can do to the world *)

(** Any relation that holds along the four ways the code has of changing
    the world (an outside call that is not [ray.init], saving or removing a
    file in [S], and the guarded [ray.init]) holds along every function of
    the file, as long as the checkpoint files in play are in [S]. *)
Section confinement.

Context (R : relation World) `{!PreOrder R} (S : string → Prop).

Hypothesis R_emit :
  ∀ E (ev : Event), is_ray_init ev = false → respects R (emit (E := E) ev).
Hypothesis R_save : ∀ model f, S f → respects R (save_model model (Some f)).
Hypothesis R_remove : ∀ f, S f → respects R (os_remove (Some f)).
Hypothesis R_init : ∀ cl, respects R (ray_init_if_needed cl).

(** A hook that saves, saves in [S]. *)
Local Abbreviation hook_ok cb :=
  (∀ frequency f, cb = SaveCheckpointCallback frequency (Some f) → S f).

(** The checkpoint file of an actor is in [S]. *)
Local Abbreviation own self :=
  (∀ f, RayXGBoostActor.checkpoint_file self = Some f → S f).

Ltac conf_step :=
  lazymatch goal with
  | |- PreOrder _ => apply _
  | |- respects _ (mret _) => apply respects_ret
  | |- respects _ (raise _) => apply respects_raise
  | |- respects _ (_ ≫= _) => apply respects_bind; [apply _| |intros ?]
  | |- respects _ (py _) => apply respects_py
  | |- respects _ (emit _) => apply R_emit; reflexivity
  | |- respects _ (os_path_exists _) => apply respects_os_path_exists
  | |- respects _ (ray_get1 _) => apply respects_ray_get1
  | |- respects _ (ray_get _) => apply respects_ray_get
  | |- respects _ (match ?x with _ => _ end) => destruct x
  end.

Ltac conf := repeat conf_step; eauto.

Lemma respects_forM_in {E A B} (f : A → M E B) (l : list A) :
  (∀ x, x ∈ l → respects R (f x)) → respects R (forM f l).
Proof.
  induction l as [|x l IH]; intros Hf; simpl; [conf|].
  conf_step; [apply Hf; left|]. conf_step; [|conf].
  apply IH. intros z Hz. apply Hf. by right.
Qed.

Lemma conf_call_callback (cb : callback) (env : CallbackEnv) :
  hook_ok cb → respects R (call_callback cb env).
Proof.
  intros Hcb. destruct cb as [name|frequency [f|]]; simpl; [conf|..].
  - unfold save_checkpoint_closure.
    repeat case_decide; conf; try (apply R_save; by eapply Hcb).
  - unfold save_checkpoint_closure.
    repeat case_decide; conf; try (intros w; reflexivity).
Qed.

Lemma conf_boost (run : EngineRun) (callbacks : list callback) (i n : nat) :
  Forall (λ cb, hook_ok cb) callbacks → respects R (boost run callbacks i n).
Proof.
  intros Hcbs. revert i. induction n as [|n IH]; intros i; simpl; [conf|].
  conf_step; [|apply IH].
  apply respects_forM_in. intros cb Hcb. apply conf_call_callback.
  rewrite Forall_forall in Hcbs. by apply Hcbs.
Qed.

Lemma conf_xgb_train (run : EngineRun) (kwargs : gmap string value) :
  (∀ cbs, kwargs !! "callbacks" = Some (VCallbacks cbs) →
          Forall (λ cb, hook_ok cb) cbs) →
  respects R (xgb_train run kwargs).
Proof.
  intros Hcbs. unfold xgb_train.
  assert (∀ cbs, Forall (λ cb, hook_ok cb) cbs →
            respects R
              (emit (E := fault) (EvXgbTrain (kwargs !! "xgb_model"));;
               py (boost run cbs 0 (rounds run));;
               match ending run with
               | Finishes evals_result => mret (model_at run (rounds run), evals_result)
               | Fails e => raise (Raised e)
               | ProcessDies => raise ProcessDied
               end)) as Hrest.
  { intros cbs Hok. conf. by apply conf_boost. }
  destruct (kwargs !! "callbacks") as [[| | |cbs|]|] eqn:Hkw;
    (apply Hrest; by auto).
Qed.

Lemma conf_with_RabitContext {A} (c : Collaborators) (ctx : RabitContext.t)
    (body : M fault A) :
  respects R body → respects R (with_RabitContext c ctx body).
Proof.
  intros Hbody w. unfold with_RabitContext, RabitContext.__enter__, rabit_init.
  assert (respects R (emit (E := fault) (EvRabitInit (RabitContext.args ctx));;
                      match rabit_join c with
                      | Ok _ => mret tt
                      | Err f => raise f
                      end)) as Henter by conf.
  specialize (Henter w).
  destruct ((emit (EvRabitInit (RabitContext.args ctx));;
             match rabit_join c with Ok _ => mret tt | Err f => raise f end) w)
    as [[[]|f] w1]; simpl in *; [|done].
  specialize (Hbody w1).
  assert (∀ w2, R w2 (RabitContext.__exit__ ctx w2).2) as Hexit.
  { intros w2. by apply (R_emit fault EvRabitFinalize). }
  destruct (body w1) as [[a|[e|]] w2]; simpl in *.
  - specialize (Hexit w2). destruct (RabitContext.__exit__ ctx w2) as [[[]|f] w3];
      simpl in *; by (etrans; [|etrans]).
  - specialize (Hexit w2). destruct (RabitContext.__exit__ ctx w2) as [[[]|f] w3];
      simpl in *; by (etrans; [|etrans]).
  - by etrans.
Qed.

Lemma conf_load_data (c : Collaborators) (self : RayXGBoostActor.t) (data : RayDMatrix) :
  respects R (RayXGBoostActor.load_data c self data).
Proof. unfold RayXGBoostActor.load_data, ray_get_load_data. conf. Qed.

Lemma conf_load_if_missing (c : Collaborators) (self : RayXGBoostActor.t)
    (data : RayDMatrix) :
  respects R (RayXGBoostActor.load_if_missing c self data).
Proof.
  unfold RayXGBoostActor.load_if_missing. conf_step; [conf|].
  conf_step; [apply conf_load_data|]. conf.
Qed.

Lemma conf_load_evals (c : Collaborators) (self : RayXGBoostActor.t)
    (evals : list (RayDMatrix * string)) :
  respects R (RayXGBoostActor.load_evals c self evals).
Proof.
  revert self. induction evals as [|[deval name] evals IH]; intros self; simpl; [conf|].
  conf_step; [apply conf_load_if_missing|]. conf.
Qed.

(** The actor's [train] with hooks of the caller that leave the world
    alone. *)
Lemma conf_actor_train (c : Collaborators) (self : RayXGBoostActor.t)
    (rabit_args : list string) (params : gmap string value) (dtrain : RayDMatrix)
    (evals : list (RayDMatrix * string)) (args : list value)
    (kwargs : gmap string value) :
  own self →
  (∀ cbs, kwargs !! "callbacks" = Some (VCallbacks cbs) →
          Forall (λ cb, hook_ok cb) cbs) →
  respects R (RayXGBoostActor.train c self rabit_args params dtrain evals args kwargs).
Proof.
  intros Hown Hcbs w.
  destruct (train_cases c rabit_args params dtrain evals args kwargs self w)
    as (loads & w1 & Hw1 & _ & _ & _ & _ & _ & Hcases).
  assert (R w w1) as Hloads by (rewrite Hw1; apply conf_load_evals).
  destruct Hcases as [(f & -> & _)|(self2 & f & Hsame & _ & _ & Hf & ->)]; [done|].
  etrans; [done|]. apply conf_with_RabitContext. conf_step; [|conf].
  apply conf_xgb_train. intros cbs. rewrite lookup_insert_eq. intros [= <-].
  apply Forall_app. split.
  - destruct (kwargs !! "callbacks") as [[| | |user|]|] eqn:Hkw; try done.
    by apply Hcbs.
  - apply Forall_singleton. intros frequency g [= _ Hg]. apply Hown.
    rewrite <- Hg. unfold RayXGBoostActor.checkpoint_file.
    by destruct Hsame as (_ & -> & _ & -> & -> & _).
Qed.

Lemma conf_load_data_remote (cl : Cluster) (attempt : Z) (data : RayDMatrix)
    (actor : ActorHandle) :
  respects R (load_data_remote cl attempt data actor).
Proof.
  unfold load_data_remote. apply respects_remote; [apply _|]. intros self.
  conf_step; [apply conf_load_data|conf].
Qed.

Lemma conf_trigger_data_load_evals (cl : Cluster) (attempt : Z) (actor : ActorHandle)
    (evals : list (RayDMatrix * string)) :
  respects R (_trigger_data_load_evals cl attempt actor evals).
Proof.
  revert actor. induction evals as [|[deval name] evals IH]; intros actor; simpl; [conf|].
  conf_step; [apply conf_load_data_remote|]. conf.
Qed.

Lemma conf_trigger_data_load (cl : Cluster) (attempt : Z) (actor : ActorHandle)
    (dtrain : RayDMatrix) (evals : list (RayDMatrix * string)) :
  respects R (_trigger_data_load cl attempt actor dtrain evals).
Proof. apply (conf_trigger_data_load_evals cl attempt actor ((dtrain, ""%string) :: evals)). Qed.

Lemma conf_load_all (cl : Cluster) (attempt : Z) (actors : list ActorHandle)
    (dtrain : RayDMatrix) (evals : list (RayDMatrix * string)) :
  respects R (load_all cl attempt actors dtrain evals).
Proof.
  induction actors as [|actor actors IH]; simpl; [conf|].
  conf_step; [apply conf_trigger_data_load|]. conf.
Qed.

Lemma conf_train_remote (cl : Cluster) (attempt : Z) (rabit_args : list string)
    (params : gmap string value) (dtrain : RayDMatrix)
    (evals : list (RayDMatrix * string)) (args : list value)
    (kwargs : gmap string value) (actor : ActorHandle) :
  (∀ self, actor = Some self → own self) →
  (∀ cbs, kwargs !! "callbacks" = Some (VCallbacks cbs) →
          Forall (λ cb, hook_ok cb) cbs) →
  respects R (train_remote cl attempt rabit_args params dtrain evals args kwargs actor).
Proof.
  intros Hown Hcbs w. unfold train_remote, remote.
  destruct actor as [self|]; [|reflexivity].
  pose proof (conf_actor_train (process_of cl attempt self) self rabit_args params
                dtrain evals args kwargs (Hown self eq_refl) Hcbs w) as Htrain.
  by destruct (RayXGBoostActor.train _ _ _ _ _ _ _ _ _) as [[[self' a]|[e|]] w1].
Qed.

Lemma conf_cleanup (checkpoint_prefix : option string) (checkpoint_path : string)
    (num_actors : Z) :
  (∀ i f, 0 ≤ i < num_actors →
     _checkpoint_file checkpoint_path checkpoint_prefix i = Some f → S f) →
  respects R (_cleanup checkpoint_prefix checkpoint_path num_actors).
Proof.
  intros HS. unfold _cleanup. conf_step; [|conf].
  apply respects_forM_in. intros i Hi%elem_of_range. unfold cleanup_rank.
  destruct (_checkpoint_file checkpoint_path checkpoint_prefix i) as [f|] eqn:Hf.
  - conf_step; [conf|]. conf_step; [|conf]. apply R_remove. by eapply HS.
  - conf_step; [conf|]. conf_step; [|conf]. intros w. reflexivity.
Qed.

(** A continuation needs to keep the relation only for the values the first
    part returns. *)
Lemma respects_bind_ok {E A B} (m : M E A) (f : A → M E B) :
  respects R m → (∀ w a w', m w = (Ok a, w') → respects R (f a)) →
  respects R (m ≫= f).
Proof.
  intros Hm Hf w. rewrite bind_unfold. specialize (Hm w).
  destruct (m w) as [[a|e] w1] eqn:Hrun; simpl in *; [|done].
  etrans; [done|]. by eapply Hf.
Qed.

Section attempt.

Variables (cl : Cluster) (attempt : Z) (params : gmap string value)
  (dtrain : RayDMatrix) (args : list value) (evals : list (RayDMatrix * string))
  (num_actors gpus_per_worker : Z) (checkpoint_prefix : option string)
  (checkpoint_path : string) (checkpoint_frequency : Z) (kwargs : gmap string value).

Hypothesis rank_files :
  ∀ i f, 0 ≤ i < num_actors →
    _checkpoint_file checkpoint_path checkpoint_prefix i = Some f → S f.
Hypothesis caller_hooks :
  ∀ cbs, kwargs !! "callbacks" = Some (VCallbacks cbs) → Forall (λ cb, hook_ok cb) cbs.

Lemma conf_train_result :
  respects R (_train_result cl attempt params dtrain args evals num_actors
                gpus_per_worker checkpoint_prefix checkpoint_path
                checkpoint_frequency kwargs).
Proof.
  unfold _train_result.
  conf_step; [apply respects_assert_ray_support; apply _|].
  conf_step; [apply R_init|].
  conf_step; [apply respects_resolve_gpus; apply _|].
  apply respects_bind_ok.
  { apply respects_forM_in. intros i _. unfold _create_actor. conf. }
  intros w0 actors w1. rewrite create_actors_spec. intros [= <- _].
  set (selves := (λ i, RayXGBoostActor.__init__ (actor_object_id cl attempt i) i
                         num_actors checkpoint_prefix checkpoint_path
                         checkpoint_frequency) <$> Py.range num_actors).
  replace ((λ i, Some (RayXGBoostActor.__init__ (actor_object_id cl attempt i) i
                         num_actors checkpoint_prefix checkpoint_path
                         checkpoint_frequency)) <$> Py.range num_actors)
    with (Some <$> selves) by (unfold selves; by rewrite <- list_fmap_compose).
  conf_step; [conf|].
  apply respects_bind_ok; [apply conf_load_all|].
  intros w2 [actors' wait_load] w3 Hload.
  apply respects_bind_ok; [conf|].
  intros w4 units w5 [-> ->]%ray_get_ok.
  destruct (load_all_ok _ _ _ _ _ _ _ _ _ Hload) as (selves' & -> & Hloaded & _).
  { apply Forall_fmap, Forall_true. intros u. by exists u. }
  assert (Forall (λ self, own self) selves') as Hown.
  { eapply Forall2_Forall_r; [done|]. unfold selves. apply Forall_fmap, Forall_forall.
    intros i Hi%elem_of_range self' [(_ & Hrank & _ & Hprefix & Hpath & _) _] f.
    unfold RayXGBoostActor.checkpoint_file. rewrite Hrank, Hprefix, Hpath. simpl.
    by apply rank_files. }
  conf_step; [conf|]. unfold _start_rabit_tracker.
  conf_step; [conf|]. cbv zeta.
  conf_step; [|conf].
  apply respects_forM_in. intros actor [self' [-> Hin]]%list_elem_of_fmap.
  apply conf_train_remote; [|done]. intros ? [= <-].
  rewrite Forall_forall in Hown. by apply Hown.
Qed.

Lemma conf_train :
  respects R (_train cl attempt params dtrain args evals num_actors gpus_per_worker
                checkpoint_prefix checkpoint_path checkpoint_frequency kwargs).
Proof.
  unfold _train. conf_step; [apply conf_train_result|].
  destruct a as [bst evals_result]. conf_step; [|conf].
  destruct (Py.truthy checkpoint_prefix); [by apply conf_cleanup|conf].
Qed.

End attempt.

Section retry.

Variables (cl : Cluster) (params : gmap string value) (dtrain : RayDMatrix)
  (args : list value) (evals : list (RayDMatrix * string))
  (num_actors gpus_per_worker : Z) (kwargs : gmap string value).

Hypothesis caller_hooks :
  ∀ cbs, kwargs !! "callbacks" = Some (VCallbacks cbs) → Forall (λ cb, hook_ok cb) cbs.

Lemma conf_call_train (tries : Z)
    (checkpoint_prefix checkpoint_path checkpoint_frequency : value) :
  (kwargs !! "checkpoint_prefix" = None → kwargs !! "checkpoint_path" = None →
   kwargs !! "checkpoint_frequency" = None →
   ∀ p d i f, checkpoint_prefix = VStr p → checkpoint_path = VStr d →
     0 ≤ i < num_actors → _checkpoint_file d (Some p) i = Some f → S f) →
  respects R (call__train cl tries params dtrain args evals num_actors gpus_per_worker
                checkpoint_prefix checkpoint_path checkpoint_frequency kwargs).
Proof.
  intros HS. unfold call__train.
  destruct (kwargs !! "checkpoint_prefix") as [v1|] eqn:H1;
    [rewrite filter_cons_True by (by rewrite H1); conf|].
  rewrite filter_cons_False by (rewrite H1; by intros [? ?]).
  destruct (kwargs !! "checkpoint_path") as [v2|] eqn:H2;
    [rewrite filter_cons_True by (by rewrite H2); conf|].
  rewrite filter_cons_False by (rewrite H2; by intros [? ?]).
  destruct (kwargs !! "checkpoint_frequency") as [v3|] eqn:H3;
    [rewrite filter_cons_True by (by rewrite H3); conf|].
  rewrite filter_cons_False by (rewrite H3; by intros [? ?]).
  rewrite filter_nil.
  destruct checkpoint_prefix as [|z1|p|c1|r1], checkpoint_path as [|z2|d|c2|r2],
    checkpoint_frequency as [|z|s3|c3|r3]; conf.
  - by apply conf_train.
  - apply conf_train; [|done]. intros i f Hi Hf. by eapply (HS eq_refl eq_refl eq_refl).
Qed.

Lemma conf_loop (max_actor_restarts : Restarts)
    (checkpoint_prefix checkpoint_path checkpoint_frequency : value)
    (fuel : nat) (tries : Z) (w w' : World) (r : res exn (option Booster * EvalsResult)) :
  (kwargs !! "checkpoint_prefix" = None → kwargs !! "checkpoint_path" = None →
   kwargs !! "checkpoint_frequency" = None →
   ∀ p d i f, checkpoint_prefix = VStr p → checkpoint_path = VStr d →
     0 ≤ i < num_actors → _checkpoint_file d (Some p) i = Some f → S f) →
  train_loop fuel cl params dtrain args evals num_actors gpus_per_worker
    max_actor_restarts checkpoint_prefix checkpoint_path checkpoint_frequency kwargs
    tries w = Some (r, w') →
  R w w'.
Proof.
  intros HS. revert tries w. induction fuel as [|fuel IH]; intros tries w; [done|].
  rewrite loop_unfold.
  destruct (le_restarts tries max_actor_restarts); [|by intros [= _ <-]].
  pose proof (conf_call_train tries checkpoint_prefix checkpoint_path
                checkpoint_frequency HS w) as Hattempt.
  destruct (call__train _ _ _ _ _ _ _ _ _ _ _ _ w) as [[[bst evals_result]|e] w1];
    simpl in Hattempt; [by intros [= _ <-]|].
  destruct e; try by intros [= _ <-].
  destruct (le_restarts (tries + 1) max_actor_restarts); [|by intros [= _ <-]].
  intros Hrest%IH. etrans; [done|]. etrans; [|done].
  by apply (R_emit exn).
Qed.

Lemma conf_public_train (max_actor_restarts : Z) (fuel : nat) (w w' : World)
    (r : res exn (option Booster * EvalsResult)) :
  (∀ i f, 0 ≤ i < num_actors →
     _checkpoint_file "/tmp" (Some (".xgb_ray_" +:+ time_time cl)) i = Some f → S f) →
  train fuel cl params dtrain args evals num_actors gpus_per_worker
    max_actor_restarts kwargs w = Some (r, w') →
  R w w'.
Proof.
  intros HS. unfold train, _assert_ray_support.
  destruct (RAY_INSTALLED cl); [|by intros [= _ <-]].
  simpl. apply conf_loop. intros -> -> _ p d i f [= <-] [= <-]. apply HS.
Qed.

End retry.

End confinement.

(** *** Files *)

Global Instance only_files_preorder (S : string → Prop) : PreOrder (only_files S).
Proof.
  split.
  - by intros w g Hg.
  - intros w1 w2 w3 H12 H23 g Hg. by rewrite H23, H12.
Qed.

Lemma only_files_emit (S : string → Prop) E (ev : Event) :
  respects (only_files S) (emit (E := E) ev).
Proof. by intros w g Hg. Qed.

Lemma only_files_save (S : string → Prop) (model : Booster) (f : string) :
  S f → respects (only_files S) (save_model model (Some f)).
Proof. intros Hf w g Hg. simpl. apply lookup_insert_ne. by intros ->. Qed.

Lemma only_files_remove (S : string → Prop) (f : string) :
  S f → respects (only_files S) (os_remove (Some f)).
Proof.
  intros Hf w g Hg. unfold os_remove. destruct (files w !! f); [|done].
  simpl. apply lookup_delete_ne. by intros ->.
Qed.

Lemma only_files_init (S : string → Prop) (cl : Cluster) :
  respects (only_files S) (ray_init_if_needed cl).
Proof.
  intros w g Hg. unfold ray_init_if_needed.
  destruct (ray_initialized w); [done|]. by destruct (ray_init cl).
Qed.

(** X13: the only files [train] creates, changes or removes are the
    checkpoint files of its workers.  With hooks of the caller that leave
    the disk alone, an attempt, whatever its outcome, leaves every file
    that is not the checkpoint file of one of the ranks [0, ...,
    num_actors - 1] under its prefix and directory exactly as it was; and so
    does [train] over all its attempts, with the prefix it generates and
    the directory [/tmp]. *)
Theorem train_touches_only_checkpoints
    (cl : Cluster) (params : gmap string value) (dtrain : RayDMatrix)
    (args : list value) (evals : list (RayDMatrix * string))
    (num_actors gpus_per_worker : Z) (kwargs : gmap string value) :
  (∀ cbs, kwargs !! "callbacks" = Some (VCallbacks cbs) →
          Forall (λ cb, ∃ name, cb = UserCallback name) cbs) →
  (∀ attempt checkpoint_prefix checkpoint_path checkpoint_frequency w g,
     (∀ i, 0 ≤ i < num_actors →
        _checkpoint_file checkpoint_path checkpoint_prefix i ≠ Some g) →
     files (_train cl attempt params dtrain args evals num_actors gpus_per_worker
              checkpoint_prefix checkpoint_path checkpoint_frequency kwargs w).2 !! g
     = files w !! g) ∧
  (∀ fuel max_actor_restarts w r w' g,
     train fuel cl params dtrain args evals num_actors gpus_per_worker
       max_actor_restarts kwargs w = Some (r, w') →
     (∀ i, 0 ≤ i < num_actors →
        _checkpoint_file "/tmp" (Some (".xgb_ray_" +:+ time_time cl)) i ≠ Some g) →
     files w' !! g = files w !! g).
Proof.
  intros Hhooks.
  assert (∀ S : string → Prop, ∀ cbs,
            kwargs !! "callbacks" = Some (VCallbacks cbs) →
            Forall (λ cb, ∀ frequency f,
                      cb = SaveCheckpointCallback frequency (Some f) → S f) cbs)
    as Hok.
  { intros S cbs Hcbs. eapply Forall_impl; [by apply Hhooks|].
    by intros cb [name ->] frequency f. }
  split.
  - intros attempt checkpoint_prefix checkpoint_path checkpoint_frequency w g Hg.
    set (S := λ g, ∃ i, 0 ≤ i < num_actors ∧
                        _checkpoint_file checkpoint_path checkpoint_prefix i = Some g).
    apply (conf_train (only_files S) S (λ E ev _, only_files_emit S E ev) (only_files_save S)
             (only_files_remove S) (only_files_init S) cl attempt params dtrain args
             evals num_actors gpus_per_worker checkpoint_prefix checkpoint_path
             checkpoint_frequency kwargs).
    + intros i f Hi Hf. by exists i.
    + apply Hok.
    + intros (i & Hi & Hf). by apply (Hg i).
  - intros fuel max_actor_restarts w r w' g Hrun Hg.
    set (S := λ g, ∃ i, 0 ≤ i < num_actors ∧
                        _checkpoint_file "/tmp" (Some (".xgb_ray_" +:+ time_time cl)) i
                        = Some g).
    apply (conf_public_train (only_files S) S (λ E ev _, only_files_emit S E ev) (only_files_save S)
             (only_files_remove S) (only_files_init S) cl params dtrain args evals
             num_actors gpus_per_worker kwargs (Hok S) max_actor_restarts fuel w w' r).
    + intros i f Hi Hf. by exists i.
    + done.
    + intros (i & Hi & Hf). by apply (Hg i).
Qed.

Lemma train_touches_only_checkpoints_witness :
  match train 2 (demo_cluster 1) ∅ 0%nat [] [] 2 (-1) 1 ∅ checkpointed_world with
  | Some (r, w') => files w' !! "/tmp/ckpt_00000.xgb" = Some 3
  | None => True
  end.
Proof.
  destruct (train 2 (demo_cluster 1) ∅ 0%nat [] [] 2 (-1) 1 ∅ checkpointed_world)
    as [[r w']|] eqn:Hrun; [|exact I].
  destruct (train_touches_only_checkpoints (demo_cluster 1) ∅ 0%nat [] [] 2 (-1) ∅)
    as [_ Htrain].
  { intros cbs Hcbs. rewrite lookup_empty in Hcbs. discriminate Hcbs. }
  etrans; [apply (Htrain 2%nat 1 checkpointed_world r w' _ Hrun)|reflexivity].
  intros i Hi. assert (i = 0 ∨ i = 1) as [-> | ->] by lia; vm_compute; discriminate.
Defined.

(** *** The Ray runtime *)

Global Instance init_once_preorder : PreOrder init_once.
Proof.
  split.
  - intros w. exists []. rewrite app_nil_r. split; [done|].
    by destruct (ray_initialized w) eqn:Hw.
  - intros w1 w2 w3 (evs12 & Ht12 & H12) (evs23 & Ht23 & H23).
    exists (evs12 ++ evs23). rewrite Ht23, Ht12, app_assoc. split; [done|].
    rewrite count_events_app.
    destruct (ray_initialized w1), (ray_initialized w2), (ray_initialized w3);
      intuition (try discriminate; lia).
Qed.

Lemma init_once_quiet (w w' : World) (evs : list Event) :
  trace w' = trace w ++ evs → ray_initialized w' = ray_initialized w →
  count_events is_ray_init evs = 0%nat → init_once w w'.
Proof.
  intros Ht Hinit Hcount. exists evs. split; [done|]. rewrite Hinit, Hcount.
  by destruct (ray_initialized w).
Qed.

Lemma init_once_emit E (ev : Event) :
  is_ray_init ev = false → respects init_once (emit (E := E) ev).
Proof.
  intros Hev w. apply (init_once_quiet _ _ [ev]); [done..|].
  unfold count_events. simpl. by rewrite Hev.
Qed.

Lemma init_once_save (model : Booster) (f : string) :
  respects init_once (save_model model (Some f)).
Proof. intros w. by apply (init_once_quiet _ _ [EvSave f]). Qed.

Lemma init_once_remove (f : string) : respects init_once (os_remove (Some f)).
Proof.
  intros w. unfold os_remove. destruct (files w !! f); [|reflexivity].
  by apply (init_once_quiet _ _ [EvRemove f]).
Qed.

Lemma init_once_init (cl : Cluster) : respects init_once (ray_init_if_needed cl).
Proof.
  intros w. unfold ray_init_if_needed.
  destruct (ray_initialized w) eqn:Hw; [reflexivity|].
  destruct (ray_init cl); [|reflexivity].
  exists [EvRayInit]. simpl. by rewrite Hw.
Qed.

(** X14: [ray.init()] is called only on a runtime that is not up.  Over a
    whole [train], with all its attempts, and over any single attempt: if
    Ray was initialized before, it is initialized afterwards and [ray.init]
    was not called; if it was not, [ray.init] has succeeded once when Ray
    is up afterwards and not at all otherwise.  Ray is never initialized
    twice and never shut down. *)
Theorem ray_initialized_once
    (cl : Cluster) (params : gmap string value) (dtrain : RayDMatrix)
    (args : list value) (evals : list (RayDMatrix * string))
    (num_actors gpus_per_worker : Z) (kwargs : gmap string value) :
  (∀ attempt checkpoint_prefix checkpoint_path checkpoint_frequency w,
     let w' := (_train cl attempt params dtrain args evals num_actors gpus_per_worker
                  checkpoint_prefix checkpoint_path checkpoint_frequency kwargs w).2 in
     ∃ evs, trace w' = trace w ++ evs ∧
       (ray_initialized w = true →
        ray_initialized w' = true ∧ count_events is_ray_init evs = 0%nat) ∧
       (ray_initialized w = false →
        count_events is_ray_init evs = if ray_initialized w' then 1%nat else 0%nat)) ∧
  (∀ fuel max_actor_restarts w r w',
     train fuel cl params dtrain args evals num_actors gpus_per_worker
       max_actor_restarts kwargs w = Some (r, w') →
     ∃ evs, trace w' = trace w ++ evs ∧
       (ray_initialized w = true →
        ray_initialized w' = true ∧ count_events is_ray_init evs = 0%nat) ∧
       (ray_initialized w = false →
        count_events is_ray_init evs = if ray_initialized w' then 1%nat else 0%nat)).
Proof.
  assert (∀ w w', init_once w w' →
            ∃ evs, trace w' = trace w ++ evs ∧
              (ray_initialized w = true →
               ray_initialized w' = true ∧ count_events is_ray_init evs = 0%nat) ∧
              (ray_initialized w = false →
               count_events is_ray_init evs
               = if ray_initialized w' then 1%nat else 0%nat)) as Hunfold.
  { intros w w' (evs & Ht & Hinit). exists evs. split; [done|].
    by destruct (ray_initialized w). }
  set (S := λ _ : string, True).
  assert (∀ cbs, kwargs !! "callbacks" = Some (VCallbacks cbs) →
            Forall (λ cb, ∀ frequency f,
                      cb = SaveCheckpointCallback frequency (Some f) → S f) cbs)
    as Hok by (intros cbs _; by apply Forall_true).
  split.
  - intros attempt checkpoint_prefix checkpoint_path checkpoint_frequency w.
    apply Hunfold.
    by apply (conf_train init_once S init_once_emit (λ model f _, init_once_save model f)
                (λ f _, init_once_remove f) init_once_init cl attempt params dtrain args
                evals num_actors gpus_per_worker checkpoint_prefix checkpoint_path
                checkpoint_frequency kwargs).
  - intros fuel max_actor_restarts w r w' Hrun. apply Hunfold.
    by apply (conf_public_train init_once S init_once_emit
                (λ model f _, init_once_save model f) (λ f _, init_once_remove f)
                init_once_init cl params dtrain args evals num_actors gpus_per_worker
                kwargs Hok max_actor_restarts fuel w w' r).
Qed.

Lemma ray_initialized_once_witness :
  match train 3 (demo_cluster 2) ∅ 0%nat [] [] 2 (-1) 2 ∅ empty_world with
  | Some (r, w') =>
      ∃ evs, trace w' = trace empty_world ++ evs ∧
        count_events is_ray_init evs = if ray_initialized w' then 1%nat else 0%nat
  | None => True
  end.
Proof.
  destruct (train 3 (demo_cluster 2) ∅ 0%nat [] [] 2 (-1) 2 ∅ empty_world)
    as [[r w']|] eqn:Hrun; [|exact I].
  destruct (ray_initialized_once (demo_cluster 2) ∅ 0%nat [] [] 2 (-1) ∅)
    as [_ Htrain].
  destruct (Htrain 3%nat 2 empty_world r w' Hrun) as (evs & Ht & _ & Hcount).
  exists evs. split; [exact Ht|]. apply Hcount. reflexivity.
Defined.

(** ** The workers of an attempt *)





(** ** Without Ray *)



(** ** Loading comes first *)

Section loads_first.

Variables (cl : Cluster) (attempt : Z) (dtrain : RayDMatrix)
  (evals : list (RayDMatrix * string)).

(** The shards of [data] load for the actor. *)
Local Abbreviation loads_for self data :=
  (∃ xy, load_shard (process_of cl attempt self) data (RayXGBoostActor.rank self)
           (RayXGBoostActor.num_actors self) = Ok xy).

Lemma load_data_remote_loaded (data : RayDMatrix) (self : RayXGBoostActor.t)
    (actor' : ActorHandle) (u : unit) (w w' : World) :
  load_data_remote cl attempt data (Some self) w = (Ok (actor', Ok u), w') →
  loads_for self data.
Proof.
  unfold load_data_remote, remote. rewrite bind_unfold.
  destruct (RayXGBoostActor.load_data (process_of cl attempt self) self data w)
    as [[self1|[e|]] w1] eqn:Hload; simpl; [|done..].
  intros _. apply load_data_inv in Hload as (x & y & Hshard & _). by eexists.
Qed.

Lemma trigger_data_load_evals_loaded (evals' : list (RayDMatrix * string))
    (self : RayXGBoostActor.t) (actor' : ActorHandle) (refs : list (ObjectRef unit))
    (w w' : World) :
  _trigger_data_load_evals cl attempt (Some self) evals' w = (Ok (actor', refs), w') →
  Forall (λ ref, ok_ref ref) refs →
  ∀ d, d ∈ evals'.*1 → loads_for self d.
Proof.
  revert self actor' refs w w'.
  induction evals' as [|[deval name] evals' IH]; intros self actor' refs w w'; simpl.
  - intros _ _ d Hd. by apply elem_of_nil in Hd.
  - rewrite bind_unfold.
    destruct (load_data_remote cl attempt deval (Some self) w)
      as [[[actor1 ref1]|e] w1] eqn:H1; [|done].
    rewrite bind_unfold.
    destruct (_trigger_data_load_evals cl attempt actor1 evals' w1)
      as [[[actor2 refs2]|e] w2] eqn:H2; [|done].
    intros [= <- <- <-] [[u ->] Hrefs]%Forall_cons d Hd.
    pose proof (load_data_remote_loaded _ _ _ _ _ _ H1) as Hfirst.
    apply load_data_remote_ok in H1 as (matrix & -> & ->).
    apply elem_of_cons in Hd as [->|Hd]; [done|].
    by apply (IH _ _ _ _ _ H2 Hrefs).
Qed.

Lemma load_all_loaded (selves : list RayXGBoostActor.t) (actors' : list ActorHandle)
    (wait_load : list (ObjectRef unit)) (w w' : World) :
  load_all cl attempt (Some <$> selves) dtrain evals w = (Ok (actors', wait_load), w') →
  Forall (λ ref, ok_ref ref) wait_load →
  Forall (λ self, ∀ d, d ∈ dtrain :: evals.*1 → loads_for self d) selves.
Proof.
  revert actors' wait_load w w'.
  induction selves as [|self selves IH]; intros actors' wait_load w w'; simpl; [done|].
  rewrite bind_unfold.
  destruct (_trigger_data_load cl attempt (Some self) dtrain evals w)
    as [[[actor1 refs1]|e] w1] eqn:H1; [|done].
  rewrite bind_unfold.
  destruct (load_all cl attempt _ dtrain evals w1)
    as [[[actors2 refs2]|e] w2] eqn:H2; [|done].
  intros [= <- <- <-] [Hrefs1 Hrefs2]%Forall_app. constructor.
  - by apply (trigger_data_load_evals_loaded ((dtrain, ""%string) :: evals)
                _ _ _ _ _ H1).
  - by apply (IH _ _ _ _ H2).
Qed.

(** Whatever its outcome, the loop that fills [wait_load] adds nothing but
    loads to the trace. *)
Lemma load_all_setup (actors : list ActorHandle) (w : World) :
  ∃ loads, trace (load_all cl attempt actors dtrain evals w).2 = trace w ++ loads ∧
           Forall (λ ev, is_setup ev = true) loads.
Proof.
  assert (respects (steps (λ ev, is_setup ev = true))
            (load_all cl attempt actors dtrain evals)) as Hsteps.
  { assert (∀ data actor, respects (steps (λ ev, is_setup ev = true))
                            (load_data_remote cl attempt data actor)) as Hremote.
    { intros data actor. unfold load_data_remote. apply respects_remote; [apply _|].
      intros self. frame. apply steps_load_data. by intros []. }
    assert (∀ evals' actor, respects (steps (λ ev, is_setup ev = true))
                              (_trigger_data_load_evals cl attempt actor evals'))
      as Htrigger.
    { intros evals'. induction evals' as [|[deval name] evals' IH]; intros actor; simpl.
      - frame.
      - frame_step; [apply Hremote|]. destruct a. frame. }
    induction actors as [|actor actors IH]; simpl; [frame|].
    frame_step; [apply (Htrigger ((dtrain, ""%string) :: evals))|].
    destruct a. frame. }
  by destruct (Hsteps w) as [_ Hevs].
Qed.

End loads_first.

Lemma ray_get_world {A} (refs : list (ObjectRef A)) (w : World) : (ray_get refs w).2 = w.
Proof.
  unfold ray_get. induction refs as [|ref refs IH]; [done|]. simpl.
  rewrite bind_unfold. destruct ref as [a|[e|]]; simpl; [|done..].
  rewrite bind_unfold. by destruct (forM ray_get1 refs w) as [[vals|e] w1].
Qed.

Lemma resolve_gpus_world (params : gmap string value) (gpus_per_worker : Z) (w : World) :
  (resolve_gpus_per_worker params gpus_per_worker w).2 = w.
Proof. unfold resolve_gpus_per_worker. by repeat case_match. Qed.

(** An attempt up to the point where all loads have returned: either it
    raises, having done nothing but setup, or every load returned, the actors
    are alive with the fields they were created with, and the attempt goes
    on with the tracker and the training calls. *)
Lemma train_result_setup
    (cl : Cluster) (attempt : Z) (params : gmap string value) (dtrain : RayDMatrix)
    (args : list value) (evals : list (RayDMatrix * string))
    (num_actors gpus_per_worker : Z) (checkpoint_prefix : option string)
    (checkpoint_path : string) (checkpoint_frequency : Z)
    (kwargs : gmap string value) (w : World) :
  let r := _train_result cl attempt params dtrain args evals num_actors gpus_per_worker
             checkpoint_prefix checkpoint_path checkpoint_frequency kwargs w in
  (∃ e evs, r.1 = Err e ∧ trace r.2 = trace w ++ evs ∧
            Forall (λ ev, is_setup ev = true) evs ∧ files r.2 = files w) ∨
  (∃ selves w4 evs,
     trace w4 = trace w ++ evs ∧ Forall (λ ev, is_setup ev = true) evs ∧
     files w4 = files w ∧
     Forall2 (λ i self,
                RayXGBoostActor.rank self = i ∧
                RayXGBoostActor.num_actors self = num_actors ∧
                RayXGBoostActor.checkpoint_prefix self = checkpoint_prefix ∧
                RayXGBoostActor.checkpoint_path self = checkpoint_path ∧
                ∀ d, d ∈ dtrain :: evals.*1 →
                  ∃ xy, load_shard (process cl attempt i) d i num_actors = Ok xy)
             (Py.range num_actors) selves ∧
     r = (emit (EvLog "info" "[RayXGBoost] Starting XGBoost training.");;
          env ← _start_rabit_tracker cl attempt num_actors;
          let rabit_args := format_item <$> env in
          started ← forM (train_remote cl attempt rabit_args params dtrain evals args
                            kwargs) (Some <$> selves);
          let fut := started.*2 in
          ray_get fut;;
          match fut !! 0%nat with
          | Some ref => ray_get1 ref
          | None => raise IndexError
          end) w4).
Proof.
  simpl. unfold _train_result, _assert_ray_support.
  destruct (RAY_INSTALLED cl).
  2:{ left. eexists _, []. rewrite app_nil_r. by rewrite bind_unfold. }
  rewrite bind_ret_l, bind_unfold.
  assert ((∃ e, ray_init_if_needed cl w = (Err e, w)) ∨
          (∃ w1 evs1, ray_init_if_needed cl w = (Ok tt, w1) ∧
             trace w1 = trace w ++ evs1 ∧ Forall (λ ev, is_setup ev = true) evs1 ∧
             files w1 = files w))
    as [[e ->]|(w1 & evs1 & -> & Ht1 & Hevs1 & Hfiles1)].
  { unfold ray_init_if_needed. destruct (ray_initialized w).
    - right. exists w, []. by rewrite app_nil_r.
    - destruct (ray_init cl) as [[]|e]; [|left; by eexists].
      right. eexists _, [EvRayInit]. split; [done|]. split; [done|].
      split; [by constructor|done]. }
  { left. exists e, []. by rewrite app_nil_r. }
  rewrite bind_unfold. pose proof (resolve_gpus_world params gpus_per_worker w1) as Hw2.
  destruct (resolve_gpus_per_worker params gpus_per_worker w1) as [[gpus|e] w2];
    simpl in Hw2; subst w2.
  2:{ left. by exists e, evs1. }
  rewrite bind_unfold, create_actors_spec, bind_unfold.
  set (selves := (λ i, RayXGBoostActor.__init__ (actor_object_id cl attempt i) i
                         num_actors checkpoint_prefix checkpoint_path
                         checkpoint_frequency) <$> Py.range num_actors).
  replace ((λ i, Some (RayXGBoostActor.__init__ (actor_object_id cl attempt i) i
                         num_actors checkpoint_prefix checkpoint_path
                         checkpoint_frequency)) <$> Py.range num_actors)
    with (Some <$> selves) by (unfold selves; by rewrite <- list_fmap_compose).
  match goal with
  | |- context [emit ?ev ?w0] => set (w3 := (emit (E := exn) ev w0).2)
  end.
  change (emit _ _) with (Ok tt : res exn unit, w3). cbv beta iota.
  assert (∃ evs3, trace w3 = trace w ++ evs3 ∧ Forall (λ ev, is_setup ev = true) evs3 ∧
                  files w3 = files w) as (evs3 & Ht3 & Hevs3 & Hfiles3).
  { eexists. split; [unfold w3; simpl; rewrite Ht1, <- !app_assoc; done|].
    split; [|done]. apply Forall_app. split; [done|]. apply Forall_app.
    split; [|by constructor]. apply Forall_fmap. by apply Forall_true. }
  clearbody w3. rewrite bind_unfold.
  destruct (load_all_setup cl attempt dtrain evals (Some <$> selves) w3)
    as (loads & Ht4 & Hloads).
  pose proof (conf_load_all (only_files (λ _, False))
                (λ E ev _, only_files_emit _ E ev) cl attempt (Some <$> selves)
                dtrain evals w3) as Hfiles4.
  destruct (load_all cl attempt (Some <$> selves) dtrain evals w3)
    as [[[actors' wait_load]|e] w4] eqn:Hload; simpl in Ht4, Hfiles4.
  2:{ left. exists e, (evs3 ++ loads). simpl. rewrite Ht4, Ht3, app_assoc.
      split; [done|]. split; [done|]. split; [by apply Forall_app|].
      rewrite <- Hfiles3. apply map_eq. intros g. apply Hfiles4. by intros []. }
  rewrite bind_unfold. pose proof (ray_get_world wait_load w4) as Hw5.
  destruct (ray_get wait_load w4) as [[units|e] w5] eqn:Hget; simpl in Hw5; subst w5.
  2:{ left. exists e, (evs3 ++ loads). simpl. rewrite Ht4, Ht3, app_assoc.
      split; [done|]. split; [done|]. split; [by apply Forall_app|].
      rewrite <- Hfiles3. apply map_eq. intros g. apply Hfiles4. by intros []. }
  right. apply ray_get_ok in Hget as [-> _].
  assert (Forall (λ ref : ObjectRef unit, ok_ref ref) (Ok <$> units)) as Hrefs
    by (apply Forall_fmap, Forall_true; intros u; by exists u).
  pose proof (load_all_loaded cl attempt dtrain evals _ _ _ _ _ Hload Hrefs) as Hall.
  destruct (load_all_ok _ _ _ _ _ _ _ _ _ Hload Hrefs) as (selves' & -> & Hsame & _).
  exists selves', w4, (evs3 ++ loads). rewrite Ht4, Ht3, app_assoc.
  split; [done|]. split; [by apply Forall_app|]. split.
  { rewrite <- Hfiles3. apply map_eq. intros g. apply Hfiles4. by intros []. }
  split; [|done].
  unfold selves in Hsame, Hall. apply Forall2_fmap_l in Hsame.
  rewrite Forall_fmap in Hall.
  apply Forall2_same_length_lookup. split; [by eapply Forall2_length|].
  intros k i self' Hi Hself'.
  destruct (Forall2_lookup_lr _ _ _ _ _ _ Hsame Hi Hself')
    as [(_ & Hrank & Hnum & Hprefix & Hpath & _) _].
  rewrite Forall_lookup in Hall. specialize (Hall k i Hi). simpl in *.
  by repeat split.
Qed.

(** X17: loading comes first.  [_train] waits for all the loads it
    triggered before it starts the tracker: in every attempt, either every
    worker has loaded its shard of [dtrain] and of every handle of [evals],
    or the attempt raises, and all that has happened by then is setup: the
    runtime brought up, workers created, log lines, loads.  No tracker was
    started, no worker joined the rendezvous or trained, and no file was
    saved or removed. *)
Theorem training_waits_for_loads
    (cl : Cluster) (attempt : Z) (params : gmap string value) (dtrain : RayDMatrix)
    (args : list value) (evals : list (RayDMatrix * string))
    (num_actors gpus_per_worker : Z) (checkpoint_prefix : option string)
    (checkpoint_path : string) (checkpoint_frequency : Z)
    (kwargs : gmap string value) (w : World) :
  let r := _train cl attempt params dtrain args evals num_actors gpus_per_worker
             checkpoint_prefix checkpoint_path checkpoint_frequency kwargs w in
  (∀ i d, 0 ≤ i < num_actors → d ∈ dtrain :: evals.*1 →
     ∃ xy, load_shard (process cl attempt i) d i num_actors = Ok xy) ∨
  (∃ e evs, r.1 = Err e ∧ trace r.2 = trace w ++ evs ∧
            Forall (λ ev, is_setup ev = true) evs ∧ files r.2 = files w).
Proof.
  simpl.
  destruct (train_result_setup cl attempt params dtrain args evals num_actors
              gpus_per_worker checkpoint_prefix checkpoint_path checkpoint_frequency
              kwargs w)
    as [(e & evs & Hr & Ht & Hevs & Hfiles)|(selves & w4 & evs & _ & _ & _ & Hall & _)].
  - right. unfold _train. rewrite bind_unfold.
    destruct (_train_result cl attempt params dtrain args evals num_actors
                gpus_per_worker checkpoint_prefix checkpoint_path checkpoint_frequency
                kwargs w) as [[res|e'] w']; simpl in *; [done|].
    by exists e', evs.
  - left. intros i d [k Hk]%elem_of_range%list_elem_of_lookup Hd.
    destruct (Forall2_lookup_l _ _ _ _ _ Hall Hk) as (self & _ & _ & _ & _ & _ & Hloads).
    by apply Hloads.
Qed.

Lemma training_waits_for_loads_witness :
  ∃ e evs,
    (_train doomed_cluster 0 ∅ 0%nat [] [] 2 (-1) (Some "ckpt") "/tmp" 5 ∅
       checkpointed_world).1 = Err e ∧
    trace (_train doomed_cluster 0 ∅ 0%nat [] [] 2 (-1) (Some "ckpt") "/tmp" 5 ∅
             checkpointed_world).2 = trace checkpointed_world ++ evs ∧
    Forall (λ ev, is_setup ev = true) evs.
Proof.
  destruct (training_waits_for_loads doomed_cluster 0 ∅ 0%nat [] [] 2 (-1)
              (Some "ckpt") "/tmp" 5 ∅ checkpointed_world)
    as [Hloaded|(e & evs & He & Ht & Hevs & _)].
  - exfalso. destruct (Hloaded 0 0%nat) as [xy Hxy]; [lia|left|discriminate Hxy].
  - exists e, evs. split; [exact He|]. split; [exact Ht|exact Hevs].
Defined.

(** ** Resuming from the checkpoints *)

Section resume.

Variables (cl : Cluster) (attempt : Z) (rabit_args : list string)
  (params : gmap string value) (dtrain : RayDMatrix)
  (evals : list (RayDMatrix * string)) (args : list value)
  (kwargs : gmap string value)
  (checkpoint_prefix : option string) (checkpoint_path : string).

Hypothesis caller_hooks :
  ∀ cbs, kwargs !! "callbacks" = Some (VCallbacks cbs) →
         Forall (λ cb, ∃ name, cb = UserCallback name) cbs.

(** What an engine that is started for the checkpoint file [f] is given in
    a world [w]. *)
Local Abbreviation resumed w :=
  (λ f : string,
     if decide (is_Some (files w !! f)) then Some (VStr f) else kwargs !! "xgb_model").

Lemma train_remote_resumes (self : RayXGBoostActor.t) (w : World) :
  let r := train_remote cl attempt rabit_args params dtrain evals args kwargs
             (Some self) w in
  (∀ g, RayXGBoostActor.checkpoint_file self ≠ Some g → files r.2 !! g = files w !! g) ∧
  ∃ evs, trace r.2 = trace w ++ evs ∧
    ∀ m, EvXgbTrain m ∈ evs →
      ∃ f, RayXGBoostActor.checkpoint_file self = Some f ∧ m = resumed w f.
Proof.
  simpl. unfold train_remote, remote.
  set (c := process_of cl attempt self).
  assert (only_files (λ g, RayXGBoostActor.checkpoint_file self = Some g) w
            (RayXGBoostActor.train c self rabit_args params dtrain evals args kwargs w).2)
    as Hfiles.
  { apply (conf_actor_train
             (only_files (λ g, RayXGBoostActor.checkpoint_file self = Some g))
             (λ g, RayXGBoostActor.checkpoint_file self = Some g)
             (λ E ev _, only_files_emit _ E ev) (only_files_save _)); [done|].
    intros cbs Hcbs. eapply Forall_impl; [by apply caller_hooks|].
    by intros cb [name ->] frequency f. }
  destruct (train_spec c rabit_args params dtrain evals args kwargs self w)
    as (loads & tail & Ht & Hloads & _ & _ & Hxgb & _).
  simpl in Ht.
  assert (∀ m, EvXgbTrain m ∈ loads ++ tail →
            ∃ f, RayXGBoostActor.checkpoint_file self = Some f ∧ m = resumed w f)
    as Hevs.
  { intros m [Hm|Hm]%elem_of_app; [|by apply Hxgb].
    rewrite Forall_forall in Hloads. by apply Hloads in Hm. }
  destruct (RayXGBoostActor.train c self rabit_args params dtrain evals args kwargs w)
    as [[[self' a]|[e|]] w']; simpl in *; (split; [done|by exists (loads ++ tail)]).
Qed.

(** The training calls on actors of different ranks: each engine that is
    started gets the checkpoint file of its rank if that file existed
    before the first call, since no worker touches the file of another. *)
Lemma train_all_resumes (selves : list RayXGBoostActor.t) (w : World) :
  Forall (λ self, RayXGBoostActor.checkpoint_prefix self = checkpoint_prefix ∧
                  RayXGBoostActor.checkpoint_path self = checkpoint_path) selves →
  NoDup (RayXGBoostActor.rank <$> selves) →
  let r := forM (train_remote cl attempt rabit_args params dtrain evals args kwargs)
                (Some <$> selves) w in
  ∃ evs, trace r.2 = trace w ++ evs ∧
    ∀ m, EvXgbTrain m ∈ evs →
      ∃ i f, i ∈ RayXGBoostActor.rank <$> selves ∧
             _checkpoint_file checkpoint_path checkpoint_prefix i = Some f ∧
             m = resumed w f.
Proof.
  simpl. revert w. induction selves as [|self selves IH]; intros w Hfields Hranks.
  - exists []. rewrite app_nil_r. split; [done|]. by intros m ?%elem_of_nil.
  - apply Forall_cons in Hfields as [[Hprefix Hpath] Hfields].
    rewrite fmap_cons in Hranks. apply NoDup_cons in Hranks as [Hfresh Hranks].
    rewrite fmap_cons. cbn [forM]. rewrite bind_unfold.
    destruct (train_remote_resumes self w) as (Hfiles & evs1 & Ht1 & Hxgb1).
    destruct (train_remote cl attempt rabit_args params dtrain evals args kwargs
                (Some self) w) as [[[actor' ref]|e] w1]; cbn [fst snd] in *.
    2:{ exists evs1. split; [done|]. intros m Hm.
        destruct (Hxgb1 m Hm) as (f & Hf & ->).
        exists (RayXGBoostActor.rank self), f. split; [left|]. split; [|done].
        by rewrite <- Hf, <- Hprefix, <- Hpath. }
    rewrite bind_unfold.
    destruct (IH w1 Hfields Hranks) as (evs2 & Ht2 & Hxgb2).
    match goal with
    | |- ∃ evs, trace (snd ?X) = _ ∧ _ =>
        assert (trace (snd X) = trace w1 ++ evs2) as ->
          by (revert Ht2; by destruct (forM _ _ w1) as [[a|e2] w2])
    end.
    exists (evs1 ++ evs2). split; [by rewrite Ht1, app_assoc|].
    intros m [Hm|Hm]%elem_of_app.
    + destruct (Hxgb1 m Hm) as (f & Hf & ->).
      exists (RayXGBoostActor.rank self), f. split; [left|]. split; [|done].
      by rewrite <- Hf, <- Hprefix, <- Hpath.
    + destruct (Hxgb2 m Hm) as (i & f & Hi & Hf & ->).
      exists i, f. split; [by right|]. split; [done|].
      rewrite Hfiles; [done|].
      unfold RayXGBoostActor.checkpoint_file. rewrite Hprefix, Hpath. intros Hsame.
      apply Hfresh. replace (RayXGBoostActor.rank self) with i; [done|].
      apply (checkpoint_file_inj checkpoint_path checkpoint_prefix); [|congruence].
      unfold _checkpoint_file in Hf. destruct checkpoint_prefix as [p|]; [|done].
      by destruct (Py.truthy (Some p)).
Qed.

End resume.

Lemma ray_get1_world {A} (ref : ObjectRef A) (w : World) : (ray_get1 ref w).2 = w.
Proof. by destruct ref as [a|[e|]]. Qed.

(** X18: every attempt continues from the checkpoints it finds.  With hooks
    of the caller that leave the disk alone, whenever a worker of an attempt
    starts the engine, the engine is given the checkpoint file of the
    worker's rank if that file existed when the attempt began, and the
    caller's [xgb_model] (or none) if it did not: what the workers of a
    failed attempt saved is what the workers of the next attempt start
    from, rank by rank. *)
Theorem attempt_resumes_from_checkpoints
    (cl : Cluster) (attempt : Z) (params : gmap string value) (dtrain : RayDMatrix)
    (args : list value) (evals : list (RayDMatrix * string))
    (num_actors gpus_per_worker : Z) (checkpoint_prefix : option string)
    (checkpoint_path : string) (checkpoint_frequency : Z)
    (kwargs : gmap string value) (w : World) :
  (∀ cbs, kwargs !! "callbacks" = Some (VCallbacks cbs) →
          Forall (λ cb, ∃ name, cb = UserCallback name) cbs) →
  let r := _train cl attempt params dtrain args evals num_actors gpus_per_worker
             checkpoint_prefix checkpoint_path checkpoint_frequency kwargs w in
  ∃ evs, trace r.2 = trace w ++ evs ∧
    ∀ m, EvXgbTrain m ∈ evs →
      ∃ i f, 0 ≤ i < num_actors ∧
        _checkpoint_file checkpoint_path checkpoint_prefix i = Some f ∧
        m = if decide (is_Some (files w !! f)) then Some (VStr f)
            else kwargs !! "xgb_model".
Proof.
  intros Hhooks. simpl.
  assert (∃ evs,
    trace (_train_result cl attempt params dtrain args evals num_actors gpus_per_worker
             checkpoint_prefix checkpoint_path checkpoint_frequency kwargs w).2
    = trace w ++ evs ∧
    ∀ m, EvXgbTrain m ∈ evs →
      ∃ i f, 0 ≤ i < num_actors ∧
        _checkpoint_file checkpoint_path checkpoint_prefix i = Some f ∧
        m = if decide (is_Some (files w !! f)) then Some (VStr f)
            else kwargs !! "xgb_model") as (evs & Ht & Hevs).
  { destruct (train_result_setup cl attempt params dtrain args evals num_actors
                gpus_per_worker checkpoint_prefix checkpoint_path checkpoint_frequency
                kwargs w)
      as [(e & evs & _ & Ht & Hevs & _)
         |(selves & w4 & evs & Ht & Hevs & Hfiles & Hall & ->)].
    { exists evs. split; [done|]. intros m Hm.
      rewrite Forall_forall in Hevs. by apply Hevs in Hm. }
    rewrite bind_unfold.
    match goal with
    | |- context [emit ?ev w4] => set (w5 := (emit (E := exn) ev w4).2)
    end.
    change (emit _ w4) with (Ok tt : res exn unit, w5). cbv beta iota.
    rewrite bind_unfold. unfold _start_rabit_tracker. rewrite bind_unfold.
    match goal with
    | |- context [emit ?ev w5] => set (w6 := (emit (E := exn) ev w5).2)
    end.
    change (emit _ w5) with (Ok tt : res exn unit, w6). cbv beta iota zeta.
    unfold mret at 1, M_ret at 1. cbv beta iota. rewrite bind_unfold.
    assert (trace w6 = trace w ++ evs ++ [EvLog "info" "[RayXGBoost] Starting XGBoost training."; EvTracker num_actors]
            ∧ files w6 = files w) as [Ht6 Hfiles6].
    { unfold w6, w5. simpl. by rewrite Ht, <- !app_assoc. }
    clearbody w6. clear w5.
    match goal with
    | |- context [forM (train_remote cl attempt ?ra params dtrain evals args kwargs)
                    (Some <$> selves) w6] =>
        destruct (train_all_resumes cl attempt ra params dtrain evals args kwargs
                    checkpoint_prefix checkpoint_path Hhooks selves w6)
          as (evs7 & Ht7 & Hevs7)
    end.
    { eapply Forall2_Forall_r; [exact Hall|]. apply Forall_true.
      by intros i self (_ & _ & Hprefix & Hpath & _). }
    { replace (RayXGBoostActor.rank <$> selves) with (Py.range num_actors).
      - unfold Py.range. apply NoDup_fmap; [apply _|apply NoDup_seq].
      - apply list_eq_Forall2, Forall2_fmap_r.
        eapply Forall2_impl; [exact Hall|]. by intros i self (<- & _). }
    assert (RayXGBoostActor.rank <$> selves = Py.range num_actors) as Hranks.
    { symmetry. apply list_eq_Forall2, Forall2_fmap_r.
      eapply Forall2_impl; [exact Hall|]. by intros i self (<- & _). }
    exists (evs ++ [EvLog "info" "[RayXGBoost] Starting XGBoost training.";
                    EvTracker num_actors] ++ evs7).
    split.
    - rewrite !app_assoc, <- (app_assoc (trace w)), <- Ht6, <- Ht7.
      destruct (forM (train_remote cl attempt _ params dtrain evals args kwargs)
                  (Some <$> selves) w6) as [[started|e] w7]; [|done].
      rewrite bind_unfold. pose proof (ray_get_world started.*2 w7) as Hw8.
      destruct (ray_get started.*2 w7) as [[vals|e] w8]; simpl in Hw8; subst w8;
        [|done].
      destruct (started.*2 !! 0%nat) as [ref|]; [|done].
      by rewrite ray_get1_world.
    - intros m [Hm|[Hm|Hm]%elem_of_app]%elem_of_app.
      + rewrite Forall_forall in Hevs. by apply Hevs in Hm.
      + rewrite !elem_of_cons, elem_of_nil in Hm. by destruct Hm as [?|[?|[]]].
      + destruct (Hevs7 m Hm) as (i & f & Hi & Hf & ->).
        exists i, f. rewrite Hranks in Hi. apply elem_of_range in Hi.
        by rewrite Hfiles6. }
  unfold _train. rewrite bind_unfold.
  destruct (_train_result cl attempt params dtrain args evals num_actors
              gpus_per_worker checkpoint_prefix checkpoint_path
              checkpoint_frequency kwargs w) as [[[bst evals_result]|e] w1];
    [|by exists evs].
  rewrite bind_unfold.
  destruct (Py.truthy checkpoint_prefix) eqn:Hprefix; [|by exists evs].
  destruct (cleanup_spec checkpoint_prefix checkpoint_path num_actors w1 Hprefix)
    as (w2 & -> & _ & _ & removed & Ht2 & Hremoved). simpl in *.
  exists (evs ++ removed). split; [by rewrite Ht2, Ht, app_assoc|].
  intros m [Hm|Hm]%elem_of_app; [by apply Hevs|].
  rewrite Forall_forall in Hremoved. by apply Hremoved in Hm.
Qed.

Lemma attempt_resumes_from_checkpoints_witness :
  ∃ evs,
    trace (_train (demo_cluster 0) 0 ∅ 0%nat [] [] 2 (-1) (Some "ckpt") "/tmp" 5 ∅
             checkpointed_world).2 = trace checkpointed_world ++ evs ∧
    EvXgbTrain (Some (VStr "/tmp/ckpt_00001.xgb")) ∉ evs.
Proof.
  destruct (attempt_resumes_from_checkpoints (demo_cluster 0) 0 ∅ 0%nat [] [] 2 (-1)
              (Some "ckpt") "/tmp" 5 ∅ checkpointed_world) as (evs & Ht & Hevs).
  { intros cbs Hcbs. rewrite lookup_empty in Hcbs. discriminate Hcbs. }
  exists evs. split; [exact Ht|]. intros Hm.
  destruct (Hevs _ Hm) as (i & f & Hi & Hf & Hmodel).
  assert (i = 0 ∨ i = 1) as [-> | ->] by lia;
    vm_compute in Hf; injection Hf as <-; vm_compute in Hmodel; discriminate Hmodel.
Defined.

Example second_attempt_resumes :
  List.filter (λ ev, match ev with EvXgbTrain _ => true | _ => false end)
    (match train 2 (demo_cluster 1) ∅ 0%nat [] [] 2 (-1) 1 ∅ empty_world with
     | Some (_, w') => trace w'
     | None => []
     end)
  = [EvXgbTrain None; EvXgbTrain None;
     EvXgbTrain (Some (VStr "/tmp/.xgb_ray_1600000000.5_00000.xgb"));
     EvXgbTrain (Some (VStr "/tmp/.xgb_ray_1600000000.5_00001.xgb"))].
Proof. vm_compute. reflexivity. Qed.
